(** * Simulated Google Drive server (dev/simulated_google.py)

    A shallow embedding of the data-plane handlers of [SimulatedGoogle]:
    the item store, the field projection and query filter, and the
    resumable upload state machine, followed by the properties of the
    specification that concern them.

    Conventions of the embedding.
    - Python [int] is [Z]; [str] is [string] over 8-bit characters, so the
      regular-expression class [\d] is the ten characters 0-9 and [.] is
      every character but the line feed.
    - A Python [dict] keeps insertion order: it is an association list with
      unique keys, assignment replaces in place or appends at the end.
    - The stored items are Python objects shared by reference between
      [self.items] and [self._upload_info]: they live in a heap of item
      objects and the two dictionaries hold addresses.
    - A handler is a state-passing computation that stops early with the
      response it returns or the exception it raises.
    - Handlers run one at a time, from their first statement to their last,
      as in the single-threaded cooperative server. *)

From Stdlib Require Import ZArith Lia Bool Ascii String List DecimalString.
From stdpp Require Import base list strings.
Import ListNotations.

Local Open Scope Z_scope.

(** ** Text *)

Module Text.

(** The line feed, which [.] does not match and [$] tolerates at the end. *)
Definition LF : ascii := "010"%char.

(** The double quote of the JSON texts. *)
Definition DQ : string := String "034"%char "".

Definition is_digit (c : ascii) : bool :=
  (48 <=? Z.of_N (N_of_ascii c)) && (Z.of_N (N_of_ascii c) <=? 57).

Definition is_LF (c : ascii) : bool := Ascii.eqb c LF.

Fixpoint all_chars (p : ascii -> bool) (s : string) : bool :=
  match s with
  | EmptyString => true
  | String c s' => p c && all_chars p s'
  end.

(** A non-empty run of digits, what [\d+] matches in full. *)
Definition is_number (s : string) : bool :=
  negb (String.eqb s "") && all_chars is_digit s.

(** [len(s)] *)
Definition len (s : string) : Z := Z.of_nat (String.length s).

(** [s.startswith(p)], returning what follows the prefix. *)
Fixpoint strip_prefix (p s : string) : option string :=
  match p with
  | EmptyString => Some s
  | String a p' =>
      match s with
      | EmptyString => None
      | String b s' => if Ascii.eqb a b then strip_prefix p' s' else None
      end
  end.

Definition startswith (s p : string) : bool :=
  match strip_prefix p s with Some _ => true | None => false end.

(** [s.endswith(p)] *)
Definition endswith (s p : string) : bool :=
  startswith (String.rev s) (String.rev p).

(** The slice [s[a:]]. *)
Fixpoint drop_chars (a : nat) (s : string) : string :=
  match a, s with
  | O, _ => s
  | S a', EmptyString => EmptyString
  | S a', String _ s' => drop_chars a' s'
  end.

(** The slice [s[:n]] for a length [n]. *)
Fixpoint take_chars (n : nat) (s : string) : string :=
  match n, s with
  | O, _ => EmptyString
  | S n', EmptyString => EmptyString
  | S n', String c s' => String c (take_chars n' s')
  end.

(** The slice [s[a:-b]] for literal [a >= 0] and [b > 0]: empty when the
    two cuts cross. *)
Definition slice (a b : nat) (s : string) : string :=
  take_chars (String.length s - b - a) (drop_chars a s).

(** [s.split(",")]: the pieces between the separators, at least one. *)
Fixpoint split_on (sep : ascii) (cur : string) (s : string) : list string :=
  match s with
  | EmptyString => [String.rev cur]
  | String c s' =>
      if Ascii.eqb c sep
      then String.rev cur :: split_on sep EmptyString s'
      else split_on sep (String c cur) s'
  end.

Definition split_comma (s : string) : list string :=
  split_on ","%char EmptyString s.

(** [x in s] for two strings. *)
Fixpoint contains (x s : string) : bool :=
  startswith s x ||
  match s with
  | EmptyString => false
  | String _ s' => contains x s'
  end.

(** The end of a match of [$]: the end of the text, or a line feed that
    ends the text. *)
Definition at_end (s : string) : bool :=
  String.eqb s "" || String.eqb s (String LF "").

(** [re.match("^" + ".*" + tail + "$", s)] once the literal head of the
    pattern is consumed: some prefix without a line feed is followed by
    [tail] and the end. *)
Fixpoint dotstar_then (tail : string) (s : string) : bool :=
  match strip_prefix tail s with
  | Some r => at_end r
  | None => false
  end ||
  match s with
  | EmptyString => false
  | String c s' => negb (is_LF c) && dotstar_then tail s'
  end.

(** The longest prefix of digits, and what follows it. *)
Fixpoint span_digits (s : string) : string * string :=
  match s with
  | EmptyString => (EmptyString, EmptyString)
  | String c s' =>
      if is_digit c
      then let (d, r) := span_digits s' in (String c d, r)
      else (EmptyString, s)
  end.

(** [int(s)] on a run of digits. *)
Fixpoint int_digits (acc : Z) (s : string) : Z :=
  match s with
  | EmptyString => acc
  | String c s' => int_digits (10 * acc + (Z.of_N (N_of_ascii c) - 48)) s'
  end.

Definition int_of (s : string) : Z := int_digits 0 s.

(** [str(n)] and ["{0}".format(n)] for an integer. *)
Definition str_of (n : Z) : string := NilZero.string_of_int (Z.to_int n).

End Text.

(** ** Patterns *)

(** [mimeTypeQueryPattern = re.compile("^mimeType='.*'$")] *)
Definition mimeTypeQueryPattern (q : string) : bool :=
  match Text.strip_prefix "mimeType='" q with
  | Some r => Text.dotstar_then "'" r
  | None => false
  end.

(** [parentsQueryPattern = re.compile("^'.*' in parents$")] *)
Definition parentsQueryPattern (q : string) : bool :=
  match Text.strip_prefix "'" q with
  | Some r => Text.dotstar_then "' in parents" r
  | None => false
  end.

(** [resumeBytesPattern = re.compile("^bytes \\*/\\d+$")] *)
Definition resumeBytesPattern (info : string) : bool :=
  match Text.strip_prefix "bytes */" info with
  | Some r =>
      let (d, r') := Text.span_digits r in
      negb (String.eqb d "") && Text.at_end r'
  | None => false
  end.

(** Modelled from the spec: [bytesPattern] of base_server.py, which is not
    among the sources. The chunk-transfer shape of [Content-Range] is
    [bytes <start>-<end>/<total>], three runs of digits. *)
Definition bytesPattern (info : string) : bool :=
  match Text.strip_prefix "bytes " info with
  | Some r =>
      let (d1, r1) := Text.span_digits r in
      negb (String.eqb d1 "") &&
      match r1 with
      | String "-" r2 =>
          let (d2, r3) := Text.span_digits r2 in
          negb (String.eqb d2 "") &&
          match r3 with
          | String "/" r4 =>
              let (d3, r5) := Text.span_digits r4 in
              negb (String.eqb d3 "") && Text.at_end r5
          | _ => false
          end
      | _ => false
      end
  | None => false
  end.

(** Modelled from the spec: [intPattern] of base_server.py, which is not
    among the sources; [intPattern.findall] lists the runs of digits of a
    text from left to right. [cur] is the run being read, reversed. *)
Fixpoint intPattern_findall_from (cur : string) (s : string) : list string :=
  match s with
  | EmptyString =>
      if String.eqb cur "" then [] else [String.rev cur]
  | String c s' =>
      if Text.is_digit c
      then intPattern_findall_from (String c cur) s'
      else (if String.eqb cur "" then [] else [String.rev cur])
             ++ intPattern_findall_from EmptyString s'
  end.

Definition intPattern_findall (s : string) : list string :=
  intPattern_findall_from EmptyString s.

(** ** Field projection *)

(** [parseFields] *)
Definition parseFields (source : string) : list string :=
  map (fun field =>
         if Text.startswith field "files(" then Text.drop_chars 6 field
         else if Text.endswith field ")"
              then Text.take_chars (String.length field - 1) field
              else field)
      (Text.split_comma source).

(** ** Values and dictionaries *)

(** The values of item metadata: what [request.json()] produces (floats
    apart), and the [bytearray] an upload accumulates. *)
#[warnings="-register-all"]
Inductive value : Type :=
| VNone
| VBool (b : bool)
| VInt (z : Z)
| VStr (s : string)
| VList (l : list value)
| VDict (d : list (string * value))
| VBytes (b : list Byte.byte).

Section Dict.
Context {V : Type}.

(** [d.get(k)] *)
Fixpoint dict_get (k : string) (d : list (string * V)) : option V :=
  match d with
  | [] => None
  | (k', v) :: d' => if String.eqb k k' then Some v else dict_get k d'
  end.

(** [k in d] *)
Definition dict_has (k : string) (d : list (string * V)) : bool :=
  match dict_get k d with Some _ => true | None => false end.

(** [d[k] = v]: an existing key keeps its place, a new one goes last. *)
Fixpoint dict_set (k : string) (v : V) (d : list (string * V))
  : list (string * V) :=
  match d with
  | [] => [(k, v)]
  | (k', v') :: d' =>
      if String.eqb k k' then (k', v) :: d' else (k', v') :: dict_set k v d'
  end.

(** [del d[k]] *)
Fixpoint dict_del (k : string) (d : list (string * V)) : list (string * V) :=
  match d with
  | [] => []
  | (k', v') :: d' =>
      if String.eqb k k' then d' else (k', v') :: dict_del k d'
  end.

(** [d.values()] *)
Definition dict_values (d : list (string * V)) : list V := map snd d.
End Dict.

(** An item: a metadata record. *)
Definition Item : Type := list (string * value).

(** [json.dumps] raises [TypeError] on a [bytearray], at any depth. *)
Fixpoint serialisable (v : value) : bool :=
  match v with
  | VBytes _ => false
  | VList l => forallb serialisable l
  | VDict d => forallb (fun kv => serialisable (snd kv)) d
  | _ => true
  end.

(** [filter_fields] *)
Definition filter_fields (item : Item) (fields : list string) : Item :=
  fold_left
    (fun ret field =>
       match dict_get field item with
       | Some v => dict_set field v ret
       | None => ret
       end)
    fields [].

(** What the handlers take from outside: the identifier [generateId]
    draws and the text [timeToRfc3339String(self._time.now())] gives when
    the request is served. *)
Record Env : Type := {
  generateId : string;
  timeToRfc3339String : string
}.

(** [formatItem] *)
Definition formatItem (env : Env) (base : Item) (id : string) : Item :=
  let base := dict_set "capabilities"
                (VDict [("canAddChildren", VBool true);
                        ("canListChildren", VBool true);
                        ("canDeleteChildren", VBool true)]) base in
  let base := dict_set "trashed" (VBool false) base in
  let base := dict_set "id" (VStr id) base in
  dict_set "modifiedTime" (VStr (timeToRfc3339String env)) base.

(** ** Requests and responses *)

(** The outcome of [int(...)] on a header. *)
Inductive int_header : Type :=
| Absent
| Malformed
| IntValue (z : Z).

Record Request : Type := {
  match_id : string;                        (* request.match_info.get('id') *)
  Authorization : option string;
  query : list (string * string);           (* request.query *)
  X_Upload_Content_Type : option string;
  X_Upload_Content_Length : int_header;
  Content_Length : int_header;
  Content_Range : option string;
  json : option Item;                       (* request.json(), an object *)
  body : list Byte.byte                     (* readAll(request) *)
}.

(** [request.query.get(k, default)] *)
Definition query_get (req : Request) (k : string) (default : string) : string :=
  match dict_get k (query req) with Some v => v | None => default end.

Inductive Body : Type :=
| NoBody
| JsonBody (v : value)
| TextBody (s : string).

Record Response : Type := {
  status : Z;
  content_type : option string;
  headers : list (string * string);
  resp_body : Body
}.

Inductive HTTPException : Type :=
| HTTPBadRequest
| HTTPNotFound
| HTTPUnauthorized.

(** How a handler ends. *)
Inductive outcome : Type :=
| Returns (r : Response)
| Raises (e : HTTPException)
| ReturnsClass (e : HTTPException)  (* the class itself, not a response *)
| ServesBytes (v : value)           (* what BaseServer.serve_bytes answers *)
| Fails.                            (* KeyError, TypeError, ValueError *)

(** [Response()] and [Response(status=...)] *)
Definition plain_response (st : Z) (hs : list (string * string)) : Response :=
  {| status := st; content_type := None; headers := hs; resp_body := NoBody |}.

(** The text ['{"error": {"errors": [{"reason": "forbidden"}]}}']. *)
Definition forbidden_text : string :=
  "{" +:+ Text.DQ +:+ "error" +:+ Text.DQ +:+ ": {"
      +:+ Text.DQ +:+ "errors" +:+ Text.DQ +:+ ": [{"
      +:+ Text.DQ +:+ "reason" +:+ Text.DQ +:+ ": "
      +:+ Text.DQ +:+ "forbidden" +:+ Text.DQ +:+ "}]}}".

Definition forbidden_response : Response :=
  {| status := 403; content_type := Some "application/json";
     headers := []; resp_body := TextBody forbidden_text |}.

(** The body of the quota answer. *)
Definition quota_body : value :=
  VDict [("error",
          VDict [("errors",
                  VList [VDict [("reason", VStr "storageQuotaExceeded")]])])].

(** ** Server state *)

Record upload_info : Type := {
  ui_size : Z;
  ui_mime : string;
  ui_item : nat;          (* the pending item object *)
  ui_id : string;
  ui_next_start : Z
}.

Record State : Type := {
  _auth_token : string;
  heap : list Item;                 (* the item objects, by address *)
  items : list (string * nat);      (* self.items: id to item object *)
  lostPermission : list string;
  space_available : Z;
  _upload_info : option upload_info;  (* None is the empty dict *)
  chunks : list Z;
  _upload_chunk_trigger : bool;     (* the event is set *)
  _current_chunk : Z;
  _waitOnChunk : Z;
  _port : Z
}.

Definition set_heap (h : list Item) (s : State) : State :=
  {| _auth_token := _auth_token s; heap := h; items := items s;
     lostPermission := lostPermission s; space_available := space_available s;
     _upload_info := _upload_info s; chunks := chunks s;
     _upload_chunk_trigger := _upload_chunk_trigger s;
     _current_chunk := _current_chunk s; _waitOnChunk := _waitOnChunk s;
     _port := _port s |}.

Definition set_items (i : list (string * nat)) (s : State) : State :=
  {| _auth_token := _auth_token s; heap := heap s; items := i;
     lostPermission := lostPermission s; space_available := space_available s;
     _upload_info := _upload_info s; chunks := chunks s;
     _upload_chunk_trigger := _upload_chunk_trigger s;
     _current_chunk := _current_chunk s; _waitOnChunk := _waitOnChunk s;
     _port := _port s |}.

Definition set_upload_info (u : option upload_info) (s : State) : State :=
  {| _auth_token := _auth_token s; heap := heap s; items := items s;
     lostPermission := lostPermission s; space_available := space_available s;
     _upload_info := u; chunks := chunks s;
     _upload_chunk_trigger := _upload_chunk_trigger s;
     _current_chunk := _current_chunk s; _waitOnChunk := _waitOnChunk s;
     _port := _port s |}.

Definition set_chunks (c : list Z) (s : State) : State :=
  {| _auth_token := _auth_token s; heap := heap s; items := items s;
     lostPermission := lostPermission s; space_available := space_available s;
     _upload_info := _upload_info s; chunks := c;
     _upload_chunk_trigger := _upload_chunk_trigger s;
     _current_chunk := _current_chunk s; _waitOnChunk := _waitOnChunk s;
     _port := _port s |}.

Definition set_trigger (b : bool) (s : State) : State :=
  {| _auth_token := _auth_token s; heap := heap s; items := items s;
     lostPermission := lostPermission s; space_available := space_available s;
     _upload_info := _upload_info s; chunks := chunks s;
     _upload_chunk_trigger := b;
     _current_chunk := _current_chunk s; _waitOnChunk := _waitOnChunk s;
     _port := _port s |}.

Definition set_current_chunk (n : Z) (s : State) : State :=
  {| _auth_token := _auth_token s; heap := heap s; items := items s;
     lostPermission := lostPermission s; space_available := space_available s;
     _upload_info := _upload_info s; chunks := chunks s;
     _upload_chunk_trigger := _upload_chunk_trigger s;
     _current_chunk := n; _waitOnChunk := _waitOnChunk s;
     _port := _port s |}.

(** [setDriveSpaceAvailable] *)
Definition setDriveSpaceAvailable (bytes_available : Z) (s : State) : State :=
  {| _auth_token := _auth_token s; heap := heap s; items := items s;
     lostPermission := lostPermission s; space_available := bytes_available;
     _upload_info := _upload_info s; chunks := chunks s;
     _upload_chunk_trigger := _upload_chunk_trigger s;
     _current_chunk := _current_chunk s; _waitOnChunk := _waitOnChunk s;
     _port := _port s |}.

(** The object at an address; every address the dictionaries hold was
    allocated, the heap only grows. *)
Definition deref (s : State) (a : nat) : Item := default [] (heap s !! a).

(** [self.items[id]] *)
Definition item_of (s : State) (id : string) : option Item :=
  match dict_get id (items s) with
  | Some a => Some (deref s a)
  | None => None
  end.

(** [self.items.values()] *)
Definition store_values (s : State) : list Item :=
  map (deref s) (dict_values (items s)).

(** [id in self.lostPermission] *)
Definition lost (s : State) (id : string) : bool :=
  existsb (String.eqb id) (lostPermission s).

(** ** Handlers as computations *)

(** A handler threads the server state and stops at the first [return] or
    [raise]. *)
Definition handler (A : Type) : Type := State -> State * (A + outcome).

Definition ret {A} (a : A) : handler A := fun s => (s, inl a).

Definition bind {A B} (m : handler A) (k : A -> handler B) : handler B :=
  fun s =>
    match m s with
    | (s', inl a) => k a s'
    | (s', inr o) => (s', inr o)
    end.

(** Leave the handler with an outcome. *)
Definition stop {A} (o : outcome) : handler A := fun s => (s, inr o).

Definition get_state : handler State := fun s => (s, inl s).

Definition modify (f : State -> State) : handler unit := fun s => (f s, inl tt).

(** [if b: <leave with o>] *)
Definition leave_if (b : bool) (o : outcome) : handler unit :=
  if b then stop o else ret tt.

(** A value that must be there, [o] otherwise. *)
Definition demand {A} (x : option A) (o : outcome) : handler A :=
  match x with Some a => ret a | None => stop o end.

Declare Scope handler_scope.
Delimit Scope handler_scope with handler.
Notation "x <- m ;; k" := (bind m (fun x => k))
  (at level 100, m at next level, right associativity) : handler_scope.
Notation "m ;;; k" := (bind m (fun _ => k))
  (at level 100, right associativity) : handler_scope.

(** The state and the outcome a handler leaves behind. *)
Definition run (h : handler Response) (s : State) : State * outcome :=
  match h s with
  | (s', inl r) => (s', Returns r)
  | (s', inr o) => (s', o)
  end.

Local Open Scope handler_scope.

(** [json_response(data, status=...)] *)
Definition json_response (data : value) (st : Z) : handler Response :=
  if serialisable data
  then ret {| status := st; content_type := Some "application/json";
              headers := []; resp_body := JsonBody data |}
  else stop Fails.

(** [_checkDriveHeaders] *)
Definition _checkDriveHeaders (req : Request) : handler unit :=
  s <- get_state ;;
  leave_if
    (negb (String.eqb (default "" (Authorization req))
                      ("Bearer " +:+ _auth_token s)))
    (Raises HTTPUnauthorized).

(** [int(request.headers.get(name, default))] and
    [int(request.headers[name])] *)
Definition int_or (h : int_header) (default : option Z) : handler Z :=
  match h with
  | IntValue z => ret z
  | Malformed => stop Fails
  | Absent => demand default Fails
  end.

(** ** Item store *)

(** A new item object. *)
Definition alloc (it : Item) : handler nat :=
  s <- get_state ;;
  modify (set_heap (heap s ++ [it])) ;;;
  ret (length (heap s)).

(** [_create] *)
Definition _create (env : Env) (req : Request) : handler Response :=
  _checkDriveHeaders req ;;;
  let id := generateId env in
  base <- demand (json req) Fails ;;
  let item := formatItem env base id in
  a <- alloc item ;;
  modify (fun s => set_items (dict_set id a (items s)) s) ;;;
  json_response (VDict [("id", default VNone (dict_get "id" item))]) 200.

(** [_get] *)
Definition _get (req : Request) : handler Response :=
  let id := match_id req in
  _checkDriveHeaders req ;;;
  s <- get_state ;;
  leave_if (negb (dict_has id (items s))) (Raises HTTPNotFound) ;;;
  leave_if (lost s id) (Returns forbidden_response) ;;;
  let request_type := query_get req "alt" "metadata" in
  item <- demand (item_of s id) Fails ;;
  if String.eqb request_type "media" then
    match dict_get "bytes" item with
    | None => stop (Raises HTTPBadRequest)
    | Some b => stop (ServesBytes b)
    end
  else
    let fields := Text.split_comma (query_get req "fields" "id") in
    json_response (VDict (filter_fields item fields)) 200.

(** [d.update(other)] for a dictionary held in an item: the pairs of
    [other] are assigned in order, up to the first element that is not a
    pair. Keys are strings; a pair whose key is another hashable, which
    Python would take, is outside the model. *)
Definition pair_of (e : value) : option (string * value) :=
  match e with
  | VList [VStr k; v] => Some (k, v)
  | VStr (String a (String b EmptyString)) =>
      Some (String a "", VStr (String b ""))
  | VDict [(k1, _); (k2, _)] => Some (k1, VStr k2)
  | _ => None
  end.

Fixpoint update_pairs (d : Item) (l : list value) : Item * bool :=
  match l with
  | [] => (d, true)
  | e :: l' =>
      match pair_of e with
      | Some (k, v) => update_pairs (dict_set k v d) l'
      | None => (d, false)
      end
  end.

Definition dict_update (d : Item) (other : value) : Item * bool :=
  match other with
  | VDict d2 => (fold_left (fun acc kv => dict_set (fst kv) (snd kv) acc) d2 d, true)
  | VList l => update_pairs d l
  | VStr EmptyString => (d, true)
  | VBytes [] => (d, true)
  | _ => (d, false)
  end.

(** The loop of [_update] on the item object: [false] when an assignment
    raised, with what was assigned until then. *)
Fixpoint merge_update (item : Item) (update : Item) : Item * bool :=
  match update with
  | [] => (item, true)
  | (key, v) :: rest =>
      match dict_get key item with
      | Some (VDict d) =>
          let (d', ok) := dict_update d v in
          let item' := dict_set key (VDict d') item in
          if ok then merge_update item' rest else (item', false)
      | _ => merge_update (dict_set key v item) rest
      end
  end.

(** [_update] *)
Definition _update (req : Request) : handler Response :=
  let id := match_id req in
  _checkDriveHeaders req ;;;
  s <- get_state ;;
  a <- demand (dict_get id (items s)) (ReturnsClass HTTPNotFound) ;;
  update <- demand (json req) Fails ;;
  let (item', ok) := merge_update (deref s a) update in
  modify (set_heap (<[a := item']> (heap s))) ;;;
  leave_if (negb ok) Fails ;;;
  ret (plain_response 200 []).

(** [_delete] *)
Definition _delete (req : Request) : handler Response :=
  let id := match_id req in
  _checkDriveHeaders req ;;;
  s <- get_state ;;
  leave_if (negb (dict_has id (items s))) (Raises HTTPNotFound) ;;;
  modify (set_items (dict_del id (items s))) ;;;
  ret (plain_response 200 []).

(** ** Query *)

(** [item.get('mimeType', '') == mimeType] *)
Definition mime_is (mimeType : string) (item : Item) : bool :=
  match dict_get "mimeType" item with
  | Some (VStr s) => String.eqb s mimeType
  | Some _ => false
  | None => String.eqb "" mimeType
  end.

(** [parent in v]: [None] when the test raises [TypeError]. *)
Definition value_contains (parent : string) (v : value) : option bool :=
  match v with
  | VList l =>
      Some (existsb (fun e => match e with
                              | VStr s => String.eqb s parent
                              | _ => false
                              end) l)
  | VStr s => Some (Text.contains parent s)
  | VDict d => Some (dict_has parent d)
  | _ => None
  end.

(** The loop of the parents query. *)
Fixpoint children (parent : string) (fields : list string) (its : list Item)
  : option (list Item) :=
  match its with
  | [] => Some []
  | item :: rest =>
      match value_contains parent
              (default (VList []) (dict_get "parents" item)) with
      | None => None
      | Some b =>
          match children parent fields rest with
          | None => None
          | Some ret =>
              Some (if b then filter_fields item fields :: ret else ret)
          end
      end
  end.

Definition files (ret : list Item) : value :=
  VDict [("files", VList (map VDict ret))].

(** [_query] *)
Definition _query (req : Request) : handler Response :=
  _checkDriveHeaders req ;;;
  s <- get_state ;;
  let q := query_get req "q" "" in
  let fields := parseFields (query_get req "fields" "id") in
  if mimeTypeQueryPattern q then
    let mimeType := Text.slice 10 1 q in
    let ret := map (fun item => filter_fields item fields)
                   (List.filter (mime_is mimeType) (store_values s)) in
    json_response (files ret) 200
  else if parentsQueryPattern q then
    let parent := Text.slice 1 12 q in
    leave_if (negb (dict_has parent (items s))) (Raises HTTPNotFound) ;;;
    leave_if (lost s parent) (Returns forbidden_response) ;;;
    ret <- demand (children parent fields (store_values s)) Fails ;;
    json_response (files ret) 200
  else if (Text.len q =? 0) then
    json_response
      (files (map (fun item => filter_fields item fields) (store_values s))) 200
  else stop (Raises HTTPBadRequest).

(** ** Resumable upload *)

(** The loop [total_size += item.get('size', 0)]: [None] when a size is
    not a number. *)
Fixpoint total_size (acc : Z) (its : list Item) : option Z :=
  match its with
  | [] => Some acc
  | item :: rest =>
      match default (VInt 0) (dict_get "size" item) with
      | VInt z => total_size (acc + z) rest
      | VBool b => total_size (acc + (if b then 1 else 0)) rest
      | _ => None
      end
  end.

(** What [for parent in v] goes through: [None] when [v] is not iterable. *)
Definition iterate (v : value) : option (list value) :=
  match v with
  | VList l => Some l
  | VStr s => Some (map (fun c => VStr (String c "")) (list_ascii_of_string s))
  | VDict d => Some (map (fun kv => VStr (fst kv)) d)
  | VBytes b => Some (map (fun x => VInt (Z.of_N (Byte.to_N x))) b)
  | _ => None
  end.

(** The loop that validates the parents. *)
Fixpoint check_parents (s : State) (ps : list value) : handler unit :=
  match ps with
  | [] => ret tt
  | VStr parent :: rest =>
      leave_if (negb (dict_has parent (items s))) (Raises HTTPNotFound) ;;;
      leave_if (lost s parent) (Returns forbidden_response) ;;;
      check_parents s rest
  | VNone :: _ | VBool _ :: _ | VInt _ :: _ => stop (Raises HTTPNotFound)
  | _ => stop Fails
  end.

(** The address the session gives back. *)
Definition location (s : State) (id : string) : string :=
  "http://localhost:" +:+ Text.str_of (_port s)
    +:+ "/upload/drive/v3/files/progress/" +:+ id.

(** [_upload]. The body is a JSON object, as [json] has it; a body that
    parses to a list or a text is outside the model: there the code
    overwrites the [size] and [mime] of the session before [formatItem]
    fails on it. *)
Definition _upload (env : Env) (req : Request) : handler Response :=
  _checkDriveHeaders req ;;;
  leave_if (negb (match dict_get "uploadType" (query req) with
                  | Some t => String.eqb t "resumable"
                  | None => false
                  end)) (Raises HTTPBadRequest) ;;;
  mimeType <- demand (X_Upload_Content_Type req) (Raises HTTPBadRequest) ;;
  size <- int_or (X_Upload_Content_Length req) (Some (-1)) ;;
  leave_if (size <? 0) (Raises HTTPBadRequest) ;;;
  s <- get_state ;;
  total <- demand (total_size 0 (store_values s)) Fails ;;
  let total := total + size in
  if total >? space_available s then json_response quota_body 400
  else
    metadata <- demand (json req) Fails ;;
    let id := generateId env in
    ps <- match dict_get "parents" metadata with
          | Some v => demand (iterate v) Fails
          | None => ret []
          end ;;
    check_parents s ps ;;;
    let item := formatItem env metadata id in
    let item := dict_set "bytes" (VBytes []) item in
    let item := dict_set "size" (VInt size) item in
    a <- alloc item ;;
    modify (set_upload_info
              (Some {| ui_size := size; ui_mime := mimeType; ui_item := a;
                       ui_id := id; ui_next_start := 0 |})) ;;;
    ret (plain_response 200 [("Location", location s id)]).

(** The trip wire at the head of [_uploadProgress]. Awaiting
    [_upload_chunk_wait] ends when the harness sets it; what is served in
    the meantime is the harness's affair, the handler goes on from there. *)
Definition pause_hook (s : State) : State :=
  if 0 <? _waitOnChunk s then
    if _current_chunk s =? _waitOnChunk s
    then set_trigger true s
    else set_current_chunk (_current_chunk s + 1) s
  else s.

(** [buf.extend(received)]: [None] when [buf] has no such method. *)
Definition extend (buf : value) (received : list Byte.byte) : option value :=
  match buf with
  | VBytes b => Some (VBytes (b ++ received))
  | VList l => Some (VList (l ++ map (fun x => VInt (Z.of_N (Byte.to_N x))) received))
  | _ => None
  end.

(** [len(v)] *)
Definition value_len (v : value) : option Z :=
  match v with
  | VBytes b => Some (Z.of_nat (length b))
  | VList l => Some (Z.of_nat (length l))
  | VStr s => Some (Text.len s)
  | VDict d => Some (Z.of_nat (length d))
  | _ => None
  end.

Definition range_header (last : Z) : string * string :=
  ("Range", "bytes=0-" +:+ Text.str_of last).

(** The chunk transfer of [_uploadProgress], from the checks of the range
    on: [chunk_size] is the [Content-Length], the three others are the
    numbers of the [Content-Range]. *)
Definition receive_chunk (req : Request) (chunk_size start end_ total : Z)
  : handler Response :=
  s <- get_state ;;
  u <- demand (_upload_info s) Fails ;;
  leave_if (negb (total =? ui_size u)) (Raises HTTPBadRequest) ;;;
  leave_if (negb (start =? ui_next_start u)) (Raises HTTPBadRequest) ;;;
  leave_if (negb ((end_ =? total - 1) || (chunk_size mod (256 * 1024) =? 0)))
           (Raises HTTPBadRequest) ;;;
  leave_if (end_ >? total - 1) (Raises HTTPBadRequest) ;;;
  (* get the chunk *)
  let received_bytes := body req in
  (* validate the chunk *)
  leave_if (negb (Z.of_nat (length received_bytes) =? chunk_size))
           (Raises HTTPBadRequest) ;;;
  leave_if (negb (Z.of_nat (length received_bytes) =? end_ - start + 1))
           (Raises HTTPBadRequest) ;;;
  let item := deref s (ui_item u) in
  buf <- demand (dict_get "bytes" item) Fails ;;
  buf' <- demand (extend buf received_bytes) Fails ;;
  modify (set_heap (<[ui_item u := dict_set "bytes" buf' item]> (heap s))) ;;;
  n <- demand (value_len buf') Fails ;;
  leave_if (negb (n =? end_ + 1)) (Raises HTTPBadRequest) ;;;
  modify (fun s' => set_chunks (chunks s' ++ [Z.of_nat (length received_bytes)]) s') ;;;
  if end_ =? total - 1 then
    (* upload is complete, so create the item *)
    modify (fun s' => set_items (dict_set (ui_id u) (ui_item u) (items s')) s') ;;;
    json_response (VDict [("id", VStr (ui_id u))]) 200
  else
    (* Return an incomplete response *)
    modify (set_upload_info
              (Some {| ui_size := ui_size u; ui_mime := ui_mime u;
                       ui_item := ui_item u; ui_id := ui_id u;
                       ui_next_start := end_ + 1 |})) ;;;
    ret (plain_response 308 [range_header end_]).

(** [_uploadProgress] *)
Definition _uploadProgress (req : Request) : handler Response :=
  modify pause_hook ;;;
  let id := match_id req in
  _checkDriveHeaders req ;;;
  s <- get_state ;;
  leave_if (negb (String.eqb (match _upload_info s with
                              | Some u => ui_id u
                              | None => ""
                              end) id)) (Raises HTTPBadRequest) ;;;
  chunk_size <- int_or (Content_Length req) None ;;
  info <- demand (Content_Range req) Fails ;;
  if resumeBytesPattern info then
    u <- demand (_upload_info s) Fails ;;
    ret (plain_response 308
           (if ui_next_start u =? 0 then []
            else [range_header (ui_next_start u - 1)]))
  else
    leave_if (negb (bytesPattern info)) (Raises HTTPBadRequest) ;;;
    let numbers := intPattern_findall info in
    start <- demand (Text.int_of <$> numbers !! 0%nat) Fails ;;
    end_ <- demand (Text.int_of <$> numbers !! 1%nat) Fails ;;
    total <- demand (Text.int_of <$> numbers !! 2%nat) Fails ;;
    receive_chunk req chunk_size start end_ total.

(** ** The data plane *)

Inductive endpoint : Type :=
| GetItem
| QueryItems
| CreateItem
| UpdateItem
| DeleteItem
| StartUpload
| UploadChunk.

(** The routes of the data plane. *)
Definition serve (ep : endpoint) (env : Env) (req : Request)
  : State -> State * outcome :=
  run match ep with
      | GetItem => _get req
      | QueryItems => _query req
      | CreateItem => _create env req
      | UpdateItem => _update req
      | DeleteItem => _delete req
      | StartUpload => _upload env req
      | UploadChunk => _uploadProgress req
      end.

(** Requests served one after the other. *)
Fixpoint serve_all (s : State) (rs : list (endpoint * Env * Request))
  : State * list outcome :=
  match rs with
  | [] => (s, [])
  | (ep, env, req) :: rest =>
      let (s1, o) := serve ep env req s in
      let (s2, os) := serve_all s1 rest in
      (s2, o :: os)
  end.

(** The server as [__init__] leaves it. *)
Definition initial (port : Z) : State :=
  {| _auth_token := ""; heap := []; items := []; lostPermission := [];
     space_available := 1024 * 1024 * 100; _upload_info := None; chunks := [];
     _upload_chunk_trigger := false; _current_chunk := 1; _waitOnChunk := 0;
     _port := port |}.

(** ** Notions the properties are stated with *)

(** A text without a line feed. *)
Definition one_line (s : string) : bool :=
  Text.all_chars (fun c => negb (Text.is_LF c)) s.

(** [Content-Range: bytes <start>-<end>/<total>] *)
Definition chunk_range (ds de dt : string) : string :=
  "bytes " +:+ ds +:+ "-" +:+ de +:+ "/" +:+ dt.

(** [Content-Range: bytes */<total>] *)
Definition probe_range (dt : string) : string := "bytes */" +:+ dt.


(** The query ['<id>' in parents]. *)
Definition parents_query (id : string) : string := "'" +:+ id +:+ "' in parents".

(** [",".join(fs)] *)
Fixpoint join_comma (fs : list string) : string :=
  match fs with
  | [] => ""
  | f :: rest =>
      match rest with
      | [] => f
      | _ :: _ => f +:+ "," +:+ join_comma rest
      end
  end.

(** A character that is no comma and no parenthesis. *)
Definition plain_char (c : ascii) : bool :=
  negb (Ascii.eqb c ",") && negb (Ascii.eqb c "(") && negb (Ascii.eqb c ")").

(** A field name without comma or parenthesis. *)
Definition plain (f : string) : bool := Text.all_chars plain_char f.

(** The pieces of a wrapped specification after its first field. *)
Fixpoint closed_pieces (fs : list string) : list string :=
  match fs with
  | [] => []
  | f :: rest =>
      match rest with
      | [] => [f +:+ ")"]
      | _ :: _ => f :: closed_pieces rest
      end
  end.

(** The request carries the current access token. *)
Definition authorised (s : State) (req : Request) : Prop :=
  default "" (Authorization req) = "Bearer " +:+ _auth_token s.

(** The byte buffer of an item. *)
Definition item_bytes (it : Item) : option (list Byte.byte) :=
  match dict_get "bytes" it with
  | Some (VBytes b) => Some b
  | _ => None
  end.

(** The byte buffer of the stored item [id]. *)
Definition stored_bytes (s : State) (id : string) : option (list Byte.byte) :=
  match item_of s id with
  | Some it => item_bytes it
  | None => None
  end.

(** The buffer the upload session accumulates into. *)
Definition session_bytes (s : State) : option (list Byte.byte) :=
  match _upload_info s with
  | Some u => item_bytes (deref s (ui_item u))
  | None => None
  end.

(** Chunks delivered to the progress endpoint, one after the other. *)
Fixpoint deliver (s : State) (reqs : list Request) : State * list outcome :=
  match reqs with
  | [] => (s, [])
  | req :: rest =>
      let (s1, o) := run (_uploadProgress req) s in
      let (s2, os) := deliver s1 rest in
      (s2, o :: os)
  end.

(** A chunk for session [id] that carries the bytes [n] to [e] of [S]. *)
Definition carries (token id : string) (S n e : Z) (req : Request) : Prop :=
  default "" (Authorization req) = "Bearer " +:+ token /\
  match_id req = id /\
  Content_Length req = IntValue (Z.of_nat (length (body req))) /\
  Z.of_nat (length (body req)) = e - n + 1 /\
  exists ds de dt,
    Text.is_number ds = true /\ Text.is_number de = true /\
    Text.is_number dt = true /\
    Content_Range req = Some (chunk_range ds de dt) /\
    Text.int_of ds = n /\ Text.int_of de = e /\ Text.int_of dt = S.

(** Strictly sequential delivery from offset [n]: aligned chunks that each
    start where the one before ended, then the chunk that ends at [S - 1]. *)
Fixpoint sequential (token id : string) (S n : Z) (reqs : list Request) : Prop :=
  match reqs with
  | [] => False
  | req :: rest =>
      match rest with
      | [] => carries token id S n (S - 1) req
      | _ :: _ =>
          exists e, carries token id S n e req /\ e <> S - 1 /\
                    Z.of_nat (length (body req)) mod (256 * 1024) = 0 /\
                    sequential token id S (e + 1) rest
      end
  end.

(** A chunk request the server accepted: the 308 of a chunk taken in, or
    the 200 that commits the item. *)
Definition accepted (o : outcome) : Prop :=
  exists r, o = Returns r /\ (status r = 308 \/ status r = 200).

(** The answer to the final chunk: [json_response({"id": ...})]. *)
Definition commit_response (id : string) : Response :=
  {| status := 200; content_type := Some "application/json";
     headers := []; resp_body := JsonBody (VDict [("id", VStr id)]) |}.

(** The answer that commits an upload. *)
Definition commits (id : string) (o : outcome) : Prop :=
  o = Returns (commit_response id).

(** A [json_response] with the default status. *)
Definition json_answer (v : value) : Response :=
  {| status := 200; content_type := Some "application/json";
     headers := []; resp_body := JsonBody v |}.

(** The answer of [_upload] when the quota is exceeded. *)
Definition quota_response : Response :=
  {| status := 400; content_type := Some "application/json";
     headers := []; resp_body := JsonBody quota_body |}.

(** The item object [_upload] prepares for a session. *)
Definition pending_item (env : Env) (metadata : Item) (size : Z) : Item :=
  dict_set "size" (VInt size)
    (dict_set "bytes" (VBytes [])
       (formatItem env metadata (generateId env))).

(** The state [_upload] leaves when it opens a session. *)
Definition started (s : State) (env : Env) (metadata : Item) (mime : string)
           (size : Z) : State :=
  set_upload_info
    (Some {| ui_size := size; ui_mime := mime; ui_item := length (heap s);
             ui_id := generateId env; ui_next_start := 0 |})
    (set_heap (heap s ++ [pending_item env metadata size]) s).

(** A session in flight: [next_start] is the length of the buffer and the
    last byte is still to come. *)
Definition in_flight (s : State) : Prop :=
  exists u b,
    _upload_info s = Some u /\
    item_bytes (deref s (ui_item u)) = Some b /\
    ui_next_start u = Z.of_nat (length b) /\
    (ui_next_start u < ui_size u \/ ui_size u = 0).

(** A session whose item was committed: the session record stays, with the
    [next_start] of its last chunk. *)
Definition consumed (s : State) : Prop :=
  exists u b,
    _upload_info s = Some u /\
    item_bytes (deref s (ui_item u)) = Some b /\
    ui_next_start u < Z.of_nat (length b).

(** Only uploads are started and chunks delivered. *)
Definition upload_ops (rs : list (endpoint * Env * Request)) : Prop :=
  Forall (fun r => fst (fst r) = StartUpload \/ fst (fst r) = UploadChunk) rs.

(** The state once the received bytes are in the buffer of the session. *)
Definition after_extend (s : State) (u : upload_info) (buf' : value) : State :=
  set_heap (<[ui_item u := dict_set "bytes" buf' (deref s (ui_item u))]>
              (heap (pause_hook s))) (pause_hook s).

(** The declared parents are item ids of the store, none of them blocked. *)
Definition parents_ok (s : State) (metadata : Item) : bool :=
  match dict_get "parents" metadata with
  | None => true
  | Some (VList l) =>
      forallb (fun p => match p with
                        | VStr id => dict_has id (items s) && negb (lost s id)
                        | _ => false
                        end) l
  | Some _ => false
  end.

(** The same request with another body. *)
Definition with_body (b : list Byte.byte) (req : Request) : Request :=
  {| match_id := match_id req; Authorization := Authorization req;
     query := query req; X_Upload_Content_Type := X_Upload_Content_Type req;
     X_Upload_Content_Length := X_Upload_Content_Length req;
     Content_Length := Content_Length req; Content_Range := Content_Range req;
     json := json req; body := b |}.

(** The [modifiedTime] of an item. *)
Definition modifiedTime (it : Item) : option value := dict_get "modifiedTime" it.

(** The three stages of the upload state: no session yet, a session in
    flight, a session whose item is committed. *)
Definition lifecycle (s : State) : Prop :=
  _upload_info s = None \/ in_flight s \/ consumed s.

(** ** Concrete requests for the examples *)

Module Sample.

Definition env0 : Env :=
  {| generateId := "file-1"; timeToRfc3339String := "1985-12-06T01:01:01Z" |}.

Definition env1 : Env :=
  {| generateId := "file-2"; timeToRfc3339String := "1985-12-07T02:02:02Z" |}.

(** [POST /upload/drive/v3/files/?uploadType=resumable] *)
Definition start_upload (size : Z) (metadata : Item) : Request :=
  {| match_id := ""; Authorization := Some "Bearer ";
     query := [("uploadType", "resumable")];
     X_Upload_Content_Type := Some "application/tar";
     X_Upload_Content_Length := IntValue size;
     Content_Length := Absent; Content_Range := None;
     json := Some metadata; body := [] |}.

(** [PUT /upload/drive/v3/files/progress/{id}] *)
Definition put_chunk (id range : string) (payload : list Byte.byte) : Request :=
  {| match_id := id; Authorization := Some "Bearer "; query := [];
     X_Upload_Content_Type := None; X_Upload_Content_Length := Absent;
     Content_Length := IntValue (Z.of_nat (length payload));
     Content_Range := Some range; json := None; body := payload |}.

(** [GET /drive/v3/files/?q=...] *)
Definition get_files (q : string) : Request :=
  {| match_id := ""; Authorization := Some "Bearer "; query := [("q", q)];
     X_Upload_Content_Type := None; X_Upload_Content_Length := Absent;
     Content_Length := Absent; Content_Range := None; json := None;
     body := [] |}.

(** [GET /drive/v3/files/{id}/] *)
Definition get_file (id : string) : Request :=
  {| match_id := id; Authorization := Some "Bearer "; query := [];
     X_Upload_Content_Type := None; X_Upload_Content_Length := Absent;
     Content_Length := Absent; Content_Range := None; json := None;
     body := [] |}.

(** [POST /drive/v3/files/] and [PATCH /drive/v3/files/{id}/] *)
Definition send_json (id : string) (data : Item) : Request :=
  {| match_id := id; Authorization := Some "Bearer "; query := [];
     X_Upload_Content_Type := None; X_Upload_Content_Length := Absent;
     Content_Length := Absent; Content_Range := None; json := Some data;
     body := [] |}.

(** A request without credentials. *)
Definition anonymous (req : Request) : Request :=
  {| match_id := match_id req; Authorization := None; query := query req;
     X_Upload_Content_Type := X_Upload_Content_Type req;
     X_Upload_Content_Length := X_Upload_Content_Length req;
     Content_Length := Content_Length req;
     Content_Range := Content_Range req; json := json req;
     body := body req |}.

Definition server : State := initial 8080.

(** A payload of [n] zero bytes. *)
Definition zeros (n : nat) : list Byte.byte := repeat Byte.x00 n.

(** One aligned chunk of 256 KiB and a last chunk of three bytes. *)
Definition two_chunks : list Request :=
  [put_chunk "file-1" "bytes 0-262143/262147" (zeros (Z.to_nat 262144));
   put_chunk "file-1" "bytes 262144-262146/262147" (zeros 3)].

(** The server once a session of 262147 bytes has its first chunk. *)
Definition midway : State :=
  fst (deliver (started server env0 [] "application/tar" 262147)
               [put_chunk "file-1" "bytes 0-262143/262147"
                          (zeros (Z.to_nat 262144))]).


(** A server with the pause hook set on chunk [n]. *)
Definition waiting_on (n : Z) (s : State) : State :=
  {| _auth_token := _auth_token s; heap := heap s; items := items s;
     lostPermission := lostPermission s; space_available := space_available s;
     _upload_info := _upload_info s; chunks := chunks s;
     _upload_chunk_trigger := _upload_chunk_trigger s;
     _current_chunk := _current_chunk s; _waitOnChunk := n;
     _port := _port s |}.

End Sample.

(** ** Further notions *)

(** The store is a well-formed dictionary of item objects: an id is there
    once, and the object it names was allocated. *)
Definition store_ok (s : State) : Prop :=
  NoDup (map fst (items s)) /\
  Forall (fun kv => (snd kv < length (heap s))%nat) (items s).



(** A declared parent that passes the check of [_upload]: the id of a
    stored item that is not blocked. *)
Definition parent_ok (s : State) (p : value) : bool :=
  match p with
  | VStr id => dict_has id (items s) && negb (lost s id)
  | _ => false
  end.

(** The checks [_uploadProgress] makes on a chunk of [chunk_size] declared
    bytes for the range [start]-[end_]/[total], against the session [u]. *)
Definition chunk_fits (u : upload_info) (req : Request)
           (chunk_size start end_ total : Z) : Prop :=
  total = ui_size u /\ start = ui_next_start u /\
  (end_ = total - 1 \/ chunk_size mod (256 * 1024) = 0) /\
  end_ <= total - 1 /\
  Z.of_nat (length (body req)) = chunk_size /\
  Z.of_nat (length (body req)) = end_ - start + 1.

(** ** The quota, in the words of the spec *)

(** What an item weighs: its [size] field, nothing when it has none. *)
Definition size_of (item : Item) : Z :=
  match dict_get "size" item with
  | Some (VInt z) => z
  | _ => 0
  end.

(** The sum of all existing items' [size] fields. *)
Definition sum_of_sizes (its : list Item) : Z :=
  foldr (fun item acc => size_of item + acc) 0 its.

(** The [size] of the item, if it has one, is an integer. *)
Definition sized (item : Item) : bool :=
  match dict_get "size" item with
  | Some (VInt _) | None => true
  | Some _ => false
  end.

(** ** Field names *)

(** A text without a comma. *)
Definition no_comma (f : string) : bool :=
  Text.all_chars (fun c => negb (Ascii.eqb c ",")) f.

(** A field name that does not start with [files(] nor end with a closing
    parenthesis, and has no comma. *)
Definition bare (f : string) : bool :=
  no_comma f && negb (Text.startswith f "files(")
  && negb (Text.endswith f ")").

(** ** More concrete requests *)

Module More.

(** [GET /drive/v3/files/{id}/?fields=...] *)
Definition get_fields (id fields : string) : Request :=
  {| match_id := id; Authorization := Some "Bearer ";
     query := [("fields", fields)];
     X_Upload_Content_Type := None; X_Upload_Content_Length := Absent;
     Content_Length := Absent; Content_Range := None; json := None;
     body := [] |}.

(** [GET /drive/v3/files/{id}/?alt=media] *)
Definition get_media (id : string) : Request :=
  {| match_id := id; Authorization := Some "Bearer ";
     query := [("alt", "media")];
     X_Upload_Content_Type := None; X_Upload_Content_Length := Absent;
     Content_Length := Absent; Content_Range := None; json := None;
     body := [] |}.

(** A folder, as the client creates it. *)
Definition folder : Item :=
  [("name", VStr "backups"); ("mimeType", VStr "application/vnd.folder")].

End More.

(** * The token endpoints *)

(** Modelled from the spec: the configured default client id and secret,
    two texts that [self.config.get] reads and [self.config.override]
    replaces; [backup.config] is not among the sources. *)
Record Config : Type := {
  DEFAULT_DRIVE_CLIENT_ID : string;
  DEFAULT_DRIVE_CLIENT_SECRET : string
}.

(** The whole server: the drive state and the [# auth state] fields. *)
Record Server : Type := {
  drive : State;
  config : Config;
  _custom_drive_client_id : string;
  _custom_drive_client_secret : string;
  _drive_auth_code : string;
  _refresh_token : string;
  _client_id_hack : option string
}.

(** [self._auth_token = t] *)
Definition set_auth_token (t : string) (s : State) : State :=
  {| _auth_token := t; heap := heap s; items := items s;
     lostPermission := lostPermission s; space_available := space_available s;
     _upload_info := _upload_info s; chunks := chunks s;
     _upload_chunk_trigger := _upload_chunk_trigger s;
     _current_chunk := _current_chunk s; _waitOnChunk := _waitOnChunk s;
     _port := _port s |}.

Definition set_drive (s : State) (sv : Server) : Server :=
  {| drive := s; config := config sv;
     _custom_drive_client_id := _custom_drive_client_id sv;
     _custom_drive_client_secret := _custom_drive_client_secret sv;
     _drive_auth_code := _drive_auth_code sv;
     _refresh_token := _refresh_token sv;
     _client_id_hack := _client_id_hack sv |}.

Definition set_refresh_token (t : string) (sv : Server) : Server :=
  {| drive := drive sv; config := config sv;
     _custom_drive_client_id := _custom_drive_client_id sv;
     _custom_drive_client_secret := _custom_drive_client_secret sv;
     _drive_auth_code := _drive_auth_code sv;
     _refresh_token := t;
     _client_id_hack := _client_id_hack sv |}.

Definition set_config (c : Config) (sv : Server) : Server :=
  {| drive := drive sv; config := c;
     _custom_drive_client_id := _custom_drive_client_id sv;
     _custom_drive_client_secret := _custom_drive_client_secret sv;
     _drive_auth_code := _drive_auth_code sv;
     _refresh_token := _refresh_token sv;
     _client_id_hack := _client_id_hack sv |}.

(** [__init__]: [id5] and [secret5] are the two [generateId(5)] it draws. *)
Definition new_server (cfg : Config) (id5 secret5 : Env) (port : Z) : Server :=
  {| drive := initial port; config := cfg;
     _custom_drive_client_id := generateId id5;
     _custom_drive_client_secret := generateId secret5;
     _drive_auth_code := "drive_auth_code";
     _refresh_token := "test_refresh_token";
     _client_id_hack := None |}.

(** [generateNewAccessToken] *)
Definition generateNewAccessToken (env : Env) (sv : Server) : Server :=
  let new_token := generateId env in
  set_drive (set_auth_token new_token (drive sv)) sv.

(** [generateNewRefreshToken] *)
Definition generateNewRefreshToken (env : Env) (sv : Server) : Server :=
  let new_token := generateId env in
  set_refresh_token new_token sv.

(** [expireCreds] *)
Definition expireCreds (access refresh : Env) (sv : Server) : Server :=
  generateNewRefreshToken refresh (generateNewAccessToken access sv).

(** [expireRefreshToken] *)
Definition expireRefreshToken (env : Env) (sv : Server) : Server :=
  generateNewRefreshToken env sv.

(** [resetDriveAuth] *)
Definition resetDriveAuth (access refresh id5 secret5 : Env) (sv : Server)
  : Server :=
  let sv := expireCreds access refresh sv in
  let sv := set_config
              {| DEFAULT_DRIVE_CLIENT_ID := generateId id5;
                 DEFAULT_DRIVE_CLIENT_SECRET :=
                   DEFAULT_DRIVE_CLIENT_SECRET (config sv) |} sv in
  set_config
    {| DEFAULT_DRIVE_CLIENT_ID := DEFAULT_DRIVE_CLIENT_ID (config sv);
       DEFAULT_DRIVE_CLIENT_SECRET := generateId secret5 |} sv.

(** [x == s] for [x] a text or [None]. *)
Definition is_text (x : option string) (s : string) : bool :=
  match x with
  | Some t => String.eqb t s
  | None => false
  end.

(** [_checkClientIdandSecret] *)
Definition _checkClientIdandSecret (sv : Server)
           (client_id client_secret : option string) : bool :=
  if is_text client_id (_custom_drive_client_id sv)
     && is_text client_secret (_custom_drive_client_secret sv)
  then true
  else if is_text client_id (DEFAULT_DRIVE_CLIENT_ID (config sv))
          && is_text client_secret (DEFAULT_DRIVE_CLIENT_SECRET (config sv))
  then true
  else
    match _client_id_hack sv with
    | Some hack =>
        if is_text client_id hack
           && is_text client_secret (DEFAULT_DRIVE_CLIENT_SECRET (config sv))
        then true
        else false
    | None => false
    end.

(** An optional text as a JSON value. *)
Definition text_or_none (x : option string) : value :=
  match x with
  | Some t => VStr t
  | None => VNone
  end.

(** [json_response(data)] outside the drive handlers. *)
Definition json_outcome (data : value) : outcome :=
  if serialisable data
  then Returns {| status := 200; content_type := Some "application/json";
                  headers := []; resp_body := JsonBody data |}
  else Fails.

(** [_getCustomCred] *)
Definition _getCustomCred (sv : Server) : outcome :=
  json_outcome
    (VDict [("client_id", VStr (_custom_drive_client_id sv));
            ("client_secret", VStr (_custom_drive_client_secret sv))]).

Definition oob : string := "urn:ietf:wg:oauth:2.0:oob".

(** [_driveToken]: [data] is the form [request.post()] gives. *)
Definition _driveToken (env : Env) (data : list (string * string))
           (sv : Server) : Server * outcome :=
  if negb (is_text (dict_get "redirect_uri" data)
                   ("http://localhost:" +:+ Text.str_of (_port (drive sv))
                      +:+ "/drive/authorize")
           || is_text (dict_get "redirect_uri" data) oob)
  then (sv, Raises HTTPUnauthorized)
  else if negb (is_text (dict_get "grant_type" data) "authorization_code")
  then (sv, Raises HTTPUnauthorized)
  else if negb (_checkClientIdandSecret sv (dict_get "client_id" data)
                                        (dict_get "client_secret" data))
  then (sv, Raises HTTPUnauthorized)
  else if negb (is_text (dict_get "code" data) (_drive_auth_code sv))
  then (sv, Raises HTTPUnauthorized)
  else
    let sv := generateNewRefreshToken env sv in
    (sv,
     json_outcome
       (VDict [("access_token", VStr (_auth_token (drive sv)));
               ("refresh_token", VStr (_refresh_token sv));
               ("client_id", text_or_none (dict_get "client_id" data));
               ("client_secret",
                VStr (DEFAULT_DRIVE_CLIENT_SECRET (config sv)));
               ("token_expiry", VStr (timeToRfc3339String env))])).

(** [_oauth2Token]: [params] is the form; a field that is missing is a
    [KeyError]. *)
Definition _oauth2Token (env : Env) (params : list (string * string))
           (sv : Server) : Server * outcome :=
  match dict_get "client_id" params with
  | None => (sv, Fails)
  | Some client_id =>
      match dict_get "client_secret" params with
      | None => (sv, Fails)
      | Some client_secret =>
          if negb (_checkClientIdandSecret sv (Some client_id)
                                           (Some client_secret))
          then (sv, Raises HTTPUnauthorized)
          else
            match dict_get "refresh_token" params with
            | None => (sv, Fails)
            | Some refresh_token =>
                if negb (String.eqb refresh_token (_refresh_token sv))
                then (sv, Raises HTTPUnauthorized)
                else
                  match dict_get "grant_type" params with
                  | None => (sv, Fails)
                  | Some grant_type =>
                      if negb (String.eqb grant_type "refresh_token")
                      then (sv, Raises HTTPUnauthorized)
                      else
                        let sv := generateNewAccessToken env sv in
                        (sv,
                         json_outcome
                           (VDict [("access_token",
                                    VStr (_auth_token (drive sv)));
                                   ("expires_in", VInt 3600);
                                   ("token_type", VStr "doesn't matter")]))
                  end
            end
      end
  end.



(** ** What token rotation leaves alone *)

(** Two drive states that differ at most by the access token. *)
Definition same_drive (s s' : State) : Prop :=
  heap s' = heap s /\ items s' = items s /\
  lostPermission s' = lostPermission s /\
  space_available s' = space_available s /\
  _upload_info s' = _upload_info s /\ chunks s' = chunks s /\
  _upload_chunk_trigger s' = _upload_chunk_trigger s /\
  _current_chunk s' = _current_chunk s /\
  _waitOnChunk s' = _waitOnChunk s /\ _port s' = _port s.

(** Two servers that differ at most by the access and refresh tokens. *)
Definition same_but_tokens (sv sv' : Server) : Prop :=
  same_drive (drive sv) (drive sv') /\
  config sv' = config sv /\
  _custom_drive_client_id sv' = _custom_drive_client_id sv /\
  _custom_drive_client_secret sv' = _custom_drive_client_secret sv /\
  _drive_auth_code sv' = _drive_auth_code sv /\
  _client_id_hack sv' = _client_id_hack sv.

(** ** Concrete token requests *)

Module Flow.

Definition cfg : Config :=
  {| DEFAULT_DRIVE_CLIENT_ID := "default-id";
     DEFAULT_DRIVE_CLIENT_SECRET := "default-secret" |}.

Definition draw (id : string) : Env :=
  {| generateId := id; timeToRfc3339String := "1985-12-06T01:01:01Z" |}.

Definition fresh : Server :=
  new_server cfg (draw "cid-1") (draw "sec-1") 8080.


(** The form of [POST /token]. *)
Definition exchange (code : string) : list (string * string) :=
  [("redirect_uri", oob); ("grant_type", "authorization_code");
   ("client_id", "default-id"); ("client_secret", "default-secret");
   ("code", code)].

(** The form of [POST /oauth2/v4/token]. *)
Definition refresh (token : string) : list (string * string) :=
  [("client_id", "default-id"); ("client_secret", "default-secret");
   ("refresh_token", token); ("grant_type", "refresh_token")].

(** A drive request that bears [token]. *)
Definition bearing (token : string) (req : Request) : Request :=
  {| match_id := match_id req; Authorization := Some ("Bearer " +:+ token);
     query := query req;
     X_Upload_Content_Type := X_Upload_Content_Type req;
     X_Upload_Content_Length := X_Upload_Content_Length req;
     Content_Length := Content_Length req;
     Content_Range := Content_Range req; json := json req;
     body := body req |}.

End Flow.

(** * Proofs *)

Local Arguments String.append !_ _ / : simpl nomatch.
Local Arguments Text.is_digit : simpl never.
Local Arguments Text.is_LF : simpl never.

(** ** Text and patterns *)

Lemma append_empty_r (s : string) : s +:+ "" = s.
Proof. induction s as [|c s IH]; simpl; [reflexivity | by f_equal]. Qed.

Lemma append_assoc (a b c : string) : (a +:+ b) +:+ c = a +:+ (b +:+ c).
Proof. induction a as [|x a IH]; simpl; [reflexivity | by f_equal]. Qed.

Lemma length_append (a b : string) :
  String.length (a +:+ b) = (String.length a + String.length b)%nat.
Proof. induction a as [|x a IH]; simpl; [reflexivity | by f_equal]. Qed.

Lemma strip_prefix_append (p s : string) : Text.strip_prefix p (p +:+ s) = Some s.
Proof.
  induction p as [|c p IH]; simpl; [reflexivity |].
  by rewrite Ascii.eqb_refl.
Qed.

Lemma take_chars_append (a b : string) :
  Text.take_chars (String.length a) (a +:+ b) = a.
Proof. induction a as [|x a IH]; simpl; [by destruct b | by f_equal]. Qed.

Lemma rev_app_rev_app (s a b : string) :
  String.rev_app (String.rev_app s a) b = String.rev_app a (s +:+ b).
Proof.
  revert a b. induction s as [|c s IH]; intros a b; simpl; [reflexivity |].
  by rewrite IH.
Qed.

Lemma rev_rev_app (s : string) : String.rev (String.rev_app s "") = s.
Proof. unfold String.rev. rewrite rev_app_rev_app. simpl. apply append_empty_r. Qed.

Lemma rev_app_nonempty (s t : string) : t <> "" -> String.rev_app s t <> "".
Proof.
  revert t. induction s as [|c s IH]; intros t Ht; simpl; [exact Ht |].
  apply IH. discriminate.
Qed.

Lemma rev_app_empty (s : string) : s <> "" -> String.rev_app s "" <> "".
Proof.
  destruct s as [|c s]; [done |]. intros _. simpl.
  apply rev_app_nonempty. discriminate.
Qed.

Lemma is_number_inv (s : string) :
  Text.is_number s = true -> s <> "" /\ Text.all_chars Text.is_digit s = true.
Proof.
  unfold Text.is_number. intros H. apply andb_prop in H as [H1 H2].
  split; [| exact H2]. intros ->. discriminate.
Qed.

Lemma span_digits_append (ds r : string) :
  Text.all_chars Text.is_digit ds = true ->
  match r with EmptyString => True | String c _ => Text.is_digit c = false end ->
  Text.span_digits (ds +:+ r) = (ds, r).
Proof.
  intros Hd Hr. induction ds as [|c ds IH]; simpl in *.
  - destruct r as [|c r]; simpl; [reflexivity | by rewrite Hr].
  - apply andb_prop in Hd as [Hc Hd]. rewrite Hc, (IH Hd). reflexivity.
Qed.

Lemma span_digits_all (ds : string) :
  Text.all_chars Text.is_digit ds = true -> Text.span_digits ds = (ds, "").
Proof.
  intros Hd. rewrite <- (append_empty_r ds) at 1. by apply span_digits_append.
Qed.

Lemma findall_from_digits (cur ds r : string) :
  Text.all_chars Text.is_digit ds = true ->
  intPattern_findall_from cur (ds +:+ r)
  = intPattern_findall_from (String.rev_app ds cur) r.
Proof.
  revert cur. induction ds as [|c ds IH]; intros cur Hd; simpl in *; [reflexivity |].
  apply andb_prop in Hd as [Hc Hd]. rewrite Hc. by apply IH.
Qed.

Lemma findall_number_then (ds : string) (c : ascii) (r : string) :
  Text.is_number ds = true -> Text.is_digit c = false ->
  intPattern_findall_from "" (ds +:+ String c r)
  = ds :: intPattern_findall_from "" r.
Proof.
  intros [Hne Hd]%is_number_inv Hc.
  rewrite findall_from_digits by exact Hd. simpl. rewrite Hc.
  apply rev_app_empty, String.eqb_neq in Hne. rewrite Hne. simpl.
  by rewrite rev_rev_app.
Qed.

Lemma findall_number (ds : string) :
  Text.is_number ds = true -> intPattern_findall_from "" ds = [ds].
Proof.
  intros [Hne Hd]%is_number_inv.
  rewrite <- (append_empty_r ds) at 1.
  rewrite findall_from_digits by exact Hd. simpl.
  apply rev_app_empty, String.eqb_neq in Hne. rewrite Hne.
  by rewrite rev_rev_app.
Qed.

Lemma number_head (ds : string) :
  Text.is_number ds = true ->
  exists c r, ds = String c r /\ Text.is_digit c = true.
Proof.
  intros [Hne Hd]%is_number_inv. destruct ds as [|c r]; [done |].
  simpl in Hd. apply andb_prop in Hd as [Hc _]. eauto.
Qed.

Lemma findall_chunk_range (ds de dt : string) :
  Text.is_number ds = true -> Text.is_number de = true ->
  Text.is_number dt = true ->
  intPattern_findall (chunk_range ds de dt) = [ds; de; dt].
Proof.
  intros Hs He Ht. unfold intPattern_findall, chunk_range. simpl.
  rewrite findall_number_then by done.
  rewrite findall_number_then by done.
  by rewrite findall_number.
Qed.

Lemma bytesPattern_chunk_range (ds de dt : string) :
  Text.is_number ds = true -> Text.is_number de = true ->
  Text.is_number dt = true ->
  bytesPattern (chunk_range ds de dt) = true.
Proof.
  intros [Hs1 Hs2]%is_number_inv [He1 He2]%is_number_inv [Ht1 Ht2]%is_number_inv.
  unfold bytesPattern, chunk_range. simpl.
  rewrite span_digits_append by done.
  apply String.eqb_neq in Hs1, He1, Ht1. rewrite Hs1. simpl.
  rewrite span_digits_append by done. rewrite He1. simpl.
  rewrite span_digits_all by done. rewrite Ht1. reflexivity.
Qed.

Lemma resumeBytesPattern_chunk_range (ds de dt : string) :
  Text.is_number ds = true ->
  resumeBytesPattern (chunk_range ds de dt) = false.
Proof.
  intros (c & r & -> & Hc)%number_head.
  unfold resumeBytesPattern.
  change (Text.strip_prefix "bytes */" (chunk_range (String c r) de dt))
    with (if Ascii.eqb "*" c
          then Text.strip_prefix "/" (r +:+ "-" +:+ de +:+ "/" +:+ dt)
          else None).
  destruct (Ascii.eqb_spec "*" c) as [<- | Hne]; [discriminate Hc | reflexivity].
Qed.

Lemma resumeBytesPattern_probe_range (dt : string) :
  Text.is_number dt = true -> resumeBytesPattern (probe_range dt) = true.
Proof.
  intros [Ht1 Ht2]%is_number_inv. unfold resumeBytesPattern, probe_range. simpl.
  rewrite span_digits_all by done.
  apply String.eqb_neq in Ht1. by rewrite Ht1.
Qed.

Lemma is_digit_range (c : ascii) :
  Text.is_digit c = true -> 48 <= Z.of_N (N_of_ascii c) <= 57.
Proof. unfold Text.is_digit. intros H. apply andb_prop in H as [H1 H2]. lia. Qed.

Lemma int_digits_nonneg (s : string) (acc : Z) :
  0 <= acc -> Text.all_chars Text.is_digit s = true -> 0 <= Text.int_digits acc s.
Proof.
  revert acc. induction s as [|c s IH]; intros acc Hacc Hd; simpl in *; [exact Hacc |].
  apply andb_prop in Hd as [Hc Hd]. apply is_digit_range in Hc.
  apply IH; [lia | exact Hd].
Qed.

Lemma all_chars_rev_app (p : ascii -> bool) (s t : string) :
  Text.all_chars p (String.rev_app s t) = Text.all_chars p s && Text.all_chars p t.
Proof.
  revert t. induction s as [|c s IH]; intros t; simpl; [reflexivity |].
  rewrite IH. simpl. destruct (p c), (Text.all_chars p s); reflexivity.
Qed.

Lemma findall_from_digit_runs (s cur : string) :
  Text.all_chars Text.is_digit cur = true ->
  Forall (fun d => Text.all_chars Text.is_digit d = true)
         (intPattern_findall_from cur s).
Proof.
  assert (Hemit : forall cur, Text.all_chars Text.is_digit cur = true ->
            Forall (fun d => Text.all_chars Text.is_digit d = true)
                   (if String.eqb cur "" then [] else [String.rev cur])).
  { intros c Hc. destruct (String.eqb c ""); constructor; [| constructor].
    unfold String.rev. rewrite all_chars_rev_app, Hc. reflexivity. }
  revert cur. induction s as [|c s IH]; intros cur Hcur; simpl.
  - by apply Hemit.
  - destruct (Text.is_digit c) eqn:Hc.
    + apply IH. simpl. by rewrite Hc, Hcur.
    + apply Forall_app. split; [by apply Hemit | by apply IH].
Qed.

Lemma findall_nonneg (info : string) (i : nat) (n : Z) :
  Text.int_of <$> intPattern_findall info !! i = Some n -> 0 <= n.
Proof.
  intros H. apply fmap_Some in H as (d & Hd & ->).
  pose proof (findall_from_digit_runs info "" eq_refl) as Hall.
  rewrite Forall_forall in Hall.
  apply int_digits_nonneg; [lia |].
  apply Hall. eapply list_elem_of_lookup_2. exact Hd.
Qed.

Lemma dotstar_then_append (tail m : string) :
  one_line m = true -> Text.dotstar_then tail (m +:+ tail) = true.
Proof.
  unfold one_line. induction m as [|c m IH]; intros Hm.
  - simpl. destruct tail as [|t tail]; simpl.
    + reflexivity.
    + rewrite <- (append_empty_r tail) at 2. rewrite Ascii.eqb_refl.
      rewrite strip_prefix_append. reflexivity.
  - simpl in Hm. apply andb_prop in Hm as [Hc Hm].
    change (Text.dotstar_then tail (String c m +:+ tail))
      with (match Text.strip_prefix tail (String c (m +:+ tail)) with
            | Some r => Text.at_end r
            | None => false
            end || (negb (Text.is_LF c) && Text.dotstar_then tail (m +:+ tail))).
    rewrite Hc, (IH Hm). apply orb_true_r.
Qed.



Lemma parentsQueryPattern_parents_query (id : string) :
  one_line id = true -> parentsQueryPattern (parents_query id) = true.
Proof.
  intros Hid. unfold parentsQueryPattern, parents_query.
  rewrite strip_prefix_append. by apply dotstar_then_append.
Qed.

Lemma mimeTypeQueryPattern_parents_query (id : string) :
  mimeTypeQueryPattern (parents_query id) = false.
Proof. reflexivity. Qed.

Lemma slice_parents_query (id : string) : Text.slice 1 12 (parents_query id) = id.
Proof.
  unfold Text.slice, parents_query. rewrite !length_append.
  change (Text.drop_chars 1 ("'" +:+ id +:+ "' in parents"))
    with (id +:+ "' in parents").
  replace (String.length "'" + (String.length id + String.length "' in parents") - 12 - 1)%nat
    with (String.length id) by (simpl; lia).
  apply take_chars_append.
Qed.

(** ** Running a handler *)

Ltac run_handler :=
  cbv beta iota delta
    [run bind ret stop modify get_state leave_if demand int_or
     _checkDriveHeaders json_response alloc negb].

Lemma pause_hook_keeps (s : State) :
  _auth_token (pause_hook s) = _auth_token s /\
  heap (pause_hook s) = heap s /\
  items (pause_hook s) = items s /\
  lostPermission (pause_hook s) = lostPermission s /\
  space_available (pause_hook s) = space_available s /\
  _upload_info (pause_hook s) = _upload_info s /\
  chunks (pause_hook s) = chunks s /\
  _waitOnChunk (pause_hook s) = _waitOnChunk s /\
  _port (pause_hook s) = _port s.
Proof.
  unfold pause_hook.
  destruct (0 <? _waitOnChunk s); [| by repeat split].
  destruct (_current_chunk s =? _waitOnChunk s); by repeat split.
Qed.

Lemma pause_hook_idle (s : State) : _waitOnChunk s <= 0 -> pause_hook s = s.
Proof.
  intros H. unfold pause_hook.
  destruct (Z.ltb_spec 0 (_waitOnChunk s)); [lia | reflexivity].
Qed.

Lemma authorised_eqb (s : State) (req : Request) :
  authorised s req ->
  String.eqb (default "" (Authorization req)) ("Bearer " +:+ _auth_token s) = true.
Proof. intros H. by apply String.eqb_eq. Qed.

Lemma probe_answer (s : State) (req : Request) (u : upload_info)
      (info : string) (cl : Z) :
  _upload_info s = Some u -> match_id req = ui_id u -> authorised s req ->
  Content_Length req = IntValue cl -> Content_Range req = Some info ->
  resumeBytesPattern info = true ->
  run (_uploadProgress req) s
  = (pause_hook s,
     Returns (plain_response 308
                (if ui_next_start u =? 0 then []
                 else [range_header (ui_next_start u - 1)]))).
Proof.
  intros Hu Hid Hauth Hcl Hcr Hprobe.
  destruct (pause_hook_keeps s) as (Htok & _ & _ & _ & _ & Hui & _).
  unfold _uploadProgress. run_handler.
  rewrite Htok, (authorised_eqb _ _ Hauth). run_handler.
  rewrite Hui, Hu, Hid, String.eqb_refl. run_handler.
  rewrite Hcl, Hcr. run_handler. rewrite Hprobe. reflexivity.
Qed.

Lemma dict_get_set_eq {V} (k : string) (v : V) (d : list (string * V)) :
  dict_get k (dict_set k v d) = Some v.
Proof.
  induction d as [|[k' v'] d IH]; simpl.
  - by rewrite String.eqb_refl.
  - destruct (String.eqb k k') eqn:E; simpl; rewrite E; [reflexivity | exact IH].
Qed.

Lemma dict_get_set_ne {V} (k k' : string) (v : V) (d : list (string * V)) :
  k <> k' -> dict_get k (dict_set k' v d) = dict_get k d.
Proof.
  intros Hne. induction d as [|[k2 v2] d IH]; simpl.
  - apply String.eqb_neq in Hne. by rewrite Hne.
  - destruct (String.eqb_spec k' k2) as [-> | Hk]; simpl.
    + apply String.eqb_neq in Hne. by rewrite Hne.
    + destruct (String.eqb k k2); [reflexivity | exact IH].
Qed.

Lemma extend_len (buf buf' : value) (received : list Byte.byte) :
  extend buf received = Some buf' ->
  exists n, value_len buf' = Some n.
Proof.
  destruct buf; simpl; intros H; inversion H; subst; simpl; eauto.
Qed.

Ltac run_handler_in H :=
  cbv beta iota delta
    [run bind ret stop modify get_state leave_if demand int_or
     _checkDriveHeaders json_response alloc negb] in H.

Ltac destruct_scrutinee t :=
  lazymatch t with
  | if ?b then _ else _ => destruct_scrutinee b
  | match ?y with _ => _ end => destruct_scrutinee y
  | ?f _ =>
      lazymatch f with
      | if _ then _ else _ => destruct_scrutinee f
      | match _ with _ => _ end => destruct_scrutinee f
      | _ => destruct t eqn:?
      end
  | _ => destruct t eqn:?
  end.

Ltac step_run H :=
  run_handler_in H;
  lazymatch type of H with
  | (_, _) = _ => fail
  | ?l = _ => destruct_scrutinee l
  end.

Ltac props :=
  repeat match goal with
  | H : (_ =? _) = true |- _ => apply Z.eqb_eq in H
  | H : (_ =? _) = false |- _ => apply Z.eqb_neq in H
  | H : (_ >? _) = false |- _ => rewrite Z.gtb_ltb in H; apply Z.ltb_ge in H
  | H : (_ >? _) = true |- _ => rewrite Z.gtb_ltb in H; apply Z.ltb_lt in H
  | H : (_ <? _) = false |- _ => apply Z.ltb_ge in H
  | H : (_ <? _) = true |- _ => apply Z.ltb_lt in H
  | H : String.eqb _ _ = true |- _ => apply String.eqb_eq in H
  | H : String.eqb _ _ = false |- _ => apply String.eqb_neq in H
  | H : (_ || _) = true |- _ => apply orb_prop in H
  | H : (_ || _) = false |- _ => apply orb_false_elim in H as [? ?]
  end.

Lemma uploadProgress_inv (s s' : State) (req : Request) (o : outcome) :
  run (_uploadProgress req) s = (s', o) ->
  (s' = pause_hook s /\
   ((forall r, o <> Returns r) \/
    exists u info,
      _upload_info s = Some u /\ Content_Range req = Some info /\
      resumeBytesPattern info = true /\
      o = Returns (plain_response 308
                     (if ui_next_start u =? 0 then []
                      else [range_header (ui_next_start u - 1)]))))
  \/
  exists u info start end_ buf buf' n,
    _upload_info s = Some u /\ match_id req = ui_id u /\
    Content_Range req = Some info /\ resumeBytesPattern info = false /\
    Text.int_of <$> intPattern_findall info !! 0%nat = Some start /\
    Text.int_of <$> intPattern_findall info !! 1%nat = Some end_ /\
    Text.int_of <$> intPattern_findall info !! 2%nat = Some (ui_size u) /\
    start = ui_next_start u /\ end_ <= ui_size u - 1 /\
    Z.of_nat (length (body req)) = end_ - start + 1 /\
    dict_get "bytes" (deref s (ui_item u)) = Some buf /\
    extend buf (body req) = Some buf' /\ value_len buf' = Some n /\
    ((n <> end_ + 1 /\ s' = after_extend s u buf' /\ o = Raises HTTPBadRequest)
     \/
     (n = end_ + 1 /\ end_ = ui_size u - 1 /\
      s' = set_items (dict_set (ui_id u) (ui_item u) (items s))
             (set_chunks (chunks s ++ [Z.of_nat (length (body req))])
                (after_extend s u buf')) /\
      commits (ui_id u) o)
     \/
     (n = end_ + 1 /\ end_ <> ui_size u - 1 /\
      s' = set_upload_info
             (Some {| ui_size := ui_size u; ui_mime := ui_mime u;
                      ui_item := ui_item u; ui_id := ui_id u;
                      ui_next_start := end_ + 1 |})
             (set_chunks (chunks s ++ [Z.of_nat (length (body req))])
                (after_extend s u buf')) /\
      o = Returns (plain_response 308 [range_header end_]))).
Proof.
  intros H.
  destruct (pause_hook_keeps s) as (Htok & Hheap & Hitems & _ & _ & Hui & Hch & _).
  unfold _uploadProgress, receive_chunk in H.
  rewrite ?Htok, ?Hui in H.
  repeat (step_run H; rewrite ?Htok, ?Hui in H).
  all: try (inversion H; subst; left; split; [reflexivity | left; intros; discriminate]).
  all: inversion H; subst; clear H; props.
  all: try (exfalso;
            match goal with
            | H : extend _ _ = Some _ |- _ =>
                destruct (extend_len _ _ _ H) as [? ?]; congruence
            end).
  all: try match goal with
           | H : serialisable _ = false |- _ => discriminate H
           end.
  all: unfold after_extend, deref in *; rewrite ?Hheap, ?Hitems, ?Hch in *.
  1: { left. split; [reflexivity |]. right. exists u, s0. by repeat split. }
  all: right; exists u, s0, (ui_next_start u), z1, v, v0, z3.
  all: repeat match goal with |- _ /\ _ => split end;
       try assumption; try reflexivity; try congruence; try lia.
  all: cbn [items chunks heap _upload_info set_items set_chunks set_heap
              set_upload_info];
       rewrite ?Hheap, ?Hitems, ?Hch.
  all: first
         [ left; repeat split; first [assumption | lia | reflexivity]
         | right; left; repeat split; first [assumption | lia | reflexivity]
         | right; right; repeat split; first [assumption | lia | reflexivity] ].
Qed.

(** ** Chunk transfer *)

Lemma item_bytes_inv (it : Item) (b : list Byte.byte) :
  item_bytes it = Some b -> dict_get "bytes" it = Some (VBytes b).
Proof.
  unfold item_bytes. destruct (dict_get "bytes" it) as [[]|]; congruence.
Qed.

Lemma uploadProgress_transfer (s : State) (req : Request) (u : upload_info)
      (cl : Z) (ds de dt : string) :
  _upload_info s = Some u -> match_id req = ui_id u -> authorised s req ->
  Content_Length req = IntValue cl ->
  Text.is_number ds = true -> Text.is_number de = true ->
  Text.is_number dt = true ->
  Content_Range req = Some (chunk_range ds de dt) ->
  run (_uploadProgress req) s
  = run (receive_chunk req cl (Text.int_of ds) (Text.int_of de) (Text.int_of dt))
        (pause_hook s).
Proof.
  intros Hu Hid Hauth Hcl Hs He Ht Hcr.
  destruct (pause_hook_keeps s) as (Htok & _ & _ & _ & _ & Hui & _).
  unfold _uploadProgress. run_handler.
  rewrite Htok, (authorised_eqb _ _ Hauth). run_handler.
  rewrite Hui, Hu, Hid, String.eqb_refl. run_handler.
  rewrite Hcl, Hcr. run_handler.
  rewrite resumeBytesPattern_chunk_range by exact Hs.
  rewrite bytesPattern_chunk_range by assumption. run_handler.
  rewrite findall_chunk_range by assumption.
  reflexivity.
Qed.

Lemma receive_chunk_refused (s0 : State) (req : Request) (u : upload_info)
      (cl start e total : Z) :
  _upload_info s0 = Some u -> start <> ui_next_start u ->
  run (receive_chunk req cl start e total) s0 = (s0, Raises HTTPBadRequest).
Proof.
  intros Hu Hne. unfold receive_chunk. run_handler. rewrite Hu. run_handler.
  destruct (total =? ui_size u); [| reflexivity]. run_handler.
  apply Z.eqb_neq in Hne. rewrite Hne. reflexivity.
Qed.

Lemma receive_chunk_taken (s0 : State) (req : Request) (u : upload_info)
      (b : list Byte.byte) (e : Z) :
  _upload_info s0 = Some u ->
  item_bytes (deref s0 (ui_item u)) = Some b ->
  ui_next_start u = Z.of_nat (length b) ->
  Z.of_nat (length (body req)) = e - ui_next_start u + 1 ->
  e <= ui_size u - 1 ->
  (e = ui_size u - 1 \/ Z.of_nat (length (body req)) mod (256 * 1024) = 0) ->
  run (receive_chunk req (Z.of_nat (length (body req))) (ui_next_start u) e
                     (ui_size u)) s0
  = let s1 :=
      set_chunks (chunks s0 ++ [Z.of_nat (length (body req))])
        (set_heap (<[ui_item u := dict_set "bytes" (VBytes (b ++ body req))
                                    (deref s0 (ui_item u))]> (heap s0)) s0) in
    if e =? ui_size u - 1
    then (set_items (dict_set (ui_id u) (ui_item u) (items s0)) s1,
          Returns (commit_response (ui_id u)))
    else (set_upload_info
            (Some {| ui_size := ui_size u; ui_mime := ui_mime u;
                     ui_item := ui_item u; ui_id := ui_id u;
                     ui_next_start := e + 1 |}) s1,
          Returns (plain_response 308 [range_header e])).
Proof.
  intros Hu Hb Hn Hlen Hle Hfin. apply item_bytes_inv in Hb.
  unfold receive_chunk. run_handler. rewrite Hu. run_handler.
  rewrite !Z.eqb_refl. run_handler.
  replace ((e =? ui_size u - 1)
           || (Z.of_nat (length (body req)) `mod` (256 * 1024) =? 0)) with true.
  2: { symmetry. apply orb_true_iff. destruct Hfin as [-> | ->];
       [left; apply Z.eqb_refl | right; reflexivity]. }
  run_handler.
  replace (e >? ui_size u - 1) with false
    by (symmetry; rewrite Z.gtb_ltb; apply Z.ltb_ge; lia).
  run_handler.
  replace (Z.of_nat (length (body req)) =? e - ui_next_start u + 1) with true
    by (symmetry; apply Z.eqb_eq; exact Hlen).
  run_handler. rewrite Hb. run_handler.
  cbn [extend value_len]. run_handler.
  replace (Z.of_nat (length (b ++ body req)) =? e + 1) with true
    by (symmetry; apply Z.eqb_eq; rewrite length_app; lia).
  run_handler.
  destruct (e =? ui_size u - 1); reflexivity.
Qed.

Lemma deref_allocated (s : State) (a : nat) (b : list Byte.byte) :
  item_bytes (deref s a) = Some b -> (a < length (heap s))%nat.
Proof.
  unfold deref. intros H. apply lookup_lt_is_Some.
  destruct (heap s !! a); [eauto | discriminate].
Qed.

Lemma item_bytes_set (it : Item) (b : list Byte.byte) :
  item_bytes (dict_set "bytes" (VBytes b) it) = Some b.
Proof. unfold item_bytes. by rewrite dict_get_set_eq. Qed.

Lemma chunk_step (s : State) (req : Request) (u : upload_info)
      (b : list Byte.byte) (e : Z) :
  _upload_info s = Some u ->
  item_bytes (deref s (ui_item u)) = Some b ->
  ui_next_start u = Z.of_nat (length b) ->
  carries (_auth_token s) (ui_id u) (ui_size u) (ui_next_start u) e req ->
  e <= ui_size u - 1 ->
  (e = ui_size u - 1 \/ Z.of_nat (length (body req)) mod (256 * 1024) = 0) ->
  exists s',
    run (_uploadProgress req) s
    = (s', if e =? ui_size u - 1
           then Returns (commit_response (ui_id u))
           else Returns (plain_response 308 [range_header e])) /\
    _auth_token s' = _auth_token s /\
    item_bytes (deref s' (ui_item u)) = Some (b ++ body req) /\
    dict_get "id" (deref s' (ui_item u)) = dict_get "id" (deref s (ui_item u)) /\
    (if e =? ui_size u - 1
     then dict_get (ui_id u) (items s') = Some (ui_item u)
     else _upload_info s'
          = Some {| ui_size := ui_size u; ui_mime := ui_mime u;
                    ui_item := ui_item u; ui_id := ui_id u;
                    ui_next_start := e + 1 |}).
Proof.
  intros Hu Hb Hn (Hauth & Hid & Hcl & Hlen & ds & de & dt
                   & Hds & Hde & Hdt & Hcr & Hs & He & Ht) Hle Hfin.
  destruct (pause_hook_keeps s) as (Htok & Hheap & Hitems & _ & _ & Hui & _).
  pose proof (deref_allocated _ _ _ Hb) as Hlt.
  assert (Hderef : deref (pause_hook s) (ui_item u) = deref s (ui_item u))
    by (unfold deref; by rewrite Hheap).
  rewrite (uploadProgress_transfer s req u _ ds de dt) by done.
  rewrite Hs, He, Ht.
  rewrite (receive_chunk_taken (pause_hook s) req u b e);
    rewrite ?Hui, ?Hderef; try done.
  cbv zeta. rewrite Hheap, Hitems.
  destruct (e =? ui_size u - 1); eexists; (split; [reflexivity |]).
  all: unfold deref; cbn [heap items _auth_token _upload_info set_items
                           set_chunks set_heap set_upload_info].
  all: rewrite list_lookup_insert_eq by exact Hlt; cbn [default from_option id].
  all: rewrite item_bytes_set, Htok.
  all: repeat split; try reflexivity.
  all: try (apply dict_get_set_ne; discriminate).
  apply dict_get_set_eq.
Qed.

Lemma carries_length (token id : string) (S n e : Z) (req : Request) :
  carries token id S n e req -> n <= e + 1.
Proof. intros (_ & _ & _ & Hlen & _). lia. Qed.

Lemma sequential_bound (token id : string) (S : Z) (reqs : list Request) :
  forall n, sequential token id S n reqs -> n <= S.
Proof.
  induction reqs as [|req rest IH]; intros n H; [destruct H |].
  destruct rest as [|req' rest].
  - apply carries_length in H. lia.
  - destruct H as (e & Hc & _ & _ & Hrest).
    apply carries_length in Hc. apply IH in Hrest. lia.
Qed.

Lemma deliver_sequential (reqs : list Request) :
  forall (s : State) (u : upload_info) (b : list Byte.byte),
    _upload_info s = Some u ->
    item_bytes (deref s (ui_item u)) = Some b ->
    ui_next_start u = Z.of_nat (length b) ->
    sequential (_auth_token s) (ui_id u) (ui_size u) (ui_next_start u) reqs ->
    exists s2 os it b2,
      deliver s reqs = (s2, os) /\
      Forall accepted os /\
      last os = Some (Returns (commit_response (ui_id u))) /\
      item_of s2 (ui_id u) = Some it /\
      item_bytes it = Some b2 /\
      Z.of_nat (length b2) = ui_size u /\
      dict_get "id" it = dict_get "id" (deref s (ui_item u)).
Proof.
  induction reqs as [|req rest IH]; intros s u b Hu Hb Hn Hseq; [destruct Hseq |].
  destruct rest as [|req' rest].
  - (* the final chunk *)
    pose proof Hseq as (_ & _ & _ & Hlen & _).
    destruct (chunk_step s req u b (ui_size u - 1) Hu Hb Hn Hseq
                ltac:(lia) ltac:(by left))
      as (s' & Hrun & _ & Hb' & Hid & Hst).
    rewrite Z.eqb_refl in Hrun, Hst.
    exists s', [Returns (commit_response (ui_id u))],
           (deref s' (ui_item u)), (b ++ body req).
    cbn [deliver]. rewrite Hrun. repeat split; try done.
    + constructor; [| constructor]. eexists. split; [reflexivity |]. by right.
    + unfold item_of. by rewrite Hst.
    + rewrite length_app. lia.
  - (* an aligned chunk, then the rest *)
    destruct Hseq as (e & Hc & Hne & Hal & Hrest).
    pose proof (sequential_bound _ _ _ _ _ Hrest) as Hbound.
    pose proof Hc as (_ & _ & _ & Hlen & _).
    destruct (chunk_step s req u b e Hu Hb Hn Hc ltac:(lia) ltac:(by right))
      as (s' & Hrun & Htok & Hb' & Hid & Hst).
    replace (e =? ui_size u - 1) with false in Hrun, Hst
      by (symmetry; apply Z.eqb_neq; exact Hne).
    set (u' := {| ui_size := ui_size u; ui_mime := ui_mime u;
                  ui_item := ui_item u; ui_id := ui_id u;
                  ui_next_start := e + 1 |}) in *.
    destruct (IH s' u' (b ++ body req)) as (s2 & os & it & b2 & Hd & Hall & Hlast & Hit & Hb2 & Hl2 & Hid2);
      try done.
    + cbn [u' ui_next_start]. rewrite length_app. lia.
    + by rewrite Htok.
    + exists s2, (Returns (plain_response 308 [range_header e]) :: os), it, b2.
      change (deliver s (req :: req' :: rest))
        with (let (s1, o) := run (_uploadProgress req) s in
              let (s2, os) := deliver s1 (req' :: rest) in (s2, o :: os)).
      rewrite Hrun, Hd. repeat split; try done.
      * constructor; [| exact Hall]. eexists. split; [reflexivity |]. by left.
      * destruct os as [|o os]; [discriminate Hlast | exact Hlast].
      * cbn [u' ui_item] in Hid2. by rewrite Hid2.
Qed.

(** ** Starting an upload *)

Lemma check_parents_state (s : State) (ps : list value) :
  forall s0 s1 r, check_parents s ps s0 = (s1, r) -> s1 = s0.
Proof.
  induction ps as [|p ps IH]; intros s0 s1 r H.
  - inversion H. reflexivity.
  - destruct p; simpl in H; try (inversion H; reflexivity).
    run_handler_in H.
    destruct (dict_has s2 (items s)); [| inversion H; reflexivity].
    destruct (lost s s2); [inversion H; reflexivity |].
    by eapply IH.
Qed.

Lemma check_parents_answer (s : State) (ps : list value) :
  forall s0 s1 r, check_parents s ps s0 = (s1, inr (Returns r)) -> status r = 403.
Proof.
  induction ps as [|p ps IH]; intros s0 s1 r H.
  - inversion H.
  - destruct p; simpl in H; try (inversion H; fail).
    run_handler_in H.
    destruct (dict_has s2 (items s)); [| inversion H].
    destruct (lost s s2); [inversion H; reflexivity |].
    by eapply IH.
Qed.

Lemma upload_inv (env : Env) (req : Request) (s s' : State) (o : outcome) :
  run (_upload env req) s = (s', o) ->
  (s' = s /\ forall r, o = Returns r -> status r <> 200) \/
  exists size mime metadata,
    X_Upload_Content_Length req = IntValue size /\ 0 <= size /\
    X_Upload_Content_Type req = Some mime /\ json req = Some metadata /\
    s' = started s env metadata mime size /\
    o = Returns (plain_response 200 [("Location", location s (generateId env))]).
Proof.
  intros H. unfold _upload in H.
  repeat (step_run H;
          try match goal with
              | E : check_parents _ _ _ = (_, _) |- _ =>
                  pose proof (check_parents_state _ _ _ _ _ E); subst
              end).
  all: try (inversion H; subst; left; split; [reflexivity |]; intros ? [=]; fail).
  all: try (inversion H; subst; left; split; [reflexivity |]; intros ? [= <-];
            discriminate).
  all: try (inversion H; subst; left; split; [reflexivity |]; intros ? ?; subst;
            match goal with
            | E : check_parents _ _ _ = (_, inr (Returns _)) |- _ =>
                apply check_parents_answer in E; rewrite E; discriminate
            end).
  all: inversion H; subst; clear H; props; right.
  all: do 3 eexists; repeat split; try eassumption; try lia; reflexivity.
Qed.

Lemma upload_quota (env : Env) (req : Request) (s : State)
      (mime : string) (size t : Z) :
  authorised s req ->
  dict_get "uploadType" (query req) = Some "resumable" ->
  X_Upload_Content_Type req = Some mime ->
  X_Upload_Content_Length req = IntValue size -> 0 <= size ->
  total_size 0 (store_values s) = Some t ->
  t + size > space_available s ->
  run (_upload env req) s = (s, Returns quota_response).
Proof.
  intros Hauth Hty Hmime Hsize Hpos Htot Hq.
  unfold _upload. run_handler.
  rewrite (authorised_eqb _ _ Hauth). run_handler.
  rewrite Hty. cbn [String.eqb Ascii.eqb Bool.eqb]. run_handler.
  rewrite Hmime, Hsize. run_handler.
  replace (size <? 0) with false by (symmetry; apply Z.ltb_ge; lia).
  run_handler. rewrite Htot. run_handler.
  replace (t + size >? space_available s) with true
    by (symmetry; rewrite Z.gtb_ltb; apply Z.ltb_lt; lia).
  reflexivity.
Qed.

Lemma check_parents_ok (s s0 : State) (l : list value) :
  forallb (fun p => match p with
                    | VStr id => dict_has id (items s) && negb (lost s id)
                    | _ => false
                    end) l = true ->
  check_parents s l s0 = (s0, inl tt).
Proof.
  induction l as [|p l IH]; intros H; [reflexivity |].
  simpl in H. apply andb_prop in H as [Hp Hl].
  destruct p; try discriminate Hp.
  apply andb_prop in Hp as [Hin Hlost]. apply negb_true_iff in Hlost.
  simpl. run_handler. rewrite Hin, Hlost. by apply IH.
Qed.

Lemma upload_started (env : Env) (req : Request) (s : State)
      (mime : string) (size t : Z) (metadata : Item) :
  authorised s req ->
  dict_get "uploadType" (query req) = Some "resumable" ->
  X_Upload_Content_Type req = Some mime ->
  X_Upload_Content_Length req = IntValue size -> 0 <= size ->
  total_size 0 (store_values s) = Some t ->
  t + size <= space_available s ->
  json req = Some metadata -> parents_ok s metadata = true ->
  run (_upload env req) s
  = (started s env metadata mime size,
     Returns (plain_response 200 [("Location", location s (generateId env))])).
Proof.
  intros Hauth Hty Hmime Hsize Hpos Htot Hq Hjson Hpar.
  unfold _upload. run_handler.
  rewrite (authorised_eqb _ _ Hauth). run_handler.
  rewrite Hty. cbn [String.eqb Ascii.eqb Bool.eqb]. run_handler.
  rewrite Hmime, Hsize. run_handler.
  replace (size <? 0) with false by (symmetry; apply Z.ltb_ge; lia).
  run_handler. rewrite Htot. run_handler.
  replace (t + size >? space_available s) with false
    by (symmetry; rewrite Z.gtb_ltb; apply Z.ltb_ge; lia).
  rewrite Hjson. run_handler.
  unfold parents_ok in Hpar.
  destruct (dict_get "parents" metadata) as [v|].
  - destruct v; try discriminate Hpar. cbn [iterate]. run_handler.
    rewrite (check_parents_ok s s l Hpar). reflexivity.
  - run_handler. reflexivity.
Qed.

Lemma started_session (s : State) (env : Env) (metadata : Item)
      (mime : string) (size : Z) :
  let s1 := started s env metadata mime size in
  _upload_info s1
  = Some {| ui_size := size; ui_mime := mime; ui_item := length (heap s);
            ui_id := generateId env; ui_next_start := 0 |} /\
  deref s1 (length (heap s)) = pending_item env metadata size /\
  _auth_token s1 = _auth_token s /\ items s1 = items s.
Proof.
  cbv zeta. unfold started, deref.
  cbn [heap items _auth_token _upload_info set_heap set_upload_info].
  repeat split.
  by rewrite (list_lookup_middle (heap s) [] _ (length (heap s))).
Qed.

Lemma pending_item_fields (env : Env) (metadata : Item) (size : Z) :
  item_bytes (pending_item env metadata size) = Some [] /\
  dict_get "id" (pending_item env metadata size) = Some (VStr (generateId env)) /\
  modifiedTime (pending_item env metadata size)
  = Some (VStr (timeToRfc3339String env)).
Proof.
  unfold pending_item, item_bytes, modifiedTime, formatItem. repeat split.
  - rewrite dict_get_set_ne by discriminate. by rewrite dict_get_set_eq.
  - rewrite !dict_get_set_ne by discriminate. by rewrite dict_get_set_eq.
  - rewrite !dict_get_set_ne by discriminate. by rewrite dict_get_set_eq.
Qed.

(** ** The life of a session *)

Lemma pause_hook_in_flight (s : State) : in_flight s -> in_flight (pause_hook s).
Proof.
  destruct (pause_hook_keeps s) as (_ & Hheap & _ & _ & _ & Hui & _).
  intros (u & b & Hu & Hb & Hn). exists u, b. unfold deref in *.
  by rewrite Hui, Hheap.
Qed.

Lemma pause_hook_consumed (s : State) : consumed s -> consumed (pause_hook s).
Proof.
  destruct (pause_hook_keeps s) as (_ & Hheap & _ & _ & _ & Hui & _).
  intros (u & b & Hu & Hb & Hn). exists u, b. unfold deref in *.
  by rewrite Hui, Hheap.
Qed.

Lemma after_extend_bytes (s : State) (u : upload_info) (buf' : value)
      (b : list Byte.byte) :
  item_bytes (deref s (ui_item u)) = Some b ->
  deref (after_extend s u buf') (ui_item u)
  = dict_set "bytes" buf' (deref s (ui_item u)).
Proof.
  intros Hb. pose proof (deref_allocated _ _ _ Hb) as Hlt.
  destruct (pause_hook_keeps s) as (_ & Hheap & _).
  unfold after_extend, deref. cbn [heap set_heap]. rewrite Hheap.
  by rewrite list_lookup_insert_eq.
Qed.

Lemma after_extend_session (s : State) (u : upload_info) (buf' : value) :
  _upload_info (after_extend s u buf') = _upload_info s.
Proof.
  unfold after_extend. cbn [_upload_info set_heap].
  by destruct (pause_hook_keeps s) as (_ & _ & _ & _ & _ & Hui & _).
Qed.

(** What a chunk that reached the buffer does to a session in flight. *)
Lemma in_flight_transfer (s s' : State) (req : Request) (o : outcome)
      (u : upload_info) :
  in_flight s -> _upload_info s = Some u ->
  run (_uploadProgress req) s = (s', o) ->
  (in_flight s' /\ ~ commits (ui_id u) o) \/
  (commits (ui_id u) o /\ consumed s' /\
   (exists info, Content_Range req = Some info /\
                 Text.int_of <$> intPattern_findall info !! 1%nat
                 = Some (ui_size u - 1)) /\
   exists b, stored_bytes s' (ui_id u) = Some b /\
             Z.of_nat (length b) = ui_size u).
Proof.
  intros Hfl Hu Hrun. pose proof Hfl as (u0 & b & Hu0 & Hb & Hn & Hsz).
  assert (u0 = u) by congruence. subst u0.
  apply uploadProgress_inv in Hrun
    as [[-> Ho] | (u1 & info & start & e & buf & buf' & n & Hu1 & Hid & Hcr & Hnp
                   & H0 & H1 & H2 & Hst & Hle & Hlen & Hbuf & Hext & Hvl & Hcase)].
  - left. split; [by apply pause_hook_in_flight |].
    unfold commits. destruct Ho as [Ho | (u1 & info & _ & _ & _ & ->)].
    + intros ->. by eapply Ho.
    + discriminate.
  - assert (u1 = u) by congruence. subst u1.
    rewrite (item_bytes_inv _ _ Hb) in Hbuf. injection Hbuf as <-.
    cbn [extend] in Hext. injection Hext as <-.
    cbn [value_len] in Hvl. injection Hvl as <-.
    rewrite length_app in Hcase.
    pose proof (findall_nonneg _ _ _ H1) as He0.
    assert (Hd : forall s1, heap s1 = heap (after_extend s u (VBytes (b ++ body req))) ->
                 deref s1 (ui_item u)
                 = dict_set "bytes" (VBytes (b ++ body req)) (deref s (ui_item u))).
    { intros s1 Hh. rewrite <- (after_extend_bytes s u _ b Hb).
      unfold deref. by rewrite Hh. }
    destruct Hcase as [(Hne & _) | [(_ & Hfin & -> & Hc) | (_ & Hnf & -> & ->)]].
    + lia.
    + right. split; [exact Hc |]. split; [| split].
      * exists u, (b ++ body req). split.
        { cbn [_upload_info set_items set_chunks].
          by rewrite after_extend_session. }
        rewrite Hd by reflexivity. rewrite item_bytes_set.
        split; [reflexivity |]. rewrite length_app. lia.
      * exists info. split; [exact Hcr |]. by rewrite H1, Hfin.
      * exists (b ++ body req). unfold stored_bytes, item_of.
        cbn [items set_items]. rewrite dict_get_set_eq.
        rewrite Hd by reflexivity. rewrite item_bytes_set.
        split; [reflexivity |]. rewrite length_app. lia.
    + left. split; [| unfold commits; discriminate].
      eexists _, (b ++ body req). split; [reflexivity |].
      cbn [ui_item ui_next_start ui_size].
      rewrite Hd by reflexivity. rewrite item_bytes_set.
      split; [reflexivity |]. rewrite length_app. lia.
Qed.

(** What any chunk request does once the session is consumed. *)
Lemma consumed_transfer (s s' : State) (req : Request) (o : outcome) :
  consumed s -> run (_uploadProgress req) s = (s', o) ->
  consumed s' /\
  forall r, o = Returns r ->
            s' = pause_hook s /\ status r = 308 /\
            exists info, Content_Range req = Some info /\
                         resumeBytesPattern info = true.
Proof.
  intros (u & b & Hu & Hb & Hn) Hrun.
  apply uploadProgress_inv in Hrun
    as [[-> Ho] | (u1 & info & start & e & buf & buf' & n & Hu1 & Hid & Hcr & Hnp
                   & H0 & H1 & H2 & Hst & Hle & Hlen & Hbuf & Hext & Hvl & Hcase)].
  - split; [apply pause_hook_consumed; by exists u, b |].
    intros r ->. destruct Ho as [Ho | (u1 & info & _ & Hcr & Hp & [= ->])].
    + by destruct (Ho r).
    + split; [reflexivity |]. split; [reflexivity |]. by exists info.
  - assert (u1 = u) by congruence. subst u1.
    rewrite (item_bytes_inv _ _ Hb) in Hbuf. injection Hbuf as <-.
    cbn [extend] in Hext. injection Hext as <-.
    cbn [value_len] in Hvl. injection Hvl as <-.
    rewrite length_app in Hcase.
    destruct Hcase as [(Hne & -> & ->) | [(Heq & _) | (Heq & _)]]; try lia.
    split; [| discriminate].
    exists u, (b ++ body req). split.
    { by rewrite after_extend_session. }
    rewrite (after_extend_bytes s u _ b Hb), item_bytes_set.
    split; [reflexivity |]. rewrite length_app. lia.
Qed.

Lemma started_in_flight (s : State) (env : Env) (metadata : Item)
      (mime : string) (size : Z) :
  0 <= size -> in_flight (started s env metadata mime size).
Proof.
  intros Hsize.
  destruct (started_session s env metadata mime size) as (Hu & Hd & _).
  destruct (pending_item_fields env metadata size) as (Hb & _).
  eexists _, []. split; [exact Hu |]. cbn [ui_item ui_next_start ui_size].
  rewrite Hd, Hb. split; [reflexivity |]. split; [reflexivity |]. simpl. lia.
Qed.

Lemma lifecycle_start (env : Env) (req : Request) (s s' : State) (o : outcome) :
  lifecycle s -> run (_upload env req) s = (s', o) -> lifecycle s'.
Proof.
  intros Hl Hrun.
  apply upload_inv in Hrun
    as [[-> _] | (size & mime & metadata & _ & Hsize & _ & _ & -> & _)];
    [exact Hl |].
  right. left. by apply started_in_flight.
Qed.

Lemma lifecycle_chunk (req : Request) (s s' : State) (o : outcome) :
  lifecycle s -> run (_uploadProgress req) s = (s', o) -> lifecycle s'.
Proof.
  intros [Hnone | [Hfl | Hco]] Hrun.
  - apply uploadProgress_inv in Hrun as [[-> _] | (u & ? & ? & ? & ? & ? & ? & Hu & _)];
      [| congruence].
    left. destruct (pause_hook_keeps s) as (_ & _ & _ & _ & _ & Hui & _). congruence.
  - pose proof Hfl as (u & _ & Hu & _).
    destruct (in_flight_transfer s s' req o u Hfl Hu Hrun) as [[H _] | (_ & H & _)].
    + right. by left.
    + right. by right.
  - right. right. by apply (consumed_transfer s s' req o).
Qed.

Lemma lifecycle_serve_all (rs : list (endpoint * Env * Request)) :
  forall s, lifecycle s -> upload_ops rs -> lifecycle (fst (serve_all s rs)).
Proof.
  induction rs as [|[[ep env] req] rs IH]; intros s Hl Hops; [exact Hl |].
  apply Forall_cons in Hops as [Hep Hops]. cbn [serve_all].
  destruct (serve ep env req s) as [s1 o] eqn:Hs.
  specialize (IH s1).
  destruct (serve_all s1 rs) as [s2 os] eqn:Hrest. cbn [fst] in *.
  apply IH; [| exact Hops].
  cbn [fst] in Hep. destruct Hep as [-> | ->].
  - by apply (lifecycle_start env req s s1 o).
  - by apply (lifecycle_chunk req s s1 o).
Qed.

(** ** Store, query and projection *)

Lemma unauthorised_eqb (s : State) (req : Request) :
  ~ authorised s req ->
  String.eqb (default "" (Authorization req)) ("Bearer " +:+ _auth_token s) = false.
Proof. intros H. by apply String.eqb_neq. Qed.

Lemma serve_unauthorised (ep : endpoint) (env : Env) (req : Request) (s : State) :
  ~ authorised s req ->
  serve ep env req s
  = (match ep with UploadChunk => pause_hook s | _ => s end,
     Raises HTTPUnauthorized).
Proof.
  intros H. apply unauthorised_eqb in H.
  destruct ep; unfold serve, _get, _query, _create, _update, _delete, _upload,
                 _uploadProgress; run_handler.
  all: try (rewrite H; reflexivity).
  destruct (pause_hook_keeps s) as (Htok & _). rewrite Htok, H. reflexivity.
Qed.


Lemma dict_has_get {V} (k : string) (d : list (string * V)) (v : V) :
  dict_get k d = Some v -> dict_has k d = true.
Proof. unfold dict_has. by intros ->. Qed.





Lemma create_item (env : Env) (req : Request) (s : State) (base : Item) :
  authorised s req -> json req = Some base ->
  run (_create env req) s
  = (set_items (dict_set (generateId env) (length (heap s)) (items s))
       (set_heap (heap s ++ [formatItem env base (generateId env)]) s),
     Returns (json_answer (VDict [("id", VStr (generateId env))]))).
Proof.
  intros Hauth Hjson. unfold _create. run_handler.
  rewrite (authorised_eqb _ _ Hauth). run_handler.
  rewrite Hjson. run_handler.
  assert (Hid : dict_get "id" (formatItem env base (generateId env))
                = Some (VStr (generateId env))).
  { unfold formatItem. rewrite dict_get_set_ne by discriminate.
    by rewrite dict_get_set_eq. }
  rewrite Hid. reflexivity.
Qed.

Lemma formatItem_modifiedTime (env : Env) (base : Item) (id : string) :
  modifiedTime (formatItem env base id) = Some (VStr (timeToRfc3339String env)).
Proof. unfold modifiedTime, formatItem. by rewrite dict_get_set_eq. Qed.

Lemma dict_get_tail {V} (k k' : string) (v : V) (d : list (string * V)) :
  dict_get k ((k', v) :: d) = None -> k <> k' /\ dict_get k d = None.
Proof.
  simpl. destruct (String.eqb_spec k k'); [discriminate | by intros ->].
Qed.

Lemma merge_update_keeps (k : string) (update : Item) :
  forall item, dict_get k update = None ->
               dict_get k (fst (merge_update item update)) = dict_get k item.
Proof.
  induction update as [|[key v] rest IH]; intros item Hk; [reflexivity |].
  apply dict_get_tail in Hk as [Hne Hk]. simpl.
  destruct (dict_get key item) as [[]|] eqn:E;
    try (rewrite IH by exact Hk; by apply dict_get_set_ne).
  destruct (dict_update d v) as [d' ok].
  destruct ok; [| by apply dict_get_set_ne].
  rewrite IH by exact Hk. by apply dict_get_set_ne.
Qed.

Lemma deref_insert (s : State) (h : list Item) (a a' : nat) (it : Item) :
  heap s = h ->
  deref (set_heap (<[a := it]> h) s) a'
  = if decide (a = a' /\ (a < length h)%nat) then it else deref s a'.
Proof.
  intros <-. unfold deref. cbn [heap set_heap].
  destruct (decide (a = a' /\ (a < length (heap s))%nat)) as [[<- Hlt] | Hn].
  - by rewrite list_lookup_insert_eq.
  - destruct (decide (a = a')) as [<- | Hne].
    + rewrite list_insert_ge; [reflexivity |].
      destruct (Nat.le_gt_cases (length (heap s)) a); [assumption |].
      exfalso. apply Hn. by split.
    + by rewrite list_lookup_insert_ne.
Qed.

Lemma update_modifiedTime (req : Request) (s s' : State) (o : outcome)
      (update : Item) :
  run (_update req) s = (s', o) ->
  json req = Some update -> dict_get "modifiedTime" update = None ->
  forall a, modifiedTime (deref s' a) = modifiedTime (deref s a).
Proof.
  intros Hrun Hjson Hk a. unfold _update in Hrun.
  repeat step_run Hrun.
  all: inversion Hrun; subst; clear Hrun; try reflexivity.
  all: rewrite (deref_insert s (heap s)) by reflexivity.
  all: destruct (decide _) as [[<- _] | _]; [| reflexivity].
  all: injection Hjson as <-.
  all: unfold modifiedTime.
  all: match goal with
       | E : merge_update ?it ?u = (?i, _) |- _ =>
           rewrite <- (merge_update_keeps "modifiedTime" u it) by assumption;
           by rewrite E
       end.
Qed.

Lemma progress_modifiedTime (req : Request) (s s' : State) (o : outcome) :
  run (_uploadProgress req) s = (s', o) ->
  forall a, modifiedTime (deref s' a) = modifiedTime (deref s a).
Proof.
  intros Hrun a.
  destruct (pause_hook_keeps s) as (_ & Hheap & _).
  assert (Hp : deref (pause_hook s) a = deref s a)
    by (unfold deref; by rewrite Hheap).
  assert (He : forall u buf',
             modifiedTime (deref (after_extend s u buf') a)
             = modifiedTime (deref s a)).
  { intros u buf'. unfold after_extend.
    rewrite (deref_insert (pause_hook s) (heap (pause_hook s))) by reflexivity.
    destruct (decide _) as [[<- _] | _]; [| by rewrite Hp].
    unfold modifiedTime. apply dict_get_set_ne. discriminate. }
  apply uploadProgress_inv in Hrun
    as [[-> _] | (u & info & start & e & buf & buf' & n & _ & _ & _ & _
                  & _ & _ & _ & _ & _ & _ & _ & _ & _ & Hcase)].
  - by rewrite Hp.
  - destruct Hcase as [(_ & -> & _) | [(_ & _ & -> & _) | (_ & _ & -> & _)]];
      by rewrite <- (He u buf').
Qed.

Lemma all_chars_append (p : ascii -> bool) (a b : string) :
  Text.all_chars p (a +:+ b) = Text.all_chars p a && Text.all_chars p b.
Proof.
  induction a as [|c a IH]; simpl; [reflexivity |].
  rewrite IH. by rewrite andb_assoc.
Qed.

Lemma split_on_none (sep : ascii) (s cur : string) :
  Text.all_chars (fun c => negb (Ascii.eqb c sep)) s = true ->
  Text.split_on sep cur s = [String.rev_app cur s].
Proof.
  revert cur. induction s as [|c s IH]; intros cur H; simpl in *; [reflexivity |].
  apply andb_prop in H as [Hc Hs]. apply negb_true_iff in Hc. rewrite Hc.
  by apply IH.
Qed.

Lemma parseFields_one_wrapped (f : string) :
  Text.all_chars (fun c => negb (Ascii.eqb c ",")) f = true ->
  parseFields ("files(" +:+ f +:+ ")") = [f +:+ ")"].
Proof.
  intros Hf. unfold parseFields, Text.split_comma.
  rewrite split_on_none.
  2: { change ("files(" +:+ f +:+ ")") with ("files(" +:+ (f +:+ ")")).
       rewrite !all_chars_append, Hf. reflexivity. }
  cbn [map String.rev_app]. unfold Text.startswith.
  by rewrite strip_prefix_append.
Qed.

Lemma plain_no_comma (f : string) :
  plain f = true -> Text.all_chars (fun c => negb (Ascii.eqb c ",")) f = true.
Proof.
  unfold plain. induction f as [|c f IH]; simpl; [reflexivity |].
  intros [Hc Hf]%andb_prop. rewrite (IH Hf).
  unfold plain_char in Hc. apply andb_prop in Hc as [[Hc _]%andb_prop _].
  by rewrite Hc.
Qed.

Lemma split_on_piece (f rest cur : string) :
  Text.all_chars (fun c => negb (Ascii.eqb c ",")) f = true ->
  Text.split_on "," cur (f +:+ "," +:+ rest)
  = String.rev_app cur f :: Text.split_on "," "" rest.
Proof.
  revert cur. induction f as [|c f IH]; intros cur H; simpl in *.
  - reflexivity.
  - apply andb_prop in H as [Hc Hf]. apply negb_true_iff in Hc. rewrite Hc.
    by rewrite IH.
Qed.

Lemma split_closed (fs : list string) :
  fs <> [] -> Forall (fun f => plain f = true) fs ->
  Text.split_comma (join_comma fs +:+ ")") = closed_pieces fs.
Proof.
  unfold Text.split_comma.
  induction fs as [|f rest IH]; intros Hne Hall; [done |].
  apply Forall_cons in Hall as [Hf Hrest].
  destruct rest as [|g rest].
  - simpl. rewrite split_on_none; [reflexivity |].
    rewrite all_chars_append, (plain_no_comma f Hf). reflexivity.
  - change (join_comma (f :: g :: rest)) with (f +:+ "," +:+ join_comma (g :: rest)).
    rewrite append_assoc. change (("," +:+ join_comma (g :: rest)) +:+ ")")
      with ("," +:+ (join_comma (g :: rest) +:+ ")")).
    rewrite split_on_piece by (by apply plain_no_comma).
    rewrite IH by done. reflexivity.
Qed.

Lemma rev_app_append (a b c : string) :
  String.rev_app (a +:+ b) c = String.rev_app b (String.rev_app a c).
Proof.
  revert c. induction a as [|x a IH]; intros c; simpl; [reflexivity | apply IH].
Qed.

Lemma strip_prefix_inv (pre p r : string) :
  Text.strip_prefix pre p = Some r -> p = pre +:+ r.
Proof.
  revert p. induction pre as [|a pre IH]; intros p H; simpl in H.
  - by injection H as ->.
  - destruct p as [|b p]; [discriminate H |].
    destruct (Ascii.eqb_spec a b) as [<- | _]; [| discriminate H].
    simpl. f_equal. by apply IH.
Qed.

Lemma wrapped_not_plain (r : string) : plain ("files(" +:+ r) = false.
Proof. reflexivity. Qed.

Lemma plain_not_wrapped (p : string) :
  plain p = true -> Text.startswith p "files(" = false.
Proof.
  unfold Text.startswith. intros H.
  destruct (Text.strip_prefix "files(" p) as [r|] eqn:E; [| reflexivity].
  apply strip_prefix_inv in E as ->. by rewrite wrapped_not_plain in H.
Qed.

Lemma plain_not_closed (p : string) :
  plain p = true -> Text.endswith p ")" = false.
Proof.
  unfold plain, Text.endswith, Text.startswith, String.rev. intros H.
  assert (Hr : Text.all_chars plain_char (String.rev_app p "") = true)
    by (rewrite all_chars_rev_app, H; reflexivity).
  destruct (String.rev_app p "") as [|c r]; [reflexivity |].
  simpl in Hr. apply andb_prop in Hr as [Hc _].
  change (match (if Ascii.eqb ")" c then Some r else None) with
          | Some _ => true
          | None => false
          end = false).
  destruct (Ascii.eqb_spec ")" c) as [<- | _]; [discriminate Hc | reflexivity].
Qed.

Lemma closing_piece (f : string) :
  plain f = true ->
  Text.startswith (f +:+ ")") "files(" = false /\
  Text.endswith (f +:+ ")") ")" = true /\
  Text.take_chars (String.length (f +:+ ")") - 1) (f +:+ ")") = f.
Proof.
  intros Hf. split; [| split].
  - unfold Text.startswith.
    destruct (Text.strip_prefix "files(" (f +:+ ")")) as [r|] eqn:E; [| reflexivity].
    exfalso. apply strip_prefix_inv in E.
    assert (Hp : plain_char "(" = false) by reflexivity.
    assert (Hin : Text.all_chars (fun c => negb (Ascii.eqb c "(")) (f +:+ ")") = true).
    { rewrite all_chars_append. apply andb_true_intro. split; [| reflexivity].
      clear E. unfold plain in Hf. induction f as [|c f IH]; [reflexivity |].
      simpl in *. apply andb_prop in Hf as [Hc Hf]. rewrite (IH Hf).
      unfold plain_char in Hc.
      apply andb_prop in Hc as [[_ Hc]%andb_prop _]. by rewrite Hc. }
    rewrite E in Hin. discriminate Hin.
  - unfold Text.endswith, Text.startswith, String.rev.
    rewrite rev_app_append. reflexivity.
  - rewrite length_append. simpl.
    replace (String.length f + 1 - 1)%nat with (String.length f) by lia.
    apply take_chars_append.
Qed.

Lemma strip_closed_pieces (fs : list string) :
  Forall (fun f => plain f = true) fs ->
  map (fun field =>
         if Text.startswith field "files(" then Text.drop_chars 6 field
         else if Text.endswith field ")"
              then Text.take_chars (String.length field - 1) field
              else field) (closed_pieces fs) = fs.
Proof.
  induction fs as [|f rest IH]; intros Hall; [reflexivity |].
  apply Forall_cons in Hall as [Hf Hrest].
  destruct rest as [|g rest].
  - destruct (closing_piece f Hf) as (H1 & H2 & H3).
    cbn [closed_pieces map]. by rewrite H1, H2, H3.
  - change (closed_pieces (f :: g :: rest)) with (f :: closed_pieces (g :: rest)).
    cbn [map]. rewrite (plain_not_wrapped f Hf), (plain_not_closed f Hf).
    by rewrite IH.
Qed.

(** With two fields or more in the wrapper, [parseFields] gives the fields
    back. *)
Lemma parseFields_wrapped_several (f1 f2 : string) (fs : list string) :
  Forall (fun f => plain f = true) (f1 :: f2 :: fs) ->
  parseFields ("files(" +:+ join_comma (f1 :: f2 :: fs) +:+ ")")
  = f1 :: f2 :: fs.
Proof.
  intros Hall. apply Forall_cons in Hall as [H1 Hrest].
  unfold parseFields, Text.split_comma.
  change (join_comma (f1 :: f2 :: fs)) with (f1 +:+ "," +:+ join_comma (f2 :: fs)).
  replace ("files(" +:+ (f1 +:+ "," +:+ join_comma (f2 :: fs)) +:+ ")")
    with (("files(" +:+ f1) +:+ "," +:+ (join_comma (f2 :: fs) +:+ ")"))
    by (rewrite !append_assoc; reflexivity).
  rewrite split_on_piece.
  2: { rewrite all_chars_append, (plain_no_comma f1 H1). reflexivity. }
  cbn [map String.rev_app]. unfold Text.startswith at 1.
  rewrite strip_prefix_append.
  change (Text.drop_chars 6 ("files(" +:+ f1)) with f1.
  f_equal.
  change (Text.split_on "," "" (join_comma (f2 :: fs) +:+ ")"))
    with (Text.split_comma (join_comma (f2 :: fs) +:+ ")")).
  rewrite split_closed by done.
  by apply strip_closed_pieces.
Qed.

(** * The claims *)

(** ** Resumable upload: the claims *)

(** C1. An upload session of declared size [S > 0] whose chunks arrive in
    strict sequence -- each starting at the current [next_start], with a
    body of [end - start + 1] bytes, aligned on 256 KiB but for the last
    one, which ends at [S - 1] -- has every chunk accepted; the last answer
    returns the id of the session and the store then holds under this id an
    item whose byte buffer has exactly [S] bytes. *)
Theorem upload_sequence_commits (env : Env) (s s1 : State) (req : Request)
        (r : Response) (S : Z) (reqs : list Request) :
  run (_upload env req) s = (s1, Returns r) -> status r = 200 ->
  X_Upload_Content_Length req = IntValue S -> 0 < S ->
  sequential (_auth_token s1) (generateId env) S 0 reqs ->
  exists s2 os it b,
    deliver s1 reqs = (s2, os) /\
    Forall accepted os /\
    last os = Some (Returns (commit_response (generateId env))) /\
    item_of s2 (generateId env) = Some it /\
    item_bytes it = Some b /\
    Z.of_nat (length b) = S /\
    dict_get "id" it = Some (VStr (generateId env)).
Proof.
  intros Hrun Hst Hsize HS Hseq.
  apply upload_inv in Hrun
    as [[_ Hno] | (size & mime & metadata & Hsz & _ & _ & _ & -> & _)].
  { by destruct (Hno r eq_refl). }
  assert (size = S) by congruence. subst size.
  destruct (started_session s env metadata mime S) as (Hu & Hd & Htok & _).
  destruct (pending_item_fields env metadata S) as (Hb & Hid & _).
  cbv zeta in Hu, Hd, Htok.
  destruct (deliver_sequential reqs (started s env metadata mime S) _ []
              Hu) as (s2 & os & it & b & H1 & H2 & H3 & H4 & H5 & H6 & H7).
  - cbn [ui_item]. by rewrite Hd.
  - reflexivity.
  - exact Hseq.
  - exists s2, os, it, b. cbn [ui_id ui_size ui_item] in *.
    rewrite Hd, Hid in H7. by repeat split.
Qed.

Lemma upload_sequence_commits_witness :
  exists s2 os it b,
    deliver (started Sample.server Sample.env0 [("name", VStr "backup.tar")]
                     "application/tar" 262147)
            Sample.two_chunks = (s2, os) /\
    Forall accepted os /\
    last os = Some (Returns (commit_response "file-1")) /\
    item_of s2 "file-1" = Some it /\
    item_bytes it = Some b /\
    Z.of_nat (length b) = 262147 /\
    dict_get "id" it = Some (VStr "file-1").
Proof.
  refine (upload_sequence_commits Sample.env0 Sample.server _
            (Sample.start_upload 262147 [("name", VStr "backup.tar")])
            (plain_response 200
               [("Location",
                 "http://localhost:8080/upload/drive/v3/files/progress/file-1")])
            262147 Sample.two_chunks _ _ _ _ _).
  - vm_compute. reflexivity.
  - reflexivity.
  - reflexivity.
  - lia.
  - exists 262143.
    refine (conj (conj _ (conj _ (conj _ (conj _ _)))) (conj _ (conj _ _)));
      try (vm_compute; reflexivity).
    + exists "0", "262143", "262147".
      refine (conj _ (conj _ (conj _ (conj _ (conj _ (conj _ _))))));
        vm_compute; reflexivity.
    + discriminate.
    + refine (conj _ (conj _ (conj _ (conj _ _)))); try (vm_compute; reflexivity).
      exists "262144", "262146", "262147".
      refine (conj _ (conj _ (conj _ (conj _ (conj _ (conj _ _))))));
        vm_compute; reflexivity.
Defined.

(** C2. A chunk whose [Content-Range] starts elsewhere than at the
    [next_start] of the session in flight is refused with [BadRequest]; the
    session record (and so [next_start]), the accumulated buffer and the
    item store are what they were. *)
Theorem misplaced_chunk_refused (s : State) (req : Request) (u : upload_info)
        (cl : Z) (ds de dt : string) :
  _upload_info s = Some u -> match_id req = ui_id u -> authorised s req ->
  Content_Length req = IntValue cl ->
  Text.is_number ds = true -> Text.is_number de = true ->
  Text.is_number dt = true ->
  Content_Range req = Some (chunk_range ds de dt) ->
  Text.int_of ds <> ui_next_start u ->
  exists s',
    run (_uploadProgress req) s = (s', Raises HTTPBadRequest) /\
    _upload_info s' = Some u /\
    session_bytes s' = session_bytes s /\
    heap s' = heap s /\ items s' = items s.
Proof.
  intros Hu Hid Hauth Hcl Hs He Ht Hcr Hne.
  destruct (pause_hook_keeps s) as (_ & Hheap & Hitems & _ & _ & Hui & _).
  exists (pause_hook s).
  rewrite (uploadProgress_transfer s req u cl ds de dt) by assumption.
  rewrite (receive_chunk_refused (pause_hook s) req u) by congruence.
  unfold session_bytes, deref. rewrite Hui, Hheap, Hu. by repeat split.
Qed.

Lemma misplaced_chunk_refused_witness :
  exists s',
    run (_uploadProgress (Sample.put_chunk "file-1" "bytes 3-5/6" (Sample.zeros 3)))
        (started Sample.server Sample.env0 [] "application/tar" 6)
    = (s', Raises HTTPBadRequest) /\
    _upload_info s'
    = Some {| ui_size := 6; ui_mime := "application/tar"; ui_item := 0%nat;
              ui_id := "file-1"; ui_next_start := 0 |} /\
    session_bytes s'
    = session_bytes (started Sample.server Sample.env0 [] "application/tar" 6) /\
    heap s' = heap (started Sample.server Sample.env0 [] "application/tar" 6) /\
    items s' = items (started Sample.server Sample.env0 [] "application/tar" 6).
Proof.
  apply (misplaced_chunk_refused _ _ _ 3 "3" "5" "6"); try reflexivity.
  vm_compute. discriminate.
Defined.

(** C5. A request whose [Content-Range] has the probe form [bytes */<total>]
    is answered 308 whatever its body, and leaves the session, the
    buffers, the store and the chunk log as they were; the answer has the
    header [Range: bytes=0-(next_start - 1)] when [next_start > 0] and no
    [Range] header when [next_start = 0]. *)
Theorem status_probe (s : State) (req : Request) (u : upload_info)
        (cl : Z) (dt : string) :
  _upload_info s = Some u -> match_id req = ui_id u -> authorised s req ->
  Content_Length req = IntValue cl -> Text.is_number dt = true ->
  Content_Range req = Some (probe_range dt) ->
  exists s' r,
    (forall payload,
        run (_uploadProgress (with_body payload req)) s = (s', Returns r)) /\
    status r = 308 /\
    (0 < ui_next_start u ->
     headers r = [("Range", "bytes=0-" +:+ Text.str_of (ui_next_start u - 1))]) /\
    (ui_next_start u = 0 -> dict_get "Range" (headers r) = None) /\
    _upload_info s' = Some u /\ session_bytes s' = session_bytes s /\
    heap s' = heap s /\ items s' = items s /\ chunks s' = chunks s.
Proof.
  intros Hu Hid Hauth Hcl Hdt Hcr.
  destruct (pause_hook_keeps s) as (_ & Hheap & Hitems & _ & _ & Hui & Hch & _).
  exists (pause_hook s). eexists. split; [| split; [| split; [| split]]].
  - intros payload.
    apply (probe_answer s (with_body payload req) u (probe_range dt) cl);
      try assumption.
    by apply resumeBytesPattern_probe_range.
  - reflexivity.
  - intros Hpos. cbn [headers plain_response].
    destruct (Z.eqb_spec (ui_next_start u) 0); [lia | reflexivity].
  - intros ->. reflexivity.
  - unfold session_bytes, deref. rewrite Hui, Hheap, Hu. by repeat split.
Qed.

Lemma status_probe_witness :
  exists s' r,
    (forall payload,
        run (_uploadProgress
               (with_body payload (Sample.put_chunk "file-1" "bytes */262147" [])))
            Sample.midway
        = (s', Returns r)) /\
    status r = 308 /\
    headers r = [("Range", "bytes=0-262143")].
Proof.
  assert (Hu : _upload_info Sample.midway
               = Some {| ui_size := 262147; ui_mime := "application/tar";
                         ui_item := 0%nat; ui_id := "file-1";
                         ui_next_start := 262144 |})
    by (vm_compute; reflexivity).
  assert (Ha : authorised Sample.midway
                 (Sample.put_chunk "file-1" "bytes */262147" []))
    by (vm_compute; reflexivity).
  destruct (status_probe _ (Sample.put_chunk "file-1" "bytes */262147" []) _
              0 "262147" Hu eq_refl Ha eq_refl eq_refl eq_refl)
    as (s' & r & Hrun & Hst & Hrange & _).
  exists s', r. split; [exact Hrun |]. split; [exact Hst |].
  apply Hrange. reflexivity.
Defined.

Lemma total_size_sum (its : list Item) :
  forall acc, forallb sized its = true ->
              total_size acc its = Some (acc + sum_of_sizes its).
Proof.
  induction its as [|item rest IH]; intros acc H.
  - cbn. f_equal. lia.
  - cbn [forallb] in H. apply andb_prop in H as [Hi Hr].
    cbn [total_size sum_of_sizes foldr]. fold (sum_of_sizes rest).
    unfold sized in Hi. unfold size_of.
    destruct (dict_get "size" item) as [[|b0|z0|s0|l0|d|b1]|];
      try discriminate Hi; cbn [default from_option id].
    + rewrite (IH _ Hr). f_equal. lia.
    + rewrite (IH _ Hr). f_equal. lia.
Qed.

(** C4. A start-upload request whose declared length, added to the sum of
    the [size] fields of the stored items, exceeds the available space is
    answered 400 with the body whose reason is [storageQuotaExceeded]; the
    server state is untouched -- no session, same store -- and a
    start-upload request that fits then opens a session. *)
Theorem quota_exceeded (env : Env) (s : State) (req : Request) (mime : string)
        (size : Z) :
  authorised s req ->
  dict_get "uploadType" (query req) = Some "resumable" ->
  X_Upload_Content_Type req = Some mime ->
  X_Upload_Content_Length req = IntValue size -> 0 <= size ->
  forallb sized (store_values s) = true ->
  sum_of_sizes (store_values s) + size > space_available s ->
  exists s' r,
    run (_upload env req) s = (s', Returns r) /\
    status r = 400 /\
    resp_body r
    = JsonBody (VDict [("error",
                        VDict [("errors",
                                VList [VDict [("reason",
                                               VStr "storageQuotaExceeded")]])])]) /\
    s' = s /\
    forall env2 req2 mime2 size2 metadata,
      authorised s' req2 ->
      dict_get "uploadType" (query req2) = Some "resumable" ->
      X_Upload_Content_Type req2 = Some mime2 ->
      X_Upload_Content_Length req2 = IntValue size2 -> 0 <= size2 ->
      sum_of_sizes (store_values s') + size2 <= space_available s' ->
      json req2 = Some metadata -> parents_ok s' metadata = true ->
      exists s2 r2 u,
        run (_upload env2 req2) s' = (s2, Returns r2) /\
        status r2 = 200 /\
        dict_get "Location" (headers r2) = Some (location s' (generateId env2)) /\
        _upload_info s2 = Some u /\ ui_id u = generateId env2 /\
        ui_size u = size2 /\ ui_next_start u = 0 /\
        session_bytes s2 = Some [] /\ items s2 = items s'.
Proof.
  intros Hauth Hty Hmime Hsize Hpos Hsized Hover.
  pose proof (total_size_sum (store_values s) 0 Hsized) as Htot.
  rewrite Z.add_0_l in Htot.
  exists s, quota_response.
  split; [by apply (upload_quota env req s mime size _ Hauth Hty Hmime Hsize
                       Hpos Htot) |].
  split; [reflexivity |]. split; [reflexivity |]. split; [reflexivity |].
  intros env2 req2 mime2 size2 metadata Ha2 Hty2 Hm2 Hs2 Hp2 Hfit Hj2 Hpar.
  destruct (started_session s env2 metadata mime2 size2) as (Hu & Hd & _ & Hit).
  destruct (pending_item_fields env2 metadata size2) as (Hb & _).
  cbv zeta in Hu, Hd, Hit.
  eexists _, _, _. split.
  { by apply (upload_started env2 req2 s mime2 size2 _ metadata Ha2 Hty2 Hm2
                Hs2 Hp2 Htot). }
  split; [reflexivity |]. split; [reflexivity |].
  split; [exact Hu |]. cbn [ui_id ui_size ui_next_start].
  repeat split; try assumption.
  unfold session_bytes. rewrite Hu. cbn [ui_item]. by rewrite Hd.
Qed.

Lemma quota_exceeded_witness :
  let s := fst (serve_all (setDriveSpaceAvailable 100 Sample.server)
                  [(CreateItem, Sample.env0,
                    Sample.send_json "" [("size", VInt 90)])]) in
  sum_of_sizes (store_values s) = 90 /\
  exists r r2 s2,
    run (_upload Sample.env1 (Sample.start_upload 20 [])) s = (s, Returns r) /\
    status r = 400 /\
    run (_upload Sample.env1 (Sample.start_upload 10 [])) s = (s2, Returns r2) /\
    status r2 = 200.
Proof.
  cbv zeta. split; [reflexivity |].
  destruct (quota_exceeded Sample.env1
              (fst (serve_all (setDriveSpaceAvailable 100 Sample.server)
                      [(CreateItem, Sample.env0,
                        Sample.send_json "" [("size", VInt 90)])]))
              (Sample.start_upload 20 []) "application/tar" 20)
    as (s' & r & Hrun & Hst & _ & -> & Hnext);
    try reflexivity; try (vm_compute; congruence).
  destruct (Hnext Sample.env1 (Sample.start_upload 10 []) "application/tar"
                  10 [])
    as (s2 & r2 & u & Hrun2 & Hst2 & _);
    try reflexivity; try (vm_compute; congruence).
  exists r, r2, s2. by repeat split.
Defined.

(** The stages of an upload session. After any sequence of start-upload
    and upload-chunk requests the upload state is in one of three stages: no
    session, a session in flight ([next_start] is the length of its
    buffer), or a consumed session (its item is committed and the session
    record stays behind with the [next_start] of its last chunk). A session
    in flight is consumed by the answer 200 to the chunk whose end offset
    is [size - 1], which puts the item with [size] bytes in the store;
    any other outcome leaves it in flight. Once consumed, a session stays
    consumed and no chunk transfer addressed to it is answered: the only
    response left is the 308 of a status probe, which changes nothing. *)
Theorem upload_session_lifecycle (port : Z)
        (rs : list (endpoint * Env * Request)) (s : State) :
  upload_ops rs -> fst (serve_all (initial port) rs) = s ->
  lifecycle s /\
  forall req s' o,
    run (_uploadProgress req) s = (s', o) ->
    (forall u, in_flight s -> _upload_info s = Some u ->
       (in_flight s' /\ ~ commits (ui_id u) o) \/
       (commits (ui_id u) o /\ consumed s' /\
        (exists info, Content_Range req = Some info /\
                      Text.int_of <$> intPattern_findall info !! 1%nat
                      = Some (ui_size u - 1)) /\
        exists b, stored_bytes s' (ui_id u) = Some b /\
                  Z.of_nat (length b) = ui_size u)) /\
    (consumed s ->
       consumed s' /\
       forall r, o = Returns r ->
                 s' = pause_hook s /\ status r = 308 /\
                 exists info, Content_Range req = Some info /\
                              resumeBytesPattern info = true).
Proof.
  intros Hops <-. split.
  - apply lifecycle_serve_all; [by left | exact Hops].
  - intros req s' o Hrun. split.
    + intros u Hfl Hu. eapply in_flight_transfer; eassumption.
    + intros Hco. eapply consumed_transfer; eassumption.
Qed.

Lemma upload_session_lifecycle_witness :
  lifecycle
    (fst (serve_all (initial 8080)
            [(StartUpload, Sample.env0, Sample.start_upload 3 []);
             (UploadChunk, Sample.env0,
              Sample.put_chunk "file-1" "bytes 0-2/3" (Sample.zeros 3))])).
Proof.
  refine (proj1 (upload_session_lifecycle 8080
                   [(StartUpload, Sample.env0, Sample.start_upload 3 []);
                    (UploadChunk, Sample.env0,
                     Sample.put_chunk "file-1" "bytes 0-2/3" (Sample.zeros 3))]
                   _ _ eq_refl)).
  constructor; [by left | constructor; [by right | constructor]].
Defined.

Lemma receive_chunk_overrun (s0 : State) (req : Request) (u : upload_info)
      (b : list Byte.byte) (e : Z) :
  _upload_info s0 = Some u ->
  item_bytes (deref s0 (ui_item u)) = Some b ->
  Z.of_nat (length b) <> ui_next_start u ->
  Z.of_nat (length (body req)) = e - ui_next_start u + 1 ->
  e <= ui_size u - 1 ->
  (e = ui_size u - 1 \/ Z.of_nat (length (body req)) mod (256 * 1024) = 0) ->
  run (receive_chunk req (Z.of_nat (length (body req))) (ui_next_start u) e
                     (ui_size u)) s0
  = (set_heap (<[ui_item u := dict_set "bytes" (VBytes (b ++ body req))
                                (deref s0 (ui_item u))]> (heap s0)) s0,
     Raises HTTPBadRequest).
Proof.
  intros Hu Hb Hn Hlen Hle Hfin. apply item_bytes_inv in Hb.
  unfold receive_chunk. run_handler. rewrite Hu. run_handler.
  rewrite !Z.eqb_refl. run_handler.
  replace ((e =? ui_size u - 1)
           || (Z.of_nat (length (body req)) `mod` (256 * 1024) =? 0)) with true.
  2: { symmetry. apply orb_true_iff. destruct Hfin as [-> | ->];
       [left; apply Z.eqb_refl | right; reflexivity]. }
  run_handler.
  replace (e >? ui_size u - 1) with false
    by (symmetry; rewrite Z.gtb_ltb; apply Z.ltb_ge; lia).
  run_handler.
  replace (Z.of_nat (length (body req)) =? e - ui_next_start u + 1) with true
    by (symmetry; apply Z.eqb_eq; exact Hlen).
  run_handler. rewrite Hb. run_handler.
  cbn [extend value_len]. run_handler.
  replace (Z.of_nat (length (b ++ body req)) =? e + 1) with false
    by (symmetry; apply Z.eqb_neq; rewrite length_app; lia).
  reflexivity.
Qed.

(** C3. The chunk that commits an upload can be sent again with effect:
    the commit leaves [next_start] where that chunk started, so the same
    request passes the range checks a second time, its body is appended to
    the buffer of the committed item, and only then is it refused. For a
    session in flight with buffer [b] and the chunk [req] that ends at
    [size - 1]: the first delivery answers 200 and stores [b ++ body req]
    under the id; the second raises [BadRequest] and leaves
    [b ++ body req ++ body req] there. *)
Theorem replayed_last_chunk_extends_item (s : State) (req : Request)
        (u : upload_info) (b : list Byte.byte) :
  _upload_info s = Some u ->
  item_bytes (deref s (ui_item u)) = Some b ->
  ui_next_start u = Z.of_nat (length b) ->
  ui_next_start u < ui_size u ->
  carries (_auth_token s) (ui_id u) (ui_size u) (ui_next_start u)
          (ui_size u - 1) req ->
  let first := run (_uploadProgress req) s in
  let again := run (_uploadProgress req) (fst first) in
  snd first = Returns (commit_response (ui_id u)) /\
  stored_bytes (fst first) (ui_id u) = Some (b ++ body req) /\
  ui_next_start <$> _upload_info (fst first) = Some (ui_next_start u) /\
  snd again = Raises HTTPBadRequest /\
  stored_bytes (fst again) (ui_id u) = Some (b ++ body req ++ body req) /\
  body req <> [].
Proof.
  intros Hu Hb Hn Hlt Hc first again.
  pose proof Hc as (Hauth & Hid & Hcl & Hlen & ds & de & dt
                    & Hds & Hde & Hdt & Hcr & Hs & He & Ht).
  assert (Hbody : body req <> []).
  { intros E. rewrite E in Hlen. cbn in Hlen. lia. }
  destruct (pause_hook_keeps s) as (Htok & Hheap & Hitems & _ & _ & Hui & _).
  pose proof (deref_allocated _ _ _ Hb) as Halloc.
  assert (Hderef : deref (pause_hook s) (ui_item u) = deref s (ui_item u))
    by (unfold deref; by rewrite Hheap).
  (* the commit *)
  assert (Hfirst : first
                   = (set_items (dict_set (ui_id u) (ui_item u) (items s))
                        (set_chunks (chunks (pause_hook s)
                                       ++ [Z.of_nat (length (body req))])
                           (set_heap (<[ui_item u :=
                                          dict_set "bytes" (VBytes (b ++ body req))
                                                   (deref s (ui_item u))]>
                                        (heap s)) (pause_hook s))),
                      Returns (commit_response (ui_id u)))).
  { unfold first.
    rewrite (uploadProgress_transfer s req u _ ds de dt) by done.
    rewrite Hs, He, Ht.
    rewrite (receive_chunk_taken (pause_hook s) req u b (ui_size u - 1));
      rewrite ?Hui, ?Hderef; try done; try lia; try (by left).
    cbv zeta. by rewrite Z.eqb_refl, Hheap, Hitems. }
  set (s1 := fst first) in *.
  assert (Hu1 : _upload_info s1 = Some u).
  { unfold s1. rewrite Hfirst.
    cbn [fst _upload_info set_items set_chunks set_heap]. by rewrite Hui. }
  assert (Htok1 : _auth_token s1 = _auth_token s).
  { unfold s1. rewrite Hfirst.
    cbn [fst _auth_token set_items set_chunks set_heap]. exact Htok. }
  assert (Hin1 : dict_get (ui_id u) (items s1) = Some (ui_item u)).
  { unfold s1. rewrite Hfirst. cbn [fst items set_items].
    apply dict_get_set_eq. }
  assert (Hb1 : item_bytes (deref s1 (ui_item u)) = Some (b ++ body req)).
  { unfold s1. rewrite Hfirst. unfold deref.
    cbn [fst heap set_items set_chunks set_heap].
    rewrite list_lookup_insert_eq by exact Halloc.
    cbn [default from_option id]. apply item_bytes_set. }
  (* the same chunk again *)
  destruct (pause_hook_keeps s1)
    as (Htok2 & Hheap2 & Hitems2 & _ & _ & Hui2 & _).
  pose proof (deref_allocated _ _ _ Hb1) as Halloc1.
  assert (Hderef2 : deref (pause_hook s1) (ui_item u) = deref s1 (ui_item u))
    by (unfold deref; by rewrite Hheap2).
  assert (Hagain : again
                   = (set_heap (<[ui_item u :=
                                    dict_set "bytes"
                                      (VBytes ((b ++ body req) ++ body req))
                                      (deref s1 (ui_item u))]> (heap s1))
                               (pause_hook s1),
                      Raises HTTPBadRequest)).
  { unfold again. fold s1.
    rewrite (uploadProgress_transfer s1 req u (Z.of_nat (length (body req)))
               ds de dt); try done.
    2: { unfold authorised in *. by rewrite Htok1. }
    rewrite Hs, He, Ht.
    rewrite (receive_chunk_overrun (pause_hook s1) req u (b ++ body req)
               (ui_size u - 1));
      rewrite ?Hui2, ?Hderef2, ?Hheap2; try done; try lia; try (by left).
    rewrite length_app. lia. }
  split; [by rewrite Hfirst |].
  split; [unfold stored_bytes, item_of; by rewrite Hin1 |].
  split; [by rewrite Hu1 |].
  split; [by rewrite Hagain |].
  split; [| exact Hbody].
  rewrite Hagain. unfold stored_bytes, item_of, deref.
  cbn [fst items heap set_heap]. rewrite Hitems2, Hin1.
  rewrite list_lookup_insert_eq by exact Halloc1.
  cbn [default from_option id]. by rewrite item_bytes_set, <- app_assoc.
Qed.

Lemma replayed_last_chunk_extends_item_witness :
  let s := fst (run (_upload Sample.env0 (Sample.start_upload 3 []))
                    Sample.server) in
  let req := Sample.put_chunk "file-1" "bytes 0-2/3" (Sample.zeros 3) in
  let first := run (_uploadProgress req) s in
  let again := run (_uploadProgress req) (fst first) in
  snd first = Returns (commit_response "file-1") /\
  stored_bytes (fst first) "file-1" = Some (Sample.zeros 3) /\
  ui_next_start <$> _upload_info (fst first) = Some 0 /\
  snd again = Raises HTTPBadRequest /\
  stored_bytes (fst again) "file-1" = Some (Sample.zeros 6) /\
  Sample.zeros 3 <> [].
Proof.
  cbv zeta.
  refine (replayed_last_chunk_extends_item
            (fst (run (_upload Sample.env0 (Sample.start_upload 3 []))
                      Sample.server))
            (Sample.put_chunk "file-1" "bytes 0-2/3" (Sample.zeros 3))
            {| ui_size := 3; ui_mime := "application/tar"; ui_item := 0%nat;
               ui_id := "file-1"; ui_next_start := 0 |} []
            eq_refl eq_refl eq_refl _ _); [reflexivity |].
  unfold carries. repeat split; try reflexivity. by exists "0", "2", "3".
Defined.

(** ** Store and query: the claims *)







(** ** Authorisation: the claim *)

(** C8, as the code has it. On every data-plane endpoint a request whose
    [Authorization] header is not ["Bearer "] followed by the access token
    raises [Unauthorized]; the store, the item objects, the blocklist, the
    space, the session, the chunk log and the token are untouched. The
    whole state is untouched on every endpoint but upload-chunk, and on
    upload-chunk while the pause hook is not set; with the hook set,
    upload-chunk leaves the state the hook makes of it. *)
Theorem unauthorised_refused (ep : endpoint) (env : Env) (req : Request)
        (s : State) :
  ~ authorised s req ->
  exists s',
    serve ep env req s = (s', Raises HTTPUnauthorized) /\
    _auth_token s' = _auth_token s /\ heap s' = heap s /\
    items s' = items s /\ lostPermission s' = lostPermission s /\
    space_available s' = space_available s /\
    _upload_info s' = _upload_info s /\ chunks s' = chunks s /\
    (ep <> UploadChunk \/ _waitOnChunk s <= 0 -> s' = s) /\
    (ep = UploadChunk -> s' = pause_hook s).
Proof.
  intros Hauth. eexists. split; [by apply serve_unauthorised |].
  destruct ep; try by repeat split.
  destruct (pause_hook_keeps s) as (H1 & H2 & H3 & H4 & H5 & H6 & H7 & _).
  repeat split; try assumption.
  intros [Hne | Hidle]; [done | by apply pause_hook_idle].
Qed.

Lemma unauthorised_refused_witness :
  exists s',
    serve DeleteItem Sample.env0 (Sample.anonymous (Sample.get_file "file-1"))
          Sample.server
    = (s', Raises HTTPUnauthorized) /\ s' = Sample.server.
Proof.
  destruct (unauthorised_refused DeleteItem Sample.env0
              (Sample.anonymous (Sample.get_file "file-1")) Sample.server)
    as (s' & Hrun & _ & _ & _ & _ & _ & _ & _ & Hsame & _).
  - vm_compute. discriminate.
  - exists s'. split; [exact Hrun |]. apply Hsame. left. discriminate.
Defined.

(** C8 as stated fails on upload-chunk: with the pause hook set, the hook
    counts the request before the header is checked. *)
Lemma pause_hook_counts_unauthorised :
  let s := Sample.waiting_on 2 Sample.server in
  let after := serve UploadChunk Sample.env0
                     (Sample.anonymous
                        (Sample.put_chunk "file-1" "bytes 0-2/3" (Sample.zeros 3)))
                     s in
  snd after = Raises HTTPUnauthorized /\
  _current_chunk s = 1 /\ _current_chunk (fst after) = 2.
Proof. cbv zeta. vm_compute. by repeat split. Qed.

(** ** Timestamps and projection: the claims *)

(** C9, as the code has it. [modifiedTime] is written by [formatItem]
    alone: creation stamps the new item with the time of the request;
    start-upload stamps the pending item with the time the session starts,
    and no chunk, the last one included, changes the [modifiedTime] of any
    item; the update operation changes no [modifiedTime] either, unless
    the update itself carries the key. *)
Theorem modifiedTime_written_once :
  (forall env req s base,
      authorised s req -> json req = Some base ->
      exists s' r it,
        run (_create env req) s = (s', Returns r) /\
        item_of s' (generateId env) = Some it /\
        modifiedTime it = Some (VStr (timeToRfc3339String env))) /\
  (forall env req s s1 r,
      run (_upload env req) s = (s1, Returns r) -> status r = 200 ->
      exists u,
        _upload_info s1 = Some u /\
        modifiedTime (deref s1 (ui_item u))
        = Some (VStr (timeToRfc3339String env))) /\
  (forall req s s' o,
      run (_uploadProgress req) s = (s', o) ->
      forall a, modifiedTime (deref s' a) = modifiedTime (deref s a)) /\
  (forall req s s' o update,
      run (_update req) s = (s', o) ->
      json req = Some update -> dict_get "modifiedTime" update = None ->
      forall a, modifiedTime (deref s' a) = modifiedTime (deref s a)).
Proof.
  split; [| split; [| split]].
  - intros env req s base Hauth Hjson.
    eexists _, _, _. split; [by apply create_item |].
    split; [| apply (formatItem_modifiedTime env base (generateId env))].
    unfold item_of, deref. cbn [items heap set_items set_heap].
    rewrite dict_get_set_eq.
    by rewrite (list_lookup_middle (heap s) [] _ (length (heap s))).
  - intros env req s s1 r Hrun Hst.
    apply upload_inv in Hrun
      as [[_ Hno] | (size & mime & metadata & _ & _ & _ & _ & -> & _)].
    { by destruct (Hno r eq_refl). }
    destruct (started_session s env metadata mime size) as (Hu & Hd & _).
    destruct (pending_item_fields env metadata size) as (_ & _ & Ht).
    cbv zeta in Hu, Hd. eexists. split; [exact Hu |].
    cbn [ui_item]. by rewrite Hd.
  - intros req s s' o Hrun a. by apply (progress_modifiedTime req s s' o).
  - intros req s s' o update Hrun Hjson Hk a.
    by apply (update_modifiedTime req s s' o update).
Qed.

Lemma modifiedTime_written_once_witness :
  let s := fst (serve CreateItem Sample.env0
                      (Sample.send_json "" [("name", VStr "backups")])
                      Sample.server) in
  modifiedTime
    (deref (fst (run (_update (Sample.send_json "file-1" [("name", VStr "old")]))
                     s)) 0)
  = modifiedTime (deref s 0).
Proof.
  cbv zeta.
  destruct modifiedTime_written_once as (_ & _ & _ & Hupdate).
  apply (Hupdate (Sample.send_json "file-1" [("name", VStr "old")]) _ _
                 (Returns (plain_response 200 [])) [("name", VStr "old")]);
    reflexivity.
Defined.

(** C9 as stated fails for the update operation: an item created at one
    time and updated at a later time keeps the [modifiedTime] of its
    creation. *)
Lemma update_keeps_modifiedTime :
  let s := fst (serve CreateItem Sample.env0
                      (Sample.send_json "" [("name", VStr "backups")])
                      Sample.server) in
  let after := serve UpdateItem Sample.env1
                     (Sample.send_json "file-1" [("name", VStr "old")]) s in
  snd after = Returns (plain_response 200 []) /\
  (item_of (fst after) "file-1" ≫= dict_get "name") = Some (VStr "old") /\
  (item_of (fst after) "file-1" ≫= modifiedTime)
  = Some (VStr (timeToRfc3339String Sample.env0)) /\
  timeToRfc3339String Sample.env0 <> timeToRfc3339String Sample.env1.
Proof. cbv zeta. vm_compute. by repeat split. Qed.

(** C10 on the code: a single field in the wrapper keeps its closing
    parenthesis, [parseFields] strips the head [files(] and looks no
    further. *)
Theorem parseFields_single_wrapped (f : string) :
  Text.all_chars (fun c => negb (Ascii.eqb c ",")) f = true ->
  parseFields ("files(" +:+ f +:+ ")") = [f +:+ ")"].
Proof. apply parseFields_one_wrapped. Qed.

Lemma parseFields_single_wrapped_witness : parseFields "files(id)" = ["id)"].
Proof. apply (parseFields_single_wrapped "id"). reflexivity. Defined.

(** * Further properties *)

(** ** Projection *)

Lemma dict_get_set {V} (k k' : string) (v : V) (d : list (string * V)) :
  dict_get k (dict_set k' v d) = if String.eqb k k' then Some v else dict_get k d.
Proof.
  destruct (String.eqb_spec k k') as [-> | Hne].
  - apply dict_get_set_eq.
  - by apply dict_get_set_ne.
Qed.

Lemma filter_fields_from (item : Item) (fields : list string) :
  forall (acc : Item) (k : string),
    dict_get k
      (fold_left (fun ret field =>
                    match dict_get field item with
                    | Some v => dict_set field v ret
                    | None => ret
                    end) fields acc)
    = if existsb (String.eqb k) fields
      then match dict_get k item with
           | Some v => Some v
           | None => dict_get k acc
           end
      else dict_get k acc.
Proof.
  induction fields as [|f fields IH]; intros acc k; [reflexivity |].
  cbn [fold_left existsb]. rewrite IH.
  destruct (String.eqb_spec k f) as [-> | Hne]; cbn [orb].
  - destruct (dict_get f item) as [v|] eqn:E.
    + rewrite dict_get_set_eq. by destruct (existsb _ fields).
    + by destruct (existsb _ fields).
  - destruct (dict_get f item) as [v|] eqn:E; [| reflexivity].
    by rewrite dict_get_set_ne.
Qed.

(** X1. A projected record has, for each requested field the item has, the
    value the item has, and nothing else. *)
Theorem filter_fields_lookup (item : Item) (fields : list string) (k : string) :
  dict_get k (filter_fields item fields)
  = if existsb (String.eqb k) fields then dict_get k item else None.
Proof.
  unfold filter_fields. rewrite filter_fields_from.
  destruct (existsb _ fields); [| reflexivity].
  by destruct (dict_get k item).
Qed.

Lemma split_join (fs : list string) :
  fs <> [] ->
  Forall (fun f => Text.all_chars (fun c => negb (Ascii.eqb c ",")) f = true) fs ->
  Text.split_comma (join_comma fs) = fs.
Proof.
  unfold Text.split_comma.
  induction fs as [|f rest IH]; intros Hne Hall; [done |].
  apply Forall_cons in Hall as [Hf Hrest].
  destruct rest as [|g rest].
  - simpl. by rewrite split_on_none.
  - change (join_comma (f :: g :: rest)) with (f +:+ "," +:+ join_comma (g :: rest)).
    rewrite split_on_piece by exact Hf. rewrite IH by done. reflexivity.
Qed.

Lemma bare_kept (f : string) :
  bare f = true ->
  (if Text.startswith f "files(" then Text.drop_chars 6 f
   else if Text.endswith f ")"
        then Text.take_chars (String.length f - 1) f
        else f) = f.
Proof.
  unfold bare. intros [[_ H1]%andb_prop H2]%andb_prop.
  apply negb_true_iff in H1, H2. by rewrite H1, H2.
Qed.

(** X2. [parseFields] undoes the join with commas on field names it has
    nothing to strip from: for a non-empty list of names without a comma,
    none starting with [files(] and none ending with a closing
    parenthesis, [parseFields] of the comma-joined text is the list. *)
Theorem parseFields_join (fs : list string) :
  fs <> [] -> Forall (fun f => bare f = true) fs ->
  parseFields (join_comma fs) = fs.
Proof.
  intros Hne Hall. unfold parseFields.
  rewrite split_join; [| exact Hne |].
  2: { eapply Forall_impl; [exact Hall |]. intros f. unfold bare.
       by intros [[H _]%andb_prop _]%andb_prop. }
  clear Hne. induction Hall as [|f rest Hf Hrest IH]; [done |].
  cbn [map]. by rewrite (bare_kept f Hf), IH.
Qed.

Lemma parseFields_join_witness :
  parseFields "id,a(b,c)d,files" = ["id"; "a(b"; "c)d"; "files"].
Proof.
  apply (parseFields_join ["id"; "a(b"; "c)d"; "files"]); [discriminate |].
  repeat constructor.
Defined.

(** ** Items *)

(** X3. [formatItem] keeps every field of the metadata it is given but the
    four it sets itself: [capabilities] (the three flags, true), [trashed]
    (false), [id] and [modifiedTime], whatever the caller supplied for
    them. *)
Theorem formatItem_fields (env : Env) (base : Item) (id : string) :
  dict_get "capabilities" (formatItem env base id)
  = Some (VDict [("canAddChildren", VBool true);
                 ("canListChildren", VBool true);
                 ("canDeleteChildren", VBool true)]) /\
  dict_get "trashed" (formatItem env base id) = Some (VBool false) /\
  dict_get "id" (formatItem env base id) = Some (VStr id) /\
  dict_get "modifiedTime" (formatItem env base id)
  = Some (VStr (timeToRfc3339String env)) /\
  forall k, k <> "capabilities" -> k <> "trashed" -> k <> "id" ->
            k <> "modifiedTime" ->
            dict_get k (formatItem env base id) = dict_get k base.
Proof.
  unfold formatItem. repeat split.
  - rewrite !dict_get_set_ne by discriminate. apply dict_get_set_eq.
  - rewrite !dict_get_set_ne by discriminate. apply dict_get_set_eq.
  - rewrite !dict_get_set_ne by discriminate. apply dict_get_set_eq.
  - apply dict_get_set_eq.
  - intros k H1 H2 H3 H4. by rewrite !dict_get_set_ne.
Qed.

Lemma get_keeps_state (req : Request) (s : State) :
  fst (run (_get req) s) = s.
Proof.
  destruct (run (_get req) s) as [s' o] eqn:H. cbn [fst].
  unfold _get in H. repeat step_run H. all: by inversion H.
Qed.

Lemma query_keeps_state (req : Request) (s : State) :
  fst (run (_query req) s) = s.
Proof.
  destruct (run (_query req) s) as [s' o] eqn:H. cbn [fst].
  unfold _query in H. repeat step_run H. all: by inversion H.
Qed.

(** X4. Reading never writes: whatever they answer, get-item and the
    query leave the server state as it was. *)
Theorem reads_keep_state (req : Request) (s : State) :
  fst (run (_get req) s) = s /\ fst (run (_query req) s) = s.
Proof. split; [apply get_keeps_state | apply query_keeps_state]. Qed.

(** ** The store as a dictionary *)

Lemma dict_get_None_keys {V} (k : string) (d : list (string * V)) :
  dict_get k d = None <-> ~ In k (map fst d).
Proof.
  induction d as [|[k' v] d IH]; simpl; [tauto |].
  destruct (String.eqb_spec k k') as [-> | Hne].
  - split; [discriminate | intros H; exfalso; apply H; by left].
  - rewrite IH. split; [intros H [E | Hin]; [congruence | tauto] | tauto].
Qed.

Lemma dict_set_keys {V} (k : string) (v : V) (d : list (string * V)) :
  map fst (dict_set k v d)
  = if dict_has k d then map fst d else map fst d ++ [k].
Proof.
  unfold dict_has. induction d as [|[k' v'] d IH]; simpl; [reflexivity |].
  destruct (String.eqb k k') eqn:E; simpl; [reflexivity |].
  rewrite IH. by destruct (dict_get k d).
Qed.

Lemma dict_set_NoDup {V} (k : string) (v : V) (d : list (string * V)) :
  NoDup (map fst d) -> NoDup (map fst (dict_set k v d)).
Proof.
  intros Hd. rewrite dict_set_keys. unfold dict_has.
  destruct (dict_get k d) eqn:E; [exact Hd |].
  apply dict_get_None_keys in E.
  apply NoDup_app. split; [exact Hd |]. split.
  - intros x Hx [-> | []]%list_elem_of_In. apply E. by apply list_elem_of_In.
  - apply NoDup_singleton.
Qed.

Lemma dict_set_Forall {V} (P : string * V -> Prop) (k : string) (v : V)
      (d : list (string * V)) :
  (forall k', P (k', v)) -> Forall P d -> Forall P (dict_set k v d).
Proof.
  intros Hv. induction d as [|[k' v'] d IH]; intros Hd; simpl.
  - constructor; [apply Hv | constructor].
  - apply Forall_cons in Hd as [Hh Ht].
    destruct (String.eqb k k'); constructor; auto.
Qed.

Lemma dict_del_keys_incl {V} (k : string) (d : list (string * V)) :
  forall x, In x (map fst (dict_del k d)) -> In x (map fst d).
Proof.
  induction d as [|[k' v'] d IH]; intros x; simpl; [tauto |].
  destruct (String.eqb k k'); simpl; [tauto |].
  intros [-> | H]; [by left | right; by apply IH].
Qed.

Lemma dict_del_NoDup {V} (k : string) (d : list (string * V)) :
  NoDup (map fst d) -> NoDup (map fst (dict_del k d)).
Proof.
  induction d as [|[k' v'] d IH]; simpl; [done |].
  intros [Hn Hd]%NoDup_cons.
  destruct (String.eqb k k'); simpl; [exact Hd |].
  apply NoDup_cons. split; [| by apply IH].
  intros Hin%list_elem_of_In. apply Hn, list_elem_of_In.
  by apply (dict_del_keys_incl k d).
Qed.

Lemma dict_del_Forall {V} (P : string * V -> Prop) (k : string)
      (d : list (string * V)) :
  Forall P d -> Forall P (dict_del k d).
Proof.
  induction d as [|[k' v'] d IH]; simpl; [done |].
  intros [Hh Ht]%Forall_cons.
  destruct (String.eqb k k'); [exact Ht |]. constructor; auto.
Qed.

Lemma dict_get_del_ne {V} (k k' : string) (d : list (string * V)) :
  k' <> k -> dict_get k' (dict_del k d) = dict_get k' d.
Proof.
  intros Hne. induction d as [|[k2 v2] d IH]; simpl; [reflexivity |].
  destruct (String.eqb_spec k k2) as [-> | Hk].
  - apply String.eqb_neq in Hne. by rewrite Hne.
  - simpl. destruct (String.eqb k' k2); [reflexivity | exact IH].
Qed.

Lemma dict_get_del_eq {V} (k : string) (d : list (string * V)) :
  NoDup (map fst d) -> dict_get k (dict_del k d) = None.
Proof.
  induction d as [|[k2 v2] d IH]; simpl; [reflexivity |].
  intros [Hn Hd]%NoDup_cons.
  destruct (String.eqb_spec k k2) as [-> | Hk].
  - apply dict_get_None_keys. intros H. apply Hn. by apply list_elem_of_In.
  - simpl. apply String.eqb_neq in Hk. rewrite Hk. by apply IH.
Qed.

Lemma store_ok_grow (s : State) (h : list Item) (i : list (string * nat)) :
  NoDup (map fst i) ->
  Forall (fun kv => (snd kv < length h)%nat) i ->
  store_ok (set_items i (set_heap h s)).
Proof. intros H1 H2. by split. Qed.

Lemma Forall_lt_mono (i : list (string * nat)) (n m : nat) :
  (n <= m)%nat -> Forall (fun kv => (snd kv < n)%nat) i ->
  Forall (fun kv => (snd kv < m)%nat) i.
Proof.
  intros Hle H. eapply Forall_impl; [exact H |]. intros kv Hkv. simpl in *. lia.
Qed.

(** What each writing handler does to the state. *)
Lemma create_inv (env : Env) (req : Request) (s s' : State) (o : outcome) :
  run (_create env req) s = (s', o) ->
  (s' = s /\ forall r, o <> Returns r) \/
  exists base,
    authorised s req /\ json req = Some base /\
    s' = set_items (dict_set (generateId env) (length (heap s)) (items s))
           (set_heap (heap s ++ [formatItem env base (generateId env)]) s) /\
    o = Returns (json_answer (VDict [("id", VStr (generateId env))])).
Proof.
  intros H. unfold _create in H.
  assert (Hid : forall base,
             dict_get "id" (formatItem env base (generateId env))
             = Some (VStr (generateId env))).
  { intros base. unfold formatItem.
    rewrite !dict_get_set_ne by discriminate. apply dict_get_set_eq. }
  repeat (step_run H; rewrite ?Hid in H).
  all: try (inversion H; subst; left; split; [reflexivity | discriminate]).
  all: try (simpl in *; discriminate).
  inversion H; subst; clear H. props. right. eexists.
  repeat match goal with |- _ /\ _ => split end;
    first [eassumption | reflexivity].
Qed.

Lemma update_inv (req : Request) (s s' : State) (o : outcome) :
  run (_update req) s = (s', o) ->
  (s' = s /\ forall r, o <> Returns r) \/
  exists a update item' ok,
    authorised s req /\
    dict_get (match_id req) (items s) = Some a /\ json req = Some update /\
    merge_update (deref s a) update = (item', ok) /\
    s' = set_heap (<[a := item']> (heap s)) s /\
    o = (if ok then Returns (plain_response 200 []) else Fails).
Proof.
  intros H. unfold _update in H.
  repeat step_run H.
  all: try (inversion H; subst; left; split; [reflexivity | discriminate]).
  all: inversion H; subst; clear H; props; right.
  all: eexists _, _, _, _;
       repeat match goal with |- _ /\ _ => split end;
       first [eassumption | reflexivity].
Qed.

Lemma delete_inv (req : Request) (s s' : State) (o : outcome) :
  run (_delete req) s = (s', o) ->
  (s' = s /\ forall r, o <> Returns r) \/
  (authorised s req /\ dict_has (match_id req) (items s) = true /\
   s' = set_items (dict_del (match_id req) (items s)) s /\
   o = Returns (plain_response 200 [])).
Proof.
  intros H. unfold _delete in H.
  repeat step_run H.
  all: try (inversion H; subst; left; split; [reflexivity | discriminate]).
  inversion H; subst; clear H; props. right. by repeat split.
Qed.

Lemma serve_store_ok (ep : endpoint) (env : Env) (req : Request) (s : State) :
  store_ok s -> store_ok (fst (serve ep env req s)).
Proof.
  intros [Hnd Hall]. destruct ep; unfold serve.
  - by rewrite get_keeps_state.
  - by rewrite query_keeps_state.
  - destruct (run (_create env req) s) as [s' o] eqn:H. cbn [fst].
    apply create_inv in H as [[-> _] | (base & _ & _ & -> & _)]; [by split |].
    apply store_ok_grow.
    + by apply dict_set_NoDup.
    + rewrite length_app. cbn [length]. apply dict_set_Forall.
      * intros k'. simpl. lia.
      * eapply Forall_lt_mono; [| exact Hall]. lia.
  - destruct (run (_update req) s) as [s' o] eqn:H. cbn [fst].
    apply update_inv in H
      as [[-> _] | (a & update & item' & ok & _ & _ & _ & _ & -> & _)];
      [by split |].
    split; [exact Hnd |]. cbn [heap items set_heap]. by rewrite length_insert.
  - destruct (run (_delete req) s) as [s' o] eqn:H. cbn [fst].
    apply delete_inv in H as [[-> _] | (_ & _ & -> & _)]; [by split |].
    split; cbn [heap items set_items].
    + by apply dict_del_NoDup.
    + by apply dict_del_Forall.
  - destruct (run (_upload env req) s) as [s' o] eqn:H. cbn [fst].
    apply upload_inv in H
      as [[-> _] | (size & mime & metadata & _ & _ & _ & _ & -> & _)];
      [by split |].
    split; [exact Hnd |]. unfold started.
    cbn [heap items set_heap set_upload_info]. rewrite length_app.
    eapply Forall_lt_mono; [| exact Hall]. lia.
  - destruct (run (_uploadProgress req) s) as [s' o] eqn:H. cbn [fst].
    destruct (pause_hook_keeps s) as (_ & Hheap & Hitems & _).
    assert (Hp : store_ok (pause_hook s)).
    { split; by rewrite ?Hitems, ?Hheap. }
    assert (He : forall u buf',
               length (heap (after_extend s u buf')) = length (heap s) /\
               items (after_extend s u buf') = items s).
    { intros u buf'. unfold after_extend. cbn [heap items set_heap].
      by rewrite length_insert, Hheap, Hitems. }
    apply uploadProgress_inv in H
      as [[-> _] | (u & info & start & e & buf & buf' & n & _ & _ & _ & _
                    & _ & _ & _ & _ & _ & _ & Hbuf & _ & _ & Hcase)];
      [exact Hp |].
    destruct (He u buf') as [Hl Hi].
    destruct Hcase as [(_ & -> & _) | [(_ & _ & -> & _) | (_ & _ & -> & _)]].
    + split; by rewrite ?Hi, ?Hl.
    + split; cbn [heap items set_items set_chunks]; rewrite ?Hl.
      * by apply dict_set_NoDup.
      * apply dict_set_Forall; [| exact Hall].
        intros k'. simpl. apply lookup_lt_is_Some. unfold deref in Hbuf.
        destruct (heap s !! ui_item u); [eauto | discriminate].
    + split; cbn [heap items set_upload_info set_chunks]; by rewrite ?Hi, ?Hl.
Qed.

(** X5. The item store stays a well-formed dictionary under every sequence
    of data-plane requests: an id is stored at most once, and every stored
    id names an allocated item object. *)
Theorem store_ok_invariant (rs : list (endpoint * Env * Request)) (s : State) :
  store_ok s -> store_ok (fst (serve_all s rs)).
Proof.
  revert s. induction rs as [|[[ep env] req] rs IH]; intros s Hs; [exact Hs |].
  cbn [serve_all].
  pose proof (serve_store_ok ep env req s Hs) as H1.
  destruct (serve ep env req s) as [s1 o]. cbn [fst] in H1.
  specialize (IH s1 H1). destruct (serve_all s1 rs) as [s2 os]. exact IH.
Qed.

Lemma store_ok_initial (port : Z) : store_ok (initial port).
Proof. split; constructor. Qed.

Lemma store_ok_invariant_witness :
  store_ok (fst (serve_all Sample.server
                   [(CreateItem, Sample.env0, Sample.send_json "" More.folder);
                    (StartUpload, Sample.env1, Sample.start_upload 3 []);
                    (DeleteItem, Sample.env0, Sample.get_file "file-1")])).
Proof.
  refine (store_ok_invariant _ Sample.server _). split; constructor.
Defined.

Lemma created_item (env : Env) (s : State) (base : Item) :
  item_of (set_items (dict_set (generateId env) (length (heap s)) (items s))
             (set_heap (heap s ++ [formatItem env base (generateId env)]) s))
          (generateId env)
  = Some (formatItem env base (generateId env)).
Proof.
  unfold item_of, deref. cbn [items heap set_items set_heap].
  rewrite dict_get_set_eq.
  by rewrite (list_lookup_middle (heap s) [] _ (length (heap s))).
Qed.

Lemma get_metadata (s : State) (req : Request) (item : Item) :
  authorised s req -> item_of s (match_id req) = Some item ->
  lost s (match_id req) = false ->
  String.eqb (query_get req "alt" "metadata") "media" = false ->
  serialisable
    (VDict (filter_fields item (Text.split_comma (query_get req "fields" "id"))))
  = true ->
  run (_get req) s
  = (s, Returns (json_answer
                   (VDict (filter_fields item
                             (Text.split_comma (query_get req "fields" "id")))))).
Proof.
  intros Hauth Hitem Hlost Halt Hser. unfold _get. run_handler.
  rewrite (authorised_eqb _ _ Hauth). run_handler.
  assert (Hin : dict_has (match_id req) (items s) = true).
  { unfold item_of in Hitem. unfold dict_has.
    by destruct (dict_get (match_id req) (items s)). }
  rewrite Hin. run_handler. rewrite Hlost. run_handler.
  rewrite Hitem. run_handler. rewrite Halt, Hser. reflexivity.
Qed.

(** X6. An item that was created is read back: get-item on the id that
    create returned answers the projection, on the requested fields, of
    the metadata as [formatItem] completed it. *)
Theorem create_then_get (env : Env) (s : State) (creq greq : Request)
        (base : Item) :
  authorised s creq -> json creq = Some base ->
  authorised s greq -> match_id greq = generateId env ->
  lost s (generateId env) = false ->
  String.eqb (query_get greq "alt" "metadata") "media" = false ->
  let item := formatItem env base (generateId env) in
  let fields := Text.split_comma (query_get greq "fields" "id") in
  serialisable (VDict (filter_fields item fields)) = true ->
  exists s1,
    run (_create env creq) s
    = (s1, Returns (json_answer (VDict [("id", VStr (generateId env))]))) /\
    run (_get greq) s1
    = (s1, Returns (json_answer (VDict (filter_fields item fields)))).
Proof.
  intros Hc Hjson Hg Hid Hlost Halt item fields Hser.
  eexists. split; [by apply create_item |].
  apply get_metadata;
    [exact Hg | rewrite Hid; apply created_item | by rewrite Hid
    | exact Halt | exact Hser].
Qed.

Lemma create_then_get_witness :
  exists s1,
    run (_create Sample.env0 (Sample.send_json "" More.folder)) Sample.server
    = (s1, Returns (json_answer (VDict [("id", VStr "file-1")]))) /\
    run (_get (More.get_fields "file-1" "id,name,trashed")) s1
    = (s1, Returns (json_answer (VDict [("id", VStr "file-1");
                                        ("name", VStr "backups");
                                        ("trashed", VBool false)]))).
Proof.
  apply (create_then_get Sample.env0 Sample.server
           (Sample.send_json "" More.folder)
           (More.get_fields "file-1" "id,name,trashed") More.folder);
    reflexivity.
Defined.

(** X7. Delete removes the one entry it names: an authorised delete of a
    stored id answers 200 and leaves the store without this id and
    otherwise as it was -- every other id names the object it named, no item
    object and no session has changed -- and get-item on the id then raises
    [NotFound]. *)
Theorem delete_removes (s : State) (req : Request) (a : nat) :
  store_ok s -> authorised s req ->
  dict_get (match_id req) (items s) = Some a ->
  let s' := set_items (dict_del (match_id req) (items s)) s in
  run (_delete req) s = (s', Returns (plain_response 200 [])) /\
  dict_get (match_id req) (items s') = None /\
  (forall id, id <> match_id req ->
              dict_get id (items s') = dict_get id (items s)) /\
  (forall greq, authorised s greq -> match_id greq = match_id req ->
                run (_get greq) s' = (s', Raises HTTPNotFound)).
Proof.
  intros [Hnd _] Hauth Hin s'.
  assert (Hnone : dict_get (match_id req) (dict_del (match_id req) (items s)) = None)
    by (by apply dict_get_del_eq).
  split; [| split; [| split]].
  - unfold _delete. run_handler. rewrite (authorised_eqb _ _ Hauth). run_handler.
    rewrite (dict_has_get _ _ _ Hin). reflexivity.
  - exact Hnone.
  - intros id Hne. cbn [s' items set_items]. by apply dict_get_del_ne.
  - intros greq Hg Hid. unfold _get. run_handler.
    change (_auth_token s') with (_auth_token s).
    rewrite (authorised_eqb _ _ Hg). run_handler.
    cbn [s' items set_items]. unfold dict_has. rewrite Hid, Hnone. reflexivity.
Qed.

Lemma delete_removes_witness :
  let s := fst (serve CreateItem Sample.env0
                      (Sample.send_json "" [("name", VStr "backups")])
                      Sample.server) in
  let s' := set_items (dict_del "file-1" (items s)) s in
  run (_delete (Sample.get_file "file-1")) s
  = (s', Returns (plain_response 200 [])) /\
  run (_get (Sample.get_file "file-1")) s' = (s', Raises HTTPNotFound).
Proof.
  cbv zeta.
  destruct (delete_removes
              (fst (serve CreateItem Sample.env0
                          (Sample.send_json "" [("name", VStr "backups")])
                          Sample.server))
              (Sample.get_file "file-1") 0%nat)
    as (Hrun & _ & _ & Hget).
  - apply (serve_store_ok CreateItem), store_ok_initial.
  - reflexivity.
  - reflexivity.
  - split; [exact Hrun |]. apply Hget; reflexivity.
Defined.

(** X8. An id that is not stored: get-item and delete raise [NotFound],
    the parents query on it raises [NotFound], and update does not raise
    but hands back the exception class [HTTPNotFound] itself; none of them
    changes the state. *)
Theorem unknown_id (s : State) (req : Request) :
  authorised s req -> dict_get (match_id req) (items s) = None ->
  run (_get req) s = (s, Raises HTTPNotFound) /\
  run (_delete req) s = (s, Raises HTTPNotFound) /\
  run (_update req) s = (s, ReturnsClass HTTPNotFound) /\
  (one_line (match_id req) = true ->
   query_get req "q" "" = parents_query (match_id req) ->
   run (_query req) s = (s, Raises HTTPNotFound)).
Proof.
  intros Hauth Hnone.
  assert (Hhas : dict_has (match_id req) (items s) = false)
    by (unfold dict_has; by rewrite Hnone).
  split; [| split; [| split]].
  - unfold _get. run_handler. rewrite (authorised_eqb _ _ Hauth). run_handler.
    by rewrite Hhas.
  - unfold _delete. run_handler. rewrite (authorised_eqb _ _ Hauth). run_handler.
    by rewrite Hhas.
  - unfold _update. run_handler. rewrite (authorised_eqb _ _ Hauth). run_handler.
    by rewrite Hnone.
  - intros Hline Hq. unfold _query. run_handler.
    rewrite (authorised_eqb _ _ Hauth). run_handler.
    rewrite Hq, mimeTypeQueryPattern_parents_query.
    rewrite parentsQueryPattern_parents_query by exact Hline.
    rewrite slice_parents_query. run_handler. by rewrite Hhas.
Qed.

Lemma unknown_id_witness :
  run (_update (Sample.send_json "file-9" [("name", VStr "x")])) Sample.server
  = (Sample.server, ReturnsClass HTTPNotFound).
Proof.
  apply (unknown_id Sample.server (Sample.send_json "file-9" [("name", VStr "x")]));
    reflexivity.
Defined.

(** ** Update *)

(** X9. Update writes into one item object and only under the keys of its
    body: the store's ids, the session and every other item object are as
    they were, and no field whose key the body lacks has changed. *)
Theorem update_touches_named_keys (req : Request) (s s' : State) (o : outcome) :
  run (_update req) s = (s', o) ->
  items s' = items s /\ _upload_info s' = _upload_info s /\
  (forall a, dict_get (match_id req) (items s) <> Some a ->
             deref s' a = deref s a) /\
  (forall update k,
      json req = Some update -> dict_get k update = None ->
      forall a, dict_get k (deref s' a) = dict_get k (deref s a)).
Proof.
  intros H.
  apply update_inv in H
    as [[-> _] | (a & update & item' & ok & _ & Ha & Hj & Hm & -> & _)];
    [by repeat split |].
  split; [reflexivity |]. split; [reflexivity |]. split.
  - intros a' Hne. rewrite (deref_insert s (heap s)) by reflexivity.
    destruct (decide _) as [[<- _] | _]; [congruence | reflexivity].
  - intros update' k Hj' Hk a'. assert (update' = update) by congruence. subst.
    rewrite (deref_insert s (heap s)) by reflexivity.
    destruct (decide _) as [[<- _] | _]; [| reflexivity].
    rewrite <- (merge_update_keeps k update (deref s a) Hk). by rewrite Hm.
Qed.

Lemma update_touches_named_keys_witness :
  let s := fst (serve CreateItem Sample.env0 (Sample.send_json "" More.folder)
                      Sample.server) in
  let s' := fst (run (_update (Sample.send_json "file-1" [("name", VStr "old")])) s) in
  dict_get "mimeType" (deref s' 0) = dict_get "mimeType" (deref s 0).
Proof.
  cbv zeta.
  destruct (update_touches_named_keys
              (Sample.send_json "file-1" [("name", VStr "old")])
              (fst (serve CreateItem Sample.env0 (Sample.send_json "" More.folder)
                          Sample.server))
              _ (Returns (plain_response 200 [])) eq_refl)
    as (_ & _ & _ & Hkeys).
  apply (Hkeys [("name", VStr "old")]); reflexivity.
Defined.

Lemma fold_dict_set_lookup {V} (d2 : list (string * V)) :
  NoDup (map fst d2) ->
  forall (d : list (string * V)) (j : string),
    dict_get j (fold_left (fun acc kv => dict_set (fst kv) (snd kv) acc) d2 d)
    = match dict_get j d2 with
      | Some x => Some x
      | None => dict_get j d
      end.
Proof.
  induction d2 as [|[k v] d2 IH]; intros Hnd d j; [reflexivity |].
  simpl in Hnd. apply NoDup_cons in Hnd as [Hk Hnd].
  cbn [fold_left fst snd dict_get]. rewrite (IH Hnd).
  destruct (String.eqb_spec j k) as [-> | Hne].
  - assert (Hn : dict_get k d2 = None).
    { apply dict_get_None_keys. intros Hin. apply Hk. by apply list_elem_of_In. }
    rewrite Hn. apply dict_get_set_eq.
  - destruct (dict_get j d2); [reflexivity |]. by apply dict_get_set_ne.
Qed.

Lemma merge_update_result_keeps (k : string) (rest item1 item' : Item)
      (ok : bool) :
  dict_get k rest = None -> merge_update item1 rest = (item', ok) ->
  dict_get k item' = dict_get k item1.
Proof.
  intros Hk Hm. rewrite <- (merge_update_keeps k rest item1 Hk). by rewrite Hm.
Qed.

Lemma merge_update_at (k : string) (v : value) (update : Item) :
  NoDup (map fst update) -> dict_get k update = Some v ->
  forall item item',
    merge_update item update = (item', true) ->
    dict_get k item'
    = Some (match dict_get k item with
            | Some (VDict d) => VDict (fst (dict_update d v))
            | _ => v
            end).
Proof.
  induction update as [|[key w] rest IH]; intros Hnd Hk item item' Hm;
    [discriminate Hk |].
  simpl in Hnd. apply NoDup_cons in Hnd as [Hkey Hnd].
  simpl in Hk. destruct (String.eqb_spec k key) as [<- | Hne].
  - injection Hk as <-.
    assert (Hrest : dict_get k rest = None).
    { apply dict_get_None_keys. intros Hin. apply Hkey. by apply list_elem_of_In. }
    simpl in Hm.
    destruct (dict_get k item) as [[|b0|z0|s0|l0|d|b1]|] eqn:E;
      try (rewrite (merge_update_result_keeps k rest _ _ _ Hrest Hm);
           by rewrite dict_get_set_eq).
    destruct (dict_update d w) as [d' ok] eqn:Ed.
    destruct ok; [| discriminate Hm].
    rewrite (merge_update_result_keeps k rest _ _ _ Hrest Hm).
    by rewrite dict_get_set_eq.
  - simpl in Hm.
    assert (Hstep : forall item1,
               dict_get k item1 = dict_get k item ->
               merge_update item1 rest = (item', true) ->
               dict_get k item'
               = Some (match dict_get k item with
                       | Some (VDict d) => VDict (fst (dict_update d v))
                       | _ => v
                       end)).
    { intros item1 H1 H2. rewrite <- H1. by apply (IH Hnd Hk item1). }
    destruct (dict_get key item) as [[|b0|z0|s0|l0|d|b1]|] eqn:E;
      try (apply (Hstep _ (dict_get_set_ne k key _ item Hne) Hm)).
    destruct (dict_update d w) as [d' ok] eqn:Ed.
    destruct ok; [| discriminate Hm].
    apply (Hstep _ (dict_get_set_ne k key _ item Hne) Hm).
Qed.

(** X10. A successful update assigns each key of its body: a field that
    is not a mapping (or is new) takes the value of the body; a field that
    is a mapping is merged with the mapping of the body, key by key -- the
    keys of the body override, the others stay. *)
Theorem update_assigns_or_merges (req : Request) (s s' : State) (a : nat)
        (update : Item) (k : string) (v : value) :
  store_ok s -> dict_get (match_id req) (items s) = Some a ->
  json req = Some update -> NoDup (map fst update) ->
  dict_get k update = Some v ->
  run (_update req) s = (s', Returns (plain_response 200 [])) ->
  match dict_get k (deref s a) with
  | Some (VDict d) =>
      exists d', dict_get k (deref s' a) = Some (VDict d') /\
                 forall d2, v = VDict d2 -> NoDup (map fst d2) ->
                            forall j, dict_get j d'
                                      = match dict_get j d2 with
                                        | Some x => Some x
                                        | None => dict_get j d
                                        end
  | _ => dict_get k (deref s' a) = Some v
  end.
Proof.
  intros [_ Hall] Ha Hj Hnd Hk Hrun.
  apply update_inv in Hrun
    as [[_ Hno] | (a' & update' & item' & ok & _ & Ha' & Hj' & Hm & -> & Ho)].
  { by destruct (Hno _ eq_refl). }
  assert (a' = a) by congruence. assert (update' = update) by congruence.
  subst a' update'. destruct ok; [| discriminate Ho].
  assert (Hlt : (a < length (heap s))%nat).
  { rewrite Forall_forall in Hall.
    assert (Hin : (match_id req, a) ∈ items s).
    { clear -Ha. induction (items s) as [|[k' v'] d IH]; [discriminate |].
      simpl in Ha. destruct (String.eqb_spec (match_id req) k') as [<- | _].
      - injection Ha as ->. by left.
      - right. by apply IH. }
    apply (Hall _ Hin). }
  rewrite (deref_insert s (heap s)) by reflexivity.
  destruct (decide _) as [_ | Hn]; [| exfalso; apply Hn; by split].
  rewrite (merge_update_at k v update Hnd Hk _ _ Hm).
  destruct (dict_get k (deref s a)) as [[|b0|z0|s0|l0|d|b1]|]; try reflexivity.
  eexists. split; [reflexivity |].
  intros d2 -> Hd2 j. cbn [dict_update fst]. by apply fold_dict_set_lookup.
Qed.

Lemma update_assigns_or_merges_witness :
  let s := fst (serve CreateItem Sample.env0
                      (Sample.send_json ""
                         [("name", VStr "backups");
                          ("appProperties", VDict [("backup", VStr "true");
                                                   ("date", VStr "monday")])])
                      Sample.server) in
  let s' := fst (run (_update
                        (Sample.send_json "file-1"
                           [("appProperties", VDict [("date", VStr "friday")])]))
                     s) in
  exists d',
    dict_get "appProperties" (deref s' 0) = Some (VDict d') /\
    dict_get "backup" d' = Some (VStr "true") /\
    dict_get "date" d' = Some (VStr "friday").
Proof.
  cbv zeta.
  pose proof (update_assigns_or_merges
                (Sample.send_json "file-1"
                   [("appProperties", VDict [("date", VStr "friday")])])
                (fst (serve CreateItem Sample.env0
                            (Sample.send_json ""
                               [("name", VStr "backups");
                                ("appProperties",
                                 VDict [("backup", VStr "true");
                                        ("date", VStr "monday")])])
                            Sample.server))
                _ 0%nat
                [("appProperties", VDict [("date", VStr "friday")])]
                "appProperties" (VDict [("date", VStr "friday")])
                (serve_store_ok CreateItem _ _ _ (store_ok_initial 8080))
                eq_refl eq_refl
                ltac:(repeat constructor; (intros []%elem_of_nil))
                eq_refl eq_refl) as H.
  cbv beta iota in H. destruct H as (d' & Hd & Hm).
  exists d'. split; [exact Hd |].
  assert (Hnd : NoDup (map fst [("date", VStr "friday")]))
    by (repeat constructor; intros []%elem_of_nil).
  split.
  - apply (Hm _ eq_refl Hnd "backup").
  - apply (Hm _ eq_refl Hnd "date").
Defined.

(** ** Query *)






(** X13. A query of another shape raises [BadRequest]: so does every
    non-empty [q] that starts with neither [m] nor a quote, a filter on
    the name for one. *)
Theorem query_unsupported (s : State) (req : Request) (c : ascii)
        (rest : string) :
  authorised s req ->
  query_get req "q" "" = String c rest ->
  c <> "m"%char -> c <> "'"%char ->
  run (_query req) s = (s, Raises HTTPBadRequest).
Proof.
  intros Hauth Hq Hm Hquote. unfold _query. run_handler.
  rewrite (authorised_eqb _ _ Hauth). run_handler. rewrite Hq.
  unfold mimeTypeQueryPattern, parentsQueryPattern.
  change (Text.strip_prefix "mimeType='" (String c rest))
    with (if Ascii.eqb "m" c
          then Text.strip_prefix "imeType='" rest else None).
  change (Text.strip_prefix "'" (String c rest))
    with (if Ascii.eqb "'" c then Text.strip_prefix "" rest else None).
  destruct (Ascii.eqb_spec "m" c) as [E|_]; [congruence |].
  destruct (Ascii.eqb_spec "'" c) as [E|_]; [congruence |].
  unfold Text.len. cbn [String.length].
  destruct (Z.eqb_spec (Z.of_nat (S (String.length rest))) 0) as [E|_];
    [lia | reflexivity].
Qed.

Lemma query_unsupported_witness :
  run (_query (Sample.get_files "name contains 'a'")) Sample.server
  = (Sample.server, Raises HTTPBadRequest).
Proof.
  refine (query_unsupported Sample.server
            (Sample.get_files "name contains 'a'") "n" "ame contains 'a'"
            _ _ _ _); [vm_compute; reflexivity | reflexivity | | ];
    intros H; discriminate H.
Defined.

(** ** Starting an upload *)

(** X14. With a JSON object as body, [_upload] changes the server only
    when it answers 200: every other outcome leaves the state as it was,
    and the 200 itself touches neither the store nor an item object that
    existed. *)
Theorem upload_atomic (env : Env) (req : Request) (metadata : Item)
        (s s' : State) (o : outcome) :
  json req = Some metadata ->
  run (_upload env req) s = (s', o) ->
  items s' = items s /\
  (forall a, (a < length (heap s))%nat -> deref s' a = deref s a) /\
  ((forall r, o = Returns r -> status r <> 200) -> s' = s).
Proof.
  intros _ H. destruct (upload_inv _ _ _ _ _ H) as
      [[-> _] | (size & mime & metadata' & _ & _ & _ & _ & -> & ->)].
  - done.
  - split; [reflexivity |]. split.
    + intros a Ha. unfold deref, started. cbn [heap set_upload_info set_heap].
      by rewrite lookup_app_l by exact Ha.
    + intros Hno. by destruct (Hno _ eq_refl).
Qed.

Lemma upload_atomic_witness :
  let s := fst (serve_all Sample.server
                  [(CreateItem, Sample.env0, Sample.send_json "" More.folder)]) in
  let req := Sample.start_upload 3 [("parents", VList [VStr "gone"])] in
  items (fst (run (_upload Sample.env1 req) s)) = items s /\
  (forall a, (a < length (heap s))%nat ->
             deref (fst (run (_upload Sample.env1 req) s)) a = deref s a) /\
  ((forall r, snd (run (_upload Sample.env1 req) s) = Returns r ->
              status r <> 200) ->
   fst (run (_upload Sample.env1 req) s) = s).
Proof.
  cbv zeta.
  match goal with
  | |- items (fst (run (_upload ?env ?req) ?s)) = _ /\ _ =>
      exact (upload_atomic env req [("parents", VList [VStr "gone"])] s
               (fst (run (_upload env req) s)) (snd (run (_upload env req) s))
               eq_refl (surjective_pairing (run (_upload env req) s)))
  end.
Defined.

(** X15. An authorised start that is not resumable, or declares no
    content type, or no length, or a negative one, raises [BadRequest]. *)
Theorem upload_needs_declaration (env : Env) (req : Request) (s : State) :
  authorised s req ->
  dict_get "uploadType" (query req) <> Some "resumable" \/
  X_Upload_Content_Type req = None \/
  X_Upload_Content_Length req = Absent \/
  (exists z, X_Upload_Content_Length req = IntValue z /\ z < 0) ->
  run (_upload env req) s = (s, Raises HTTPBadRequest).
Proof.
  intros Hauth H. unfold _upload. run_handler.
  rewrite (authorised_eqb _ _ Hauth). run_handler.
  destruct (dict_get "uploadType" (query req)) as [t|] eqn:Et;
    [| reflexivity].
  destruct (String.eqb_spec t "resumable") as [->|Hne]; [| reflexivity].
  cbv iota.
  destruct H as [H | H]; [by destruct H |].
  destruct (X_Upload_Content_Type req) as [mime|]; [| reflexivity].
  destruct H as [H | H]; [discriminate H |].
  destruct H as [-> | (z & -> & Hz)]; [reflexivity |].
  run_handler.
  destruct (Z.ltb_spec z 0) as [_|Hge]; [reflexivity | lia].
Qed.

Lemma upload_needs_declaration_witness :
  run (_upload Sample.env0 (Sample.start_upload (-3) [])) Sample.server
  = (Sample.server, Raises HTTPBadRequest).
Proof.
  refine (upload_needs_declaration Sample.env0 _ Sample.server _ _).
  - reflexivity.
  - right. right. right. exists (-3). split; [reflexivity | lia].
Defined.

Lemma check_parents_app (s s0 : State) (pre ps : list value) :
  forallb (parent_ok s) pre = true ->
  check_parents s (pre ++ ps) s0 = check_parents s ps s0.
Proof.
  induction pre as [|p pre IH]; intros H; [reflexivity |].
  cbn [forallb] in H. apply andb_prop in H as [Hp Hl].
  destruct p; try discriminate Hp.
  apply andb_prop in Hp as [Hin Hlost]. apply negb_true_iff in Hlost.
  cbn [app check_parents]. run_handler. rewrite Hin, Hlost. by apply IH.
Qed.

(** X16. A start that passed the declaration and quota checks is decided
    by the first declared parent that is not an unblocked stored id: an
    unknown id raises [NotFound], a blocked one is answered 403; either
    way no session is opened. *)
Theorem upload_parent_checked (env : Env) (req : Request) (s : State)
        (mime p : string) (size t : Z) (metadata : Item)
        (pre post : list value) :
  authorised s req ->
  dict_get "uploadType" (query req) = Some "resumable" ->
  X_Upload_Content_Type req = Some mime ->
  X_Upload_Content_Length req = IntValue size -> 0 <= size ->
  total_size 0 (store_values s) = Some t ->
  t + size <= space_available s ->
  json req = Some metadata ->
  dict_get "parents" metadata = Some (VList (pre ++ VStr p :: post)) ->
  forallb (parent_ok s) pre = true -> parent_ok s (VStr p) = false ->
  run (_upload env req) s
  = (s, if dict_has p (items s) then Returns forbidden_response
        else Raises HTTPNotFound).
Proof.
  intros Hauth Hty Hmime Hsize Hpos Htot Hq Hjson Hpar Hpre Hp.
  unfold _upload. run_handler.
  rewrite (authorised_eqb _ _ Hauth). run_handler.
  rewrite Hty. cbn [String.eqb Ascii.eqb Bool.eqb]. run_handler.
  rewrite Hmime, Hsize. run_handler.
  replace (size <? 0) with false by (symmetry; apply Z.ltb_ge; lia).
  run_handler. rewrite Htot. run_handler.
  replace (t + size >? space_available s) with false
    by (symmetry; rewrite Z.gtb_ltb; apply Z.ltb_ge; lia).
  rewrite Hjson. run_handler. rewrite Hpar. cbn [iterate]. run_handler.
  rewrite (check_parents_app s s pre _ Hpre).
  cbn [check_parents]. run_handler.
  unfold parent_ok in Hp.
  destruct (dict_has p (items s)); [| reflexivity].
  cbn [andb] in Hp. apply negb_false_iff in Hp. rewrite Hp. reflexivity.
Qed.

Lemma upload_parent_checked_witness :
  let s := fst (serve_all Sample.server
                  [(CreateItem, Sample.env0, Sample.send_json "" More.folder)]) in
  run (_upload Sample.env1
         (Sample.start_upload 3 [("parents", VList [VStr "file-1"; VStr "gone"])]))
      s
  = (s, Raises HTTPNotFound).
Proof.
  cbv zeta.
  match goal with
  | |- run _ ?s = _ =>
      refine (upload_parent_checked Sample.env1 _ s "application/tar" "gone"
                3 0 [("parents", VList [VStr "file-1"; VStr "gone"])]
                [VStr "file-1"] [] _ _ _ _ _ _ _ _ _ _ _);
        try (vm_compute; reflexivity)
  end.
  - lia.
  - vm_compute. discriminate.
Defined.

(** ** Chunks *)

Lemma receive_chunk_unfit (s0 : State) (req : Request) (u : upload_info)
      (cl start e total : Z) :
  _upload_info s0 = Some u -> ~ chunk_fits u req cl start e total ->
  run (receive_chunk req cl start e total) s0 = (s0, Raises HTTPBadRequest).
Proof.
  intros Hu Hno. unfold receive_chunk. run_handler. rewrite Hu. run_handler.
  destruct (Z.eqb_spec total (ui_size u)) as [Ht|]; [| reflexivity].
  destruct (Z.eqb_spec start (ui_next_start u)) as [Hs|]; [| reflexivity].
  cbv iota.
  destruct ((e =? total - 1) || (cl mod (256 * 1024) =? 0)) eqn:Hal;
    [| reflexivity].
  cbv iota. rewrite Z.gtb_ltb.
  destruct (Z.ltb_spec (total - 1) e) as [|Hle]; [reflexivity |].
  destruct (Z.eqb_spec (Z.of_nat (length (body req))) cl) as [Hcl|];
    [| reflexivity].
  destruct (Z.eqb_spec (Z.of_nat (length (body req))) (e - start + 1))
    as [Hlen|]; [| reflexivity].
  destruct Hno. repeat split; try done.
  apply orb_prop in Hal as [H|H]; [left | right]; by apply Z.eqb_eq.
Qed.

(** X17. In a session in flight, a chunk is taken in exactly when it
    passes the checks on its range and length: then the session's buffer
    grows by the body; otherwise the request raises [BadRequest] and
    nothing but the pause hook has run. *)
Theorem chunk_verdict (s : State) (req : Request) (u : upload_info)
        (b : list Byte.byte) (cl : Z) (ds de dt : string) :
  _upload_info s = Some u ->
  item_bytes (deref s (ui_item u)) = Some b ->
  ui_next_start u = Z.of_nat (length b) ->
  authorised s req -> match_id req = ui_id u ->
  Content_Length req = IntValue cl ->
  Text.is_number ds = true -> Text.is_number de = true ->
  Text.is_number dt = true ->
  Content_Range req = Some (chunk_range ds de dt) ->
  forall s' o, run (_uploadProgress req) s = (s', o) ->
  let fits := chunk_fits u req cl (Text.int_of ds) (Text.int_of de)
                         (Text.int_of dt) in
  (fits -> accepted o /\
           item_bytes (deref s' (ui_item u)) = Some (b ++ body req)) /\
  (~ fits -> o = Raises HTTPBadRequest /\ s' = pause_hook s).
Proof.
  intros Hu Hb Hn Hauth Hid Hcl Hds Hde Hdt Hcr s' o Hrun fits. split.
  - intros (Ht & Hs & Hal & Hle & Hlen & Hspan).
    assert (Hc : carries (_auth_token s) (ui_id u) (ui_size u)
                         (ui_next_start u) (Text.int_of de) req).
    { unfold carries. split; [exact Hauth |]. split; [exact Hid |].
      split; [by rewrite Hlen |]. split; [lia |].
      exists ds, de, dt. repeat split; done. }
    assert (Hfin : Text.int_of de = ui_size u - 1 \/
                   Z.of_nat (length (body req)) mod (256 * 1024) = 0)
      by (rewrite <- Ht, Hlen; exact Hal).
    rewrite Ht in Hle.
    destruct (chunk_step s req u b (Text.int_of de) Hu Hb Hn Hc
                ltac:(lia) Hfin) as (s1 & Hrun1 & _ & Hb1 & _).
    rewrite Hrun in Hrun1. injection Hrun1 as -> ->. split; [| exact Hb1].
    destruct (Text.int_of de =? ui_size u - 1);
      eexists; (split; [reflexivity |]); [by right | by left].
  - intros Hno.
    rewrite (uploadProgress_transfer s req u cl ds de dt) in Hrun by done.
    rewrite (receive_chunk_unfit (pause_hook s) req u) in Hrun.
    + by injection Hrun as <- <-.
    + destruct (pause_hook_keeps s) as (_ & _ & _ & _ & _ & -> & _). exact Hu.
    + exact Hno.
Qed.

Lemma chunk_verdict_witness :
  let s := started Sample.server Sample.env0 [] "application/tar" 6 in
  let long := Sample.put_chunk "file-1" "bytes 0-7/6" (Sample.zeros 8) in
  snd (run (_uploadProgress long) s) = Raises HTTPBadRequest /\
  fst (run (_uploadProgress long) s) = pause_hook s.
Proof.
  cbv zeta.
  refine (proj2 (chunk_verdict
                   (started Sample.server Sample.env0 [] "application/tar" 6)
                   (Sample.put_chunk "file-1" "bytes 0-7/6" (Sample.zeros 8))
                   {| ui_size := 6; ui_mime := "application/tar";
                      ui_item := 0%nat; ui_id := "file-1";
                      ui_next_start := 0 |}
                   [] 8 "0" "7" "6"
                   _ _ _ _ _ _ _ _ _ _ _ _ (surjective_pairing _)) _);
    try reflexivity.
  intros (_ & _ & _ & H & _). vm_compute in H. by destruct H.
Defined.

Lemma chunk_step_log (s : State) (req : Request) (u : upload_info)
      (b : list Byte.byte) (e : Z) :
  _upload_info s = Some u ->
  item_bytes (deref s (ui_item u)) = Some b ->
  ui_next_start u = Z.of_nat (length b) ->
  carries (_auth_token s) (ui_id u) (ui_size u) (ui_next_start u) e req ->
  e <= ui_size u - 1 ->
  (e = ui_size u - 1 \/ Z.of_nat (length (body req)) mod (256 * 1024) = 0) ->
  exists s',
    run (_uploadProgress req) s
    = (s', if e =? ui_size u - 1
           then Returns (commit_response (ui_id u))
           else Returns (plain_response 308 [range_header e])) /\
    _auth_token s' = _auth_token s /\
    lostPermission s' = lostPermission s /\
    chunks s' = chunks s ++ [Z.of_nat (length (body req))] /\
    item_bytes (deref s' (ui_item u)) = Some (b ++ body req) /\
    (if e =? ui_size u - 1
     then dict_get (ui_id u) (items s') = Some (ui_item u)
     else _upload_info s'
          = Some {| ui_size := ui_size u; ui_mime := ui_mime u;
                    ui_item := ui_item u; ui_id := ui_id u;
                    ui_next_start := e + 1 |}).
Proof.
  intros Hu Hb Hn (Hauth & Hid & Hcl & Hlen & ds & de & dt
                   & Hds & Hde & Hdt & Hcr & Hs & He & Ht) Hle Hfin.
  destruct (pause_hook_keeps s)
    as (Htok & Hheap & Hitems & Hlost & _ & Hui & Hch & _).
  pose proof (deref_allocated _ _ _ Hb) as Hlt.
  assert (Hderef : deref (pause_hook s) (ui_item u) = deref s (ui_item u))
    by (unfold deref; by rewrite Hheap).
  rewrite (uploadProgress_transfer s req u _ ds de dt) by done.
  rewrite Hs, He, Ht.
  rewrite (receive_chunk_taken (pause_hook s) req u b e);
    rewrite ?Hui, ?Hderef; try done.
  cbv zeta. rewrite Hheap, Hitems, Hch.
  destruct (e =? ui_size u - 1); eexists; (split; [reflexivity |]).
  all: unfold deref; cbn [heap items _auth_token _upload_info set_items
                           set_chunks set_heap set_upload_info chunks
                           lostPermission].
  all: rewrite list_lookup_insert_eq by exact Hlt; cbn [default from_option id].
  all: rewrite item_bytes_set, Htok, Hlost.
  all: repeat split; try reflexivity.
  apply dict_get_set_eq.
Qed.

Lemma deliver_content (reqs : list Request) :
  forall (s : State) (u : upload_info) (b : list Byte.byte),
    _upload_info s = Some u ->
    item_bytes (deref s (ui_item u)) = Some b ->
    ui_next_start u = Z.of_nat (length b) ->
    sequential (_auth_token s) (ui_id u) (ui_size u) (ui_next_start u) reqs ->
    let s2 := fst (deliver s reqs) in
    _auth_token s2 = _auth_token s /\
    lostPermission s2 = lostPermission s /\
    chunks s2
    = chunks s ++ map (fun req => Z.of_nat (length (body req))) reqs /\
    dict_get (ui_id u) (items s2) = Some (ui_item u) /\
    item_bytes (deref s2 (ui_item u)) = Some (b ++ concat (map body reqs)).
Proof.
  induction reqs as [|req rest IH]; intros s u b Hu Hb Hn Hseq; [destruct Hseq |].
  destruct rest as [|req' rest].
  - pose proof Hseq as (_ & _ & _ & Hlen & _).
    destruct (chunk_step_log s req u b (ui_size u - 1) Hu Hb Hn Hseq
                ltac:(lia) ltac:(by left))
      as (s' & Hrun & Htok & Hlost & Hch & Hb' & Hst).
    rewrite Z.eqb_refl in Hrun, Hst.
    cbn [deliver map concat]. rewrite Hrun. cbn [fst]. rewrite app_nil_r.
    done.
  - destruct Hseq as (e & Hc & Hne & Hal & Hrest).
    pose proof (sequential_bound _ _ _ _ _ Hrest) as Hbound.
    pose proof Hc as (_ & _ & _ & Hlen & _).
    destruct (chunk_step_log s req u b e Hu Hb Hn Hc ltac:(lia) ltac:(by right))
      as (s' & Hrun & Htok & Hlost & Hch & Hb' & Hst).
    replace (e =? ui_size u - 1) with false in Hrun, Hst
      by (symmetry; apply Z.eqb_neq; exact Hne).
    set (u' := {| ui_size := ui_size u; ui_mime := ui_mime u;
                  ui_item := ui_item u; ui_id := ui_id u;
                  ui_next_start := e + 1 |}) in *.
    destruct (IH s' u' (b ++ body req)) as (Ht2 & Hl2 & Hc2 & Hi2 & Hb2);
      try done.
    + cbn [u' ui_next_start]. rewrite length_app. lia.
    + by rewrite Htok.
    + change (deliver s (req :: req' :: rest))
        with (let (s1, o) := run (_uploadProgress req) s in
              let (s2, os) := deliver s1 (req' :: rest) in (s2, o :: os)).
      rewrite Hrun. cbv zeta.
      destruct (deliver s' (req' :: rest)) as [s2 os]. cbn [fst] in *.
      cbn [u' ui_item ui_id] in Hi2, Hb2.
      rewrite Ht2, Hl2, Hc2, Hch, Htok, Hlost, Hi2, Hb2.
      change (map body (req :: req' :: rest))
        with (body req :: map body (req' :: rest)).
      change (map (fun r => Z.of_nat (length (body r))) (req :: req' :: rest))
        with (Z.of_nat (length (body req))
              :: map (fun r => Z.of_nat (length (body r))) (req' :: rest)).
      cbn [concat]. rewrite <- !app_assoc. done.
Qed.

(** X18. What was uploaded is what is downloaded: once a session is opened
    and its chunks delivered in sequence, [_get] with [alt=media] on the
    new id serves the bodies of the chunks, concatenated in order. *)
Theorem upload_then_download (env : Env) (req dl : Request) (s : State)
        (mime : string) (size t : Z) (metadata : Item) (reqs : list Request) :
  authorised s req ->
  dict_get "uploadType" (query req) = Some "resumable" ->
  X_Upload_Content_Type req = Some mime ->
  X_Upload_Content_Length req = IntValue size -> 0 <= size ->
  total_size 0 (store_values s) = Some t ->
  t + size <= space_available s ->
  json req = Some metadata -> parents_ok s metadata = true ->
  sequential (_auth_token s) (generateId env) size 0 reqs ->
  lost s (generateId env) = false ->
  authorised s dl -> match_id dl = generateId env ->
  query_get dl "alt" "metadata" = "media" ->
  let s1 := fst (run (_upload env req) s) in
  let s2 := fst (deliver s1 reqs) in
  run (_get dl) s2 = (s2, ServesBytes (VBytes (concat (map body reqs)))).
Proof.
  intros Hauth Hty Hmime Hsize Hpos Htot Hq Hjson Hpar Hseq Hlost
         Hdl Hid Halt s1 s2.
  assert (Hs1 : s1 = started s env metadata mime size)
    by (unfold s1; by rewrite (upload_started env req s mime size t metadata)).
  destruct (deliver_content reqs s1
              {| ui_size := size; ui_mime := mime; ui_item := length (heap s);
                 ui_id := generateId env; ui_next_start := 0 |} [])
    as (Htok & Hl & _ & Hin & Hb).
  - by rewrite Hs1.
  - rewrite Hs1. cbn [ui_item].
    destruct (started_session s env metadata mime size) as (_ & -> & _).
    apply pending_item_fields.
  - reflexivity.
  - rewrite Hs1. exact Hseq.
  - fold s2 in Htok, Hl, Hin, Hb. cbn [ui_id ui_item app] in Hin, Hb.
    rewrite Hs1 in Htok, Hl. cbn in Htok, Hl.
    unfold _get. run_handler.
    assert (Ha2 : authorised s2 dl) by (unfold authorised in *; by rewrite Htok).
    rewrite (authorised_eqb _ _ Ha2). run_handler.
    rewrite Hid, (dict_has_get _ _ _ Hin). run_handler.
    unfold lost in *. rewrite Hl, Hlost. run_handler.
    unfold item_of. rewrite Hin. run_handler. rewrite Halt.
    cbn [String.eqb Ascii.eqb Bool.eqb].
    by rewrite (item_bytes_inv _ _ Hb).
Qed.

Lemma upload_then_download_witness :
  let s1 := fst (run (_upload Sample.env0 (Sample.start_upload 5 []))
                     Sample.server) in
  let s2 :=
    fst (deliver s1
           [Sample.put_chunk "file-1" "bytes 0-4/5"
              [Byte.x68; Byte.x65; Byte.x6c; Byte.x6c; Byte.x6f]]) in
  run (_get (More.get_media "file-1")) s2
  = (s2, ServesBytes (VBytes [Byte.x68; Byte.x65; Byte.x6c; Byte.x6c; Byte.x6f])).
Proof.
  cbv zeta.
  refine (upload_then_download Sample.env0 (Sample.start_upload 5 [])
            (More.get_media "file-1") Sample.server "application/tar" 5 0 []
            [Sample.put_chunk "file-1" "bytes 0-4/5"
               [Byte.x68; Byte.x65; Byte.x6c; Byte.x6c; Byte.x6f]]
            _ _ _ _ _ _ _ _ _ _ _ _ _ _); try reflexivity; try lia.
  - vm_compute. discriminate.
  - cbn [sequential]. unfold carries.
    repeat split; try reflexivity. by exists "0", "4", "5".
Defined.

(** X19. The chunk log records each chunk taken in: a sequential delivery
    appends to [chunks] the lengths of the bodies, in order. *)
Theorem chunk_log (s : State) (u : upload_info) (b : list Byte.byte)
        (reqs : list Request) :
  _upload_info s = Some u ->
  item_bytes (deref s (ui_item u)) = Some b ->
  ui_next_start u = Z.of_nat (length b) ->
  sequential (_auth_token s) (ui_id u) (ui_size u) (ui_next_start u) reqs ->
  chunks (fst (deliver s reqs))
  = chunks s ++ map (fun req => Z.of_nat (length (body req))) reqs.
Proof.
  intros Hu Hb Hn Hseq.
  by destruct (deliver_content reqs s u b Hu Hb Hn Hseq) as (_ & _ & H & _).
Qed.

Lemma chunk_log_witness :
  chunks (fst (deliver (started Sample.server Sample.env0 [] "application/tar" 5)
                 [Sample.put_chunk "file-1" "bytes 0-4/5" (Sample.zeros 5)]))
  = [5].
Proof.
  refine (chunk_log (started Sample.server Sample.env0 [] "application/tar" 5)
            {| ui_size := 5; ui_mime := "application/tar"; ui_item := 0%nat;
               ui_id := "file-1"; ui_next_start := 0 |} []
            [Sample.put_chunk "file-1" "bytes 0-4/5" (Sample.zeros 5)]
            _ _ _ _); try reflexivity.
  cbn [sequential]. unfold carries.
  repeat split; try reflexivity. by exists "0", "4", "5".
Defined.

(** ** The pause hook *)

Lemma uploadProgress_hook (s s' : State) (req : Request) (o : outcome) :
  run (_uploadProgress req) s = (s', o) ->
  _upload_chunk_trigger s' = _upload_chunk_trigger (pause_hook s) /\
  _current_chunk s' = _current_chunk (pause_hook s) /\
  _waitOnChunk s' = _waitOnChunk s.
Proof.
  intros H. destruct (pause_hook_keeps s) as (_ & _ & _ & _ & _ & _ & _ & Hw & _).
  destruct (uploadProgress_inv _ _ _ _ H) as
      [[-> _] | (u & info & start & end_ & buf & buf' & n & _ & _ & _ & _ & _
                 & _ & _ & _ & _ & _ & _ & _ & _
                 & [(_ & -> & _) | [(_ & _ & -> & _) | (_ & _ & -> & _)]])];
    by rewrite <- Hw.
Qed.

Lemma pause_hook_count (reqs : list Request) :
  forall s : State,
    0 < _waitOnChunk s -> _current_chunk s <= _waitOnChunk s ->
    _upload_chunk_trigger (fst (deliver s reqs))
    = _upload_chunk_trigger s
      || (_waitOnChunk s - _current_chunk s + 1 <=? Z.of_nat (length reqs)).
Proof.
  induction reqs as [|req rest IH]; intros s Hw Hc.
  - cbn [deliver fst length]. 
    destruct (Z.leb_spec (_waitOnChunk s - _current_chunk s + 1) (Z.of_nat 0));
      [lia | by rewrite orb_false_r].
  - cbn [deliver]. destruct (run (_uploadProgress req) s) as [s1 o] eqn:Hrun.
    destruct (uploadProgress_hook _ _ _ _ Hrun) as (Ht & Hcur & Hwait).
    specialize (IH s1). destruct (deliver s1 rest) as [s2 os]. cbn [fst] in *.
    rewrite IH, Ht, Hcur, Hwait; clear IH.
    + unfold pause_hook.
      destruct (Z.ltb_spec 0 (_waitOnChunk s)) as [_|]; [| lia].
      destruct (Z.eqb_spec (_current_chunk s) (_waitOnChunk s)) as [E|E];
        cbn [_upload_chunk_trigger _current_chunk set_trigger set_current_chunk].
      * cbn [orb]. symmetry. apply orb_true_iff. right. apply Z.leb_le.
        cbn [length]. lia.
      * f_equal. cbn [length].
        destruct (Z.leb_spec (_waitOnChunk s - (_current_chunk s + 1) + 1)
                             (Z.of_nat (length rest)));
          destruct (Z.leb_spec (_waitOnChunk s - _current_chunk s + 1)
                               (Z.of_nat (S (length rest))));
          try reflexivity; lia.
    + by rewrite Hwait.
    + rewrite Hcur, Hwait. unfold pause_hook.
      destruct (Z.ltb_spec 0 (_waitOnChunk s)) as [_|]; [| lia].
      destruct (Z.eqb_spec (_current_chunk s) (_waitOnChunk s)) as [E|E];
        cbn [_current_chunk set_trigger set_current_chunk]; lia.
Qed.

(** X20. With the hook set on chunk [n] of a new server, the trigger is
    set by the [n]-th request to the progress endpoint, whatever the
    requests are: it is set after a run of requests exactly when the run
    has at least [n] of them. *)
Theorem pause_hook_fires (s : State) (reqs : list Request) :
  0 < _waitOnChunk s -> _current_chunk s = 1 ->
  _upload_chunk_trigger s = false ->
  _upload_chunk_trigger (fst (deliver s reqs))
  = (_waitOnChunk s <=? Z.of_nat (length reqs)).
Proof.
  intros Hw Hc Ht.
  destruct (Z.leb_spec 1 (_waitOnChunk s)) as [H1|]; [| lia].
  rewrite pause_hook_count, Ht, Hc by lia. cbn [orb]. f_equal. lia.
Qed.

Lemma pause_hook_fires_witness :
  _upload_chunk_trigger
    (fst (deliver (Sample.waiting_on 2 Sample.server)
            [Sample.anonymous (Sample.put_chunk "x" "bytes 0-0/1" []);
             Sample.put_chunk "y" "nothing" []]))
  = true.
Proof.
  refine (pause_hook_fires (Sample.waiting_on 2 Sample.server) _ _ _ _);
    [vm_compute | |]; reflexivity.
Defined.

(** ** Tokens *)

Lemma bearer_inj (a b : string) : "Bearer " +:+ a = "Bearer " +:+ b -> a = b.
Proof. intros H. simpl in H. by injection H. Qed.

Lemma stale_token_refused (s : State) (t : string) (ep : endpoint) (env : Env)
      (req : Request) :
  authorised s req -> _auth_token s <> t ->
  snd (serve ep env req (set_auth_token t s)) = Raises HTTPUnauthorized.
Proof.
  intros Ha Hne. rewrite serve_unauthorised; [reflexivity |].
  unfold authorised in *. cbn [_auth_token set_auth_token]. rewrite Ha.
  intros H. apply bearer_inj in H. by destruct Hne.
Qed.

Lemma is_text_true (x : option string) (s : string) :
  is_text x s = true <-> x = Some s.
Proof.
  destruct x as [t|]; cbn [is_text]; [| by split].
  rewrite String.eqb_eq. split; [by intros -> | by intros [= ->]].
Qed.

Lemma is_text_refl (s : string) : is_text (Some s) s = true.
Proof. by apply is_text_true. Qed.

Lemma checkClient_texts (sv : Server) (x y : option string) :
  _checkClientIdandSecret sv x y = true ->
  exists cid sec, x = Some cid /\ y = Some sec.
Proof.
  unfold _checkClientIdandSecret. intros H.
  destruct x as [cid|], y as [sec|]; cbn [is_text andb] in H.
  - by exists cid, sec.
  - rewrite !andb_false_r in H.
    destruct (_client_id_hack sv); [rewrite andb_false_r in H |];
      discriminate H.
  - destruct (_client_id_hack sv); discriminate H.
  - destruct (_client_id_hack sv); discriminate H.
Qed.

Lemma refresh_token_answer (env : Env) (params : list (string * string))
      (sv : Server) (cid sec : string) :
  dict_get "client_id" params = Some cid ->
  dict_get "client_secret" params = Some sec ->
  _checkClientIdandSecret sv (Some cid) (Some sec) = true ->
  dict_get "refresh_token" params = Some (_refresh_token sv) ->
  dict_get "grant_type" params = Some "refresh_token" ->
  snd (_oauth2Token env params sv)
  = Returns (json_answer (VDict [("access_token", VStr (generateId env));
                                 ("expires_in", VInt 3600);
                                 ("token_type", VStr "doesn't matter")])) /\
  fst (_oauth2Token env params sv) = generateNewAccessToken env sv.
Proof.
  intros Hc Hs Hok Hr Hg. unfold _oauth2Token.
  rewrite Hc, Hs, Hok, Hr, Hg, String.eqb_refl.
  cbn [negb fst snd String.eqb Ascii.eqb Bool.eqb]. by split.
Qed.

(** X21. A refresh that presents accepted client credentials, the current
    refresh token and the grant type [refresh_token] draws a new access
    token and answers with it; from then on the drive endpoints accept a
    request that bears it and refuse one that bears the token it
    replaced. The refresh token and the store stay as they were. *)
Theorem refresh_rotates_access_token (env : Env) (params : list (string * string))
        (sv : Server) (cid sec : string) :
  dict_get "client_id" params = Some cid ->
  dict_get "client_secret" params = Some sec ->
  _checkClientIdandSecret sv (Some cid) (Some sec) = true ->
  dict_get "refresh_token" params = Some (_refresh_token sv) ->
  dict_get "grant_type" params = Some "refresh_token" ->
  let sv' := fst (_oauth2Token env params sv) in
  snd (_oauth2Token env params sv)
  = Returns (json_answer (VDict [("access_token", VStr (generateId env));
                                 ("expires_in", VInt 3600);
                                 ("token_type", VStr "doesn't matter")])) /\
  (forall req, Authorization req = Some ("Bearer " +:+ generateId env) ->
               authorised (drive sv') req) /\
  (forall ep e req, authorised (drive sv) req ->
                    _auth_token (drive sv) <> generateId env ->
                    snd (serve ep e req (drive sv')) = Raises HTTPUnauthorized) /\
  _refresh_token sv' = _refresh_token sv /\
  items (drive sv') = items (drive sv) /\ heap (drive sv') = heap (drive sv).
Proof.
  intros Hc Hs Hok Hr Hg sv'. unfold sv', _oauth2Token.
  rewrite Hc, Hs, Hok, Hr, Hg, String.eqb_refl.
  cbn [negb fst snd String.eqb Ascii.eqb Bool.eqb].
  split; [reflexivity |]. split; [| split; [| done]].
  - intros req Hreq. unfold authorised. by rewrite Hreq.
  - intros ep e req Ha Hne. by apply stale_token_refused.
Qed.

Lemma refresh_rotates_access_token_witness :
  snd (_oauth2Token (Flow.draw "token-2") (Flow.refresh "test_refresh_token")
                    Flow.fresh)
  = Returns (json_answer (VDict [("access_token", VStr "token-2");
                                 ("expires_in", VInt 3600);
                                 ("token_type", VStr "doesn't matter")])).
Proof.
  exact (proj1 (refresh_rotates_access_token (Flow.draw "token-2")
                  (Flow.refresh "test_refresh_token") Flow.fresh
                  "default-id" "default-secret"
                  eq_refl eq_refl eq_refl eq_refl eq_refl)).
Defined.

Lemma oauth2Token_refused (env : Env) (params : list (string * string))
        (sv : Server) (cid sec rt gt : string) :
  dict_get "client_id" params = Some cid ->
  dict_get "client_secret" params = Some sec ->
  dict_get "refresh_token" params = Some rt ->
  dict_get "grant_type" params = Some gt ->
  _checkClientIdandSecret sv (Some cid) (Some sec) = false \/
  rt <> _refresh_token sv \/ gt <> "refresh_token" ->
  _oauth2Token env params sv = (sv, Raises HTTPUnauthorized).
Proof.
  intros Hc Hs Hr Hg H. unfold _oauth2Token. rewrite Hc, Hs, Hr, Hg.
  destruct (_checkClientIdandSecret sv (Some cid) (Some sec));
    [| reflexivity].
  cbn [negb]. destruct H as [H | H]; [discriminate H |].
  destruct (String.eqb_spec rt (_refresh_token sv)) as [Ert|]; [| reflexivity].
  cbn [negb]. destruct H as [H | H]; [by destruct H |].
  destruct (String.eqb_spec gt "refresh_token") as [Egt|]; [| reflexivity].
  by destruct H.
Qed.

(** X22. A refresh with all its fields is refused with [Unauthorized], and
    changes nothing, as soon as the client credentials are not accepted,
    or the refresh token is not the current one, or the grant type is not
    [refresh_token]. *)
Theorem refresh_refused (env : Env) (params : list (string * string))
        (sv : Server) (cid sec rt gt : string) :
  dict_get "client_id" params = Some cid ->
  dict_get "client_secret" params = Some sec ->
  dict_get "refresh_token" params = Some rt ->
  dict_get "grant_type" params = Some gt ->
  _checkClientIdandSecret sv (Some cid) (Some sec) = false \/
  rt <> _refresh_token sv \/ gt <> "refresh_token" ->
  _oauth2Token env params sv = (sv, Raises HTTPUnauthorized).
Proof.
  intros Hc Hs Hr Hg H.
  exact (oauth2Token_refused env params sv cid sec rt gt Hc Hs Hr Hg H).
Qed.

Lemma refresh_refused_witness :
  _oauth2Token (Flow.draw "token-2") (Flow.refresh "stale") Flow.fresh
  = (Flow.fresh, Raises HTTPUnauthorized).
Proof.
  refine (refresh_refused (Flow.draw "token-2") (Flow.refresh "stale")
            Flow.fresh "default-id" "default-secret" "stale" "refresh_token"
            eq_refl eq_refl eq_refl eq_refl _).
  right. left. discriminate.
Defined.




Lemma driveToken_inv (env : Env) (data : list (string * string)) (sv : Server)
      (r : Response) :
  snd (_driveToken env data sv) = Returns r ->
  _checkClientIdandSecret sv (dict_get "client_id" data)
                          (dict_get "client_secret" data) = true /\
  fst (_driveToken env data sv) = set_refresh_token (generateId env) sv.
Proof.
  unfold _driveToken.
  repeat match goal with
         | |- snd (if negb ?b then _ else _) = _ -> _ =>
             destruct b eqn:?; cbn [negb]; [| discriminate]
         end.
  intros _. by split.
Qed.

(** X24. The refresh token [_driveToken] hands out is the one
    [_oauth2Token] takes from then on: with the client credentials of the
    exchange, a refresh that presents it is answered a new access token,
    and a refresh that presents another token is refused. *)
Theorem exchanged_token_refreshes (env1 env2 : Env)
        (data params : list (string * string)) (sv : Server) (r : Response)
        (rt : string) :
  snd (_driveToken env1 data sv) = Returns r ->
  dict_get "client_id" params = dict_get "client_id" data ->
  dict_get "client_secret" params = dict_get "client_secret" data ->
  dict_get "grant_type" params = Some "refresh_token" ->
  dict_get "refresh_token" params = Some rt ->
  let sv1 := fst (_driveToken env1 data sv) in
  (rt = generateId env1 ->
   snd (_oauth2Token env2 params sv1)
   = Returns (json_answer (VDict [("access_token", VStr (generateId env2));
                                  ("expires_in", VInt 3600);
                                  ("token_type", VStr "doesn't matter")]))) /\
  (rt <> generateId env1 ->
   _oauth2Token env2 params sv1 = (sv1, Raises HTTPUnauthorized)).
Proof.
  intros Hok Hc Hs Hg Hr sv1.
  destruct (driveToken_inv _ _ _ _ Hok) as [Hcheck Hsv1].
  destruct (checkClient_texts _ _ _ Hcheck) as (cid & sec & Ecid & Esec).
  rewrite Ecid in Hc, Hcheck. rewrite Esec in Hs, Hcheck.
  assert (Hcheck1 : _checkClientIdandSecret sv1 (Some cid) (Some sec) = true)
    by (unfold sv1; rewrite Hsv1; exact Hcheck).
  split.
  - intros ->.
    refine (proj1 (refresh_token_answer env2 params sv1 cid sec
                     Hc Hs Hcheck1 _ Hg)).
    unfold sv1. by rewrite Hsv1.
  - intros Hne.
    apply (oauth2Token_refused env2 params sv1 cid sec rt "refresh_token");
      try done.
    right. left. unfold sv1. by rewrite Hsv1.
Qed.

Lemma exchanged_token_refreshes_witness :
  snd (_oauth2Token (Flow.draw "token-2") (Flow.refresh "refresh-2")
         (fst (_driveToken (Flow.draw "refresh-2")
                 (Flow.exchange "drive_auth_code") Flow.fresh)))
  = Returns (json_answer (VDict [("access_token", VStr "token-2");
                                 ("expires_in", VInt 3600);
                                 ("token_type", VStr "doesn't matter")])).
Proof.
  exact (proj1 (exchanged_token_refreshes (Flow.draw "refresh-2")
                  (Flow.draw "token-2") (Flow.exchange "drive_auth_code")
                  (Flow.refresh "refresh-2") Flow.fresh _ "refresh-2"
                  eq_refl eq_refl eq_refl eq_refl eq_refl)
               eq_refl).
Defined.

(** X25. [expireCreds] revokes both tokens and nothing else. The access
    and refresh tokens become the two texts drawn and every other field of
    the server is as before; when the drawn tokens differ from the former
    ones, the drive endpoints refuse a request that bore the former access
    token, and a refresh that presents the former refresh token is
    refused, whoever the client is. *)
Theorem expireCreds_revokes (access refresh : Env) (sv : Server)
        (ep : endpoint) (e : Env) (req : Request)
        (params : list (string * string)) (cid sec gt : string) :
  authorised (drive sv) req ->
  _auth_token (drive sv) <> generateId access ->
  _refresh_token sv <> generateId refresh ->
  dict_get "client_id" params = Some cid ->
  dict_get "client_secret" params = Some sec ->
  dict_get "refresh_token" params = Some (_refresh_token sv) ->
  dict_get "grant_type" params = Some gt ->
  let sv' := expireCreds access refresh sv in
  snd (serve ep e req (drive sv')) = Raises HTTPUnauthorized /\
  _oauth2Token e params sv' = (sv', Raises HTTPUnauthorized) /\
  _auth_token (drive sv') = generateId access /\
  _refresh_token sv' = generateId refresh /\
  same_but_tokens sv sv'.
Proof.
  intros Ha Hat Hrt Hc Hs Hr Hg sv'. split; [| split].
  - by apply stale_token_refused.
  - apply (oauth2Token_refused e params sv' cid sec (_refresh_token sv) gt);
      try done.
    destruct (_checkClientIdandSecret sv' (Some cid) (Some sec));
      [right; left; exact Hrt | by left].
  - split; [reflexivity |]. split; [reflexivity |].
    unfold same_but_tokens, same_drive. by repeat split.
Qed.

Lemma expireCreds_revokes_witness :
  let sv' := expireCreds (Flow.draw "token-2") (Flow.draw "refresh-2")
                         Flow.fresh in
  snd (serve GetItem Sample.env0 (Sample.get_file "file-1") (drive sv'))
  = Raises HTTPUnauthorized /\
  _oauth2Token Sample.env0 (Flow.refresh "test_refresh_token") sv'
  = (sv', Raises HTTPUnauthorized) /\
  _auth_token (drive sv') = "token-2" /\
  _refresh_token sv' = "refresh-2" /\
  same_but_tokens Flow.fresh sv'.
Proof.
  refine (expireCreds_revokes (Flow.draw "token-2") (Flow.draw "refresh-2")
            Flow.fresh GetItem Sample.env0 (Sample.get_file "file-1")
            (Flow.refresh "test_refresh_token")
            "default-id" "default-secret" "refresh_token"
            eq_refl _ _ eq_refl eq_refl eq_refl eq_refl); discriminate.
Defined.

Lemma is_text_false (t s : string) : t <> s -> is_text (Some t) s = false.
Proof. intros H. cbn [is_text]. by apply String.eqb_neq. Qed.

(** X26. [resetDriveAuth] draws new default client settings: afterwards
    the token endpoint refuses every client whose id is neither the
    custom id, nor the newly drawn default id, nor the [_client_id_hack],
    whatever its secret and token. *)
Theorem resetDriveAuth_locks_out (access refresh id5 secret5 : Env)
        (sv : Server) (e : Env) (params : list (string * string))
        (cid sec rt gt : string) :
  dict_get "client_id" params = Some cid ->
  dict_get "client_secret" params = Some sec ->
  dict_get "refresh_token" params = Some rt ->
  dict_get "grant_type" params = Some gt ->
  cid <> _custom_drive_client_id sv -> cid <> generateId id5 ->
  _client_id_hack sv <> Some cid ->
  let sv' := resetDriveAuth access refresh id5 secret5 sv in
  _oauth2Token e params sv' = (sv', Raises HTTPUnauthorized).
Proof.
  intros Hc Hs Hr Hg Hcustom Hnew Hhack sv'.
  apply (oauth2Token_refused e params sv' cid sec rt gt); try done.
  left. unfold _checkClientIdandSecret, sv', resetDriveAuth, expireCreds,
          generateNewRefreshToken, generateNewAccessToken.
  cbv zeta.
  cbn [set_config set_refresh_token set_drive config _custom_drive_client_id
       _custom_drive_client_secret _client_id_hack DEFAULT_DRIVE_CLIENT_ID
       DEFAULT_DRIVE_CLIENT_SECRET].
  rewrite (is_text_false cid (_custom_drive_client_id sv) Hcustom).
  rewrite (is_text_false cid (generateId id5) Hnew). cbn [andb].
  destruct (_client_id_hack sv) as [hack|]; [| reflexivity].
  rewrite (is_text_false cid hack); [reflexivity |].
  intros ->. by destruct Hhack.
Qed.

Lemma resetDriveAuth_locks_out_witness :
  let sv' := resetDriveAuth (Flow.draw "token-2") (Flow.draw "refresh-2")
                            (Flow.draw "cid-2") (Flow.draw "sec-2")
                            Flow.fresh in
  _oauth2Token Sample.env0 (Flow.refresh "refresh-2") sv'
  = (sv', Raises HTTPUnauthorized).
Proof.
  refine (resetDriveAuth_locks_out (Flow.draw "token-2") (Flow.draw "refresh-2")
            (Flow.draw "cid-2") (Flow.draw "sec-2") Flow.fresh Sample.env0
            (Flow.refresh "refresh-2")
            "default-id" "default-secret" "refresh-2" "refresh_token"
            eq_refl eq_refl eq_refl eq_refl _ _ _); discriminate.
Defined.
